(** * chl-web: order synchronisation and ERP file export

    A shallow embedding of [chl_web/orders/models.py] and of the script
    [chl_web/orders/scripts/upload_orders_file_to_sftp.py], followed by the
    properties of the order pipeline: remote fetch with pagination, mapping
    of the remote document, upsert into the store, rendering of the ERP file
    and delivery.

    Conventions of the embedding.
    - A decoded JSON document is a value of [json]; Python's numbers are
      restricted to integers (no floats in the documents considered) and a
      dict is the list of its items, keys unique, looked up from the left.
    - Python strings are [string]s; every text is taken to be ASCII, so a
      character is a byte.
    - A Python call that may raise returns a [result]: [Ret v] for a value,
      [Raise e] for an exception of class [e], and [Unmodelled] where the
      program leaves the fragment of Python the embedding covers (the text of
      a container, a non-text value stored in a text column).
    - The persistence engine, the HTTP transport and the SFTP session are
      collaborators: they appear as a [store], a [transport] and a
      [remote_files] value that the operations read and return. *)

From Stdlib Require Import ZArith Ascii String List Bool Lia.
From stdpp Require Import base option list strings gmap pretty.

Local Open Scope Z_scope.
Set Warnings "-register-all".

(** ** Outcomes of Python calls *)

Inductive exn : Type :=
  | KeyError (key : string)
  | IndexError
  | TypeError
  | AttributeError
  | ValueError
  | OverflowError
  | RecursionError
  | MultipleObjectsReturned
  | RequestException (code : nat)
  | JSONDecodeError
  | SSHException
  | IOError.

Inductive result (A : Type) : Type :=
  | Ret (a : A)
  | Raise (e : exn)
  | Unmodelled.

Arguments Ret {A} a.
Arguments Raise {A} e.
Arguments Unmodelled {A}.

#[global] Instance result_ret : MRet result := fun A a => Ret a.

#[global] Instance result_bind : MBind result := fun A B f m =>
  match m with
  | Ret a => f a
  | Raise e => Raise e
  | Unmodelled => Unmodelled
  end.

#[global] Instance result_fmap : FMap result := fun A B f m =>
  match m with
  | Ret a => Ret (f a)
  | Raise e => Raise e
  | Unmodelled => Unmodelled
  end.

(** ** Decoded JSON documents and the Python operations on them *)

Inductive json : Type :=
  | JNull
  | JBool (b : bool)
  | JNum (n : Z)
  | JStr (s : string)
  | JArr (items : list json)
  | JObj (fields : list (string * json)).

Fixpoint assoc {A : Type} (k : string) (kvs : list (string * A)) : option A :=
  match kvs with
  | [] => None
  | (k', v) :: rest => if String.eqb k k' then Some v else assoc k rest
  end.

(** [v[k]] for a text key: only a dict can be subscripted by a string. *)
Definition py_getitem (v : json) (k : string) : result json :=
  match v with
  | JObj kvs =>
      match assoc k kvs with
      | Some x => Ret x
      | None => Raise (KeyError k)
      end
  | _ => Raise TypeError
  end.

(** [v[0]]. *)
Definition py_first (v : json) : result json :=
  match v with
  | JArr (x :: _) => Ret x
  | JArr [] => Raise IndexError
  | JStr (String c _) => Ret (JStr (String c EmptyString))
  | JStr EmptyString => Raise IndexError
  | JObj _ => Raise (KeyError "0")
  | _ => Raise TypeError
  end.

(** [v.get(k)]: a method of dicts only; an absent key gives [None]. *)
Definition py_get (v : json) (k : string) : result json :=
  match v with
  | JObj kvs => Ret (default JNull (assoc k kvs))
  | _ => Raise AttributeError
  end.

(** Truth value of a Python object. *)
Definition py_truthy (v : json) : bool :=
  match v with
  | JNull => false
  | JBool b => b
  | JNum n => negb (n =? 0)
  | JStr s => negb (String.eqb s "")
  | JArr l => match l with [] => false | _ => true end
  | JObj l => match l with [] => false | _ => true end
  end.

Fixpoint chars (s : string) : list json :=
  match s with
  | EmptyString => []
  | String c rest => JStr (String c EmptyString) :: chars rest
  end.

(** The elements a [for] loop visits. *)
Definition py_iter (v : json) : result (list json) :=
  match v with
  | JArr l => Ret l
  | JObj kvs => Ret (map (fun kv => JStr (fst kv)) kvs)
  | JStr s => Ret (chars s)
  | _ => Raise TypeError
  end.

(** [a < b]. Booleans are integers; two texts compare lexicographically;
    the comparison of two lists is left out of the model. *)
Definition py_lt (a b : json) : result bool :=
  match a, b with
  | JNum x, JNum y => Ret (x <? y)
  | JNum x, JBool y => Ret (x <? Z.b2z y)
  | JBool x, JNum y => Ret (Z.b2z x <? y)
  | JBool x, JBool y => Ret (Z.b2z x <? Z.b2z y)
  | JStr x, JStr y => Ret (String.ltb x y)
  | JArr _, JArr _ => Unmodelled
  | _, _ => Raise TypeError
  end.

(** [a + 1]. *)
Definition py_succ (a : json) : result Z :=
  match a with
  | JNum x => Ret (x + 1)
  | JBool x => Ret (Z.b2z x + 1)
  | _ => Raise TypeError
  end.

(** [a // 100]: floor division, as [Z.div] for a positive divisor. *)
Definition py_floordiv100 (a : json) : result Z :=
  match a with
  | JNum x => Ret (x / 100)
  | JBool x => Ret (Z.b2z x / 100)
  | _ => Raise TypeError
  end.

(** [str(v)] as an f-string field renders it. *)
Definition py_str (v : json) : result string :=
  match v with
  | JStr s => Ret s
  | JNull => Ret "None"
  | JBool true => Ret "True"
  | JBool false => Ret "False"
  | JNum n => Ret (pretty n)
  | JArr _ | JObj _ => Unmodelled
  end.

(** ["left" + v]: text concatenation accepts a text only. *)
Definition py_concat (left : string) (v : json) : result string :=
  match v with
  | JStr s => Ret (left +:+ s)
  | _ => Raise TypeError
  end.

Definition newline : string := String (ascii_of_nat 10) EmptyString.

(** [sep.join(items)]: every item must be a text. *)
Fixpoint py_join (sep : string) (items : list json) : result string :=
  match items with
  | [] => Ret ""
  | [JStr s] => Ret s
  | JStr s :: rest => t ← py_join sep rest; Ret (s +:+ sep +:+ t)
  | _ :: _ => Raise TypeError
  end.

(** ** Timestamps ([datetime.datetime], naive)

    The fields of a [datetime] lie in Python's ranges ([valid_datetime]):
    the constructor refuses anything else with [ValueError]. *)

Record datetime : Type := mk_datetime {
  year : Z;
  month : Z;
  day : Z;
  hour : Z;
  minute : Z;
  second : Z;
  microsecond : Z
}.

Definition is_leap (y : Z) : bool :=
  ((y mod 4 =? 0) && negb (y mod 100 =? 0)) || (y mod 400 =? 0).

Definition days_in_month (y m : Z) : Z :=
  if m =? 2 then (if is_leap y then 29 else 28)
  else if (m =? 4) || (m =? 6) || (m =? 9) || (m =? 11) then 30
  else 31.

Definition valid_datetime (d : datetime) : bool :=
  (1 <=? year d) && (year d <=? 9999) &&
  (1 <=? month d) && (month d <=? 12) &&
  (1 <=? day d) && (day d <=? days_in_month (year d) (month d)) &&
  (0 <=? hour d) && (hour d <=? 23) &&
  (0 <=? minute d) && (minute d <=? 59) &&
  (0 <=? second d) && (second d <=? 59) &&
  (0 <=? microsecond d) && (microsecond d <=? 999999).

(** [datetime(y, m, d, H, M, S)]. *)
Definition make_datetime (y m d hh mi ss : Z) : result datetime :=
  let dt := mk_datetime y m d hh mi ss 0 in
  if valid_datetime dt then Ret dt else Raise ValueError.

(** *** Decimal digits *)

Definition is_digit (c : ascii) : bool :=
  let n := nat_of_ascii c in (48 <=? n)%nat && (n <=? 57)%nat.

Definition digit_value (c : ascii) : Z := Z.of_nat (nat_of_ascii c) - 48.

Definition digit_char (n : Z) : ascii := ascii_of_nat (48 + Z.to_nat (n mod 10)).

Definition pad2 (n : Z) : string :=
  String (digit_char (n / 10)) (String (digit_char n) "").

Definition pad4 (n : Z) : string :=
  String (digit_char (n / 1000)) (String (digit_char (n / 100)) (pad2 n)).

Definition pad6 (n : Z) : string :=
  String (digit_char (n / 100000)) (String (digit_char (n / 10000)) (pad4 n)).

(** [%Y] of [strftime], which Python passes to the C library: glibc writes
    the year without padding, so a year below 1000 has fewer than four
    digits. The years of a [datetime] are 1 to 9999. *)
Definition strftime_year (y : Z) : string :=
  if y <? 10 then String (digit_char y) ""
  else if y <? 100 then pad2 y
  else if y <? 1000 then String (digit_char (y / 100)) (pad2 y)
  else pad4 y.

(** *** [datetime.strptime(text, "%Y-%m-%dT%H:%M:%S")]

    [strptime] compiles the format to the regular expression
    [(\d\d\d\d)-(1[0-2]|0[1-9]|[1-9])-(3[01]|[12]\d|0[1-9]|[1-9]| [1-9])T
     (2[0-3]|[0-1]\d|\d):([0-5]\d|\d):(6[0-1]|[0-5]\d|\d)],
    matched ignoring case, and refuses a text the match does not cover
    entirely. No field can hold the separator that follows it, so a field is
    the text up to that separator. *)

(** The text before the first character satisfying [sep], and the text
    after it. *)
Fixpoint split_at (sep : ascii -> bool) (s : string) : option (string * string) :=
  match s with
  | EmptyString => None
  | String c rest =>
      if sep c then Some (EmptyString, rest)
      else match split_at sep rest with
           | Some (before, after) => Some (String c before, after)
           | None => None
           end
  end.

Definition is_char (x : ascii) (c : ascii) : bool := Ascii.eqb c x.

Definition is_T (c : ascii) : bool := Ascii.eqb c "T" || Ascii.eqb c "t".

(** One or two characters read as a number: [lo1 .. 9] for a single digit,
    [lo2 .. hi2] for two digits. *)
Definition field_token (lo1 lo2 hi2 : Z) (t : string) : option Z :=
  match t with
  | String a EmptyString =>
      if is_digit a && (lo1 <=? digit_value a) then Some (digit_value a) else None
  | String a (String b EmptyString) =>
      let n := 10 * digit_value a + digit_value b in
      if is_digit a && is_digit b && (lo2 <=? n) && (n <=? hi2) then Some n else None
  | _ => None
  end.

Definition month_token : string -> option Z := field_token 1 1 12.

(** The day also admits a space followed by a digit from 1 to 9. *)
Definition day_token (t : string) : option Z :=
  match t with
  | String " " (String b EmptyString) =>
      if is_digit b && (1 <=? digit_value b) then Some (digit_value b) else None
  | _ => field_token 1 1 31 t
  end.

Definition hour_token : string -> option Z := field_token 0 0 23.
Definition minute_token : string -> option Z := field_token 0 0 59.
Definition second_token : string -> option Z := field_token 0 0 61.

Definition year_token (s : string) : option (Z * string) :=
  match s with
  | String a (String b (String c (String d rest))) =>
      if is_digit a && is_digit b && is_digit c && is_digit d
      then Some (1000 * digit_value a + 100 * digit_value b
                 + 10 * digit_value c + digit_value d, rest)
      else None
  | _ => None
  end.

Definition match_iso_format (s : string) : option (Z * Z * Z * Z * Z * Z) :=
  '(y, s1) ← year_token s;
  s2 ← (match s1 with String "-" r => Some r | _ => None end);
  '(mt, s3) ← split_at (is_char "-") s2;
  m ← month_token mt;
  '(dt, s4) ← split_at is_T s3;
  d ← day_token dt;
  '(Ht, s5) ← split_at (is_char ":") s4;
  hh ← hour_token Ht;
  '(Mt, s6) ← split_at (is_char ":") s5;
  mi ← minute_token Mt;
  ss ← second_token s6;
  Some (y, m, d, hh, mi, ss).

Definition strptime_iso (s : string) : result datetime :=
  match match_iso_format s with
  | Some (y, m, d, hh, mi, ss) => make_datetime y m d hh mi ss
  | None => Raise ValueError
  end.

(** [text.split(".")[0]]: the text before the first dot, the whole text
    when it has none. *)
Fixpoint before_dot (s : string) : string :=
  match s with
  | EmptyString => EmptyString
  | String c rest => if Ascii.eqb c "." then EmptyString else String c (before_dot rest)
  end.

(** [date - timedelta(hours=1)]. *)
Definition minus_one_hour (d : datetime) : result datetime :=
  if 1 <=? hour d then
    Ret (mk_datetime (year d) (month d) (day d) (hour d - 1)
           (minute d) (second d) (microsecond d))
  else if 1 <? day d then
    Ret (mk_datetime (year d) (month d) (day d - 1) 23
           (minute d) (second d) (microsecond d))
  else if 1 <? month d then
    Ret (mk_datetime (year d) (month d - 1) (days_in_month (year d) (month d - 1)) 23
           (minute d) (second d) (microsecond d))
  else if 1 <? year d then
    Ret (mk_datetime (year d - 1) 12 31 23 (minute d) (second d) (microsecond d))
  else Raise OverflowError.

(** ** Project settings ([django.conf.settings])

    The settings module is not part of the sources: its values are taken as
    a parameter. *)

Record settings : Type := {
  X_VTEX_API_APPKEY : string;
  X_VTEX_API_APPTOKEN : string;
  VTEX_ORDER_LIST_API_ENDPOINT : string;
  VTEX_ORDER_API_ENDPOINT : string;
  SFTP_HOSTNAME : string;
  SFTP_PORT : Z;
  SFTP_USERNAME : string;
  SFTP_PASSWORD : string
}.

(** ** class Order *)

Module Order.

(** A row of the orders table. [pk] is the primary key the store assigns;
    the [created] and [modified] columns that [TimeStampedModel] adds are
    maintained by the library and are not represented. *)
Record t : Type := mk {
  pk : nat;
  order_type : string;
  client_code : string;
  file_type : string;
  company_code : string;
  order_created_at : option datetime;
  shipping_stimate_date : option datetime;
  currency : string;
  buyer_fullname : string;
  buyer_document : string;
  buyer_phone : string;
  buyer_email : string;
  shipping_address : string;
  shipping_address_city : string;
  shipping_address_reference : string;
  shipping_address_zip : string;
  warehouse_code : string;
  order_number : string;
  sell_type : string;
  sell_type_code : string;
  payment_proof : string;
  seller_code : string;
  route_text_code : option string;
  from_api : json
}.

(** [strftime(date, "%d%m%Y")]. *)
Definition erp_strftime (date : option datetime) : string :=
  match date with
  | None => ""
  | Some d => pad2 (day d) +:+ pad2 (month d) +:+ strftime_year (year d)
  end.

Definition ws_strptime (date : string) : result datetime :=
  strptime_iso (before_dot date).

(** [strftime(date, "%Y-%m-%dT%H:%M:%S.%fZ")]. *)
Definition hours_range_format (d : datetime) : string :=
  strftime_year (year d) +:+ "-" +:+ pad2 (month d) +:+ "-" +:+ pad2 (day d) +:+ "T"
  +:+ pad2 (hour d) +:+ ":" +:+ pad2 (minute d) +:+ ":" +:+ pad2 (second d)
  +:+ "." +:+ pad6 (microsecond d) +:+ "Z".

(** [datetime.utcnow()] is read once for each bound left out:
    [now_from] and [now_to] are these two readings of the clock. *)
Definition get_orders_filter_hours_range
    (now_from now_to : datetime) (from_time to_time : option datetime)
    : result string :=
  let from_time := match from_time with Some t => t | None => now_from end in
  to_time ← (match to_time with
             | Some t => Ret t
             | None => minus_one_hour now_to
             end);
  Ret ("creationDate:[" +:+ hours_range_format from_time +:+ " TO "
       +:+ hours_range_format to_time +:+ "]").

End Order.

(** [ws_strptime] applied to a value of the remote document: [.split] is a
    method of texts only. *)
Definition ws_strptime_value (v : json) : result datetime :=
  match v with
  | JStr s => Order.ws_strptime s
  | _ => Raise AttributeError
  end.

(** ** class OrderItem *)

Module OrderItem.

Inductive TaxCode : Type := ZERO | IVA.

Definition TaxCode_value (c : TaxCode) : string :=
  match c with
  | ZERO => "000"
  | IVA => "001"
  end.

(** A row of the order items table. [order_id] is the foreign key to the
    order; [item_price_without_tax] is the (integral) value of the float
    column. *)
Record t : Type := mk {
  pk : nat;
  order_id : nat;
  item_type : string;
  item_number : Z;
  ean : string;
  item_qty : Z;
  item_price_without_tax : Z;
  destination_address_code : string;
  qty : Z;
  tax_code : string
}.

End OrderItem.

(** ** The persistence store

    The two tables, rows in the order the engine returns them (the order of
    insertion; an update keeps the place of the row), and the next primary
    key of each. The constraints of the engine on column contents (NOT NULL,
    maximal lengths) are not represented: a text column holds a text, and a
    value of the remote document that is not a text makes the mapper leave
    the model ([as_text]). *)

Record store : Type := mk_store {
  orders : list Order.t;
  order_items : list OrderItem.t;
  next_order_pk : nat;
  next_item_pk : nat
}.

Definition empty_store : store := mk_store [] [] 1 1.

(** Operations on the store: the store is threaded, and it keeps what was
    written before an exception. *)
Definition db (A : Type) : Type := store -> store * result A.

Definition db_ret {A : Type} (a : A) : db A := fun st => (st, Ret a).

Definition db_lift {A : Type} (r : result A) : db A := fun st => (st, r).

Definition db_bind {A B : Type} (m : db A) (f : A -> db B) : db B :=
  fun st =>
    match m st with
    | (st', Ret a) => f a st'
    | (st', Raise e) => (st', Raise e)
    | (st', Unmodelled) => (st', Unmodelled)
    end.

Notation "'do' x <- m ; k" := (db_bind m (fun x => k))
  (at level 10, x name, m at level 100, k at level 200, only parsing).

(** The rows satisfying [P], each with its position in the table. *)
Fixpoint find_rows {A : Type} (P : A -> bool) (i : nat) (rows : list A)
    : list (nat * A) :=
  match rows with
  | [] => []
  | r :: rest =>
      if P r then (i, r) :: find_rows P (S i) rest else find_rows P (S i) rest
  end.

(** A value of the remote document stored in a text column. *)
Definition as_text (v : json) : result string :=
  match v with
  | JStr s => Ret s
  | _ => Unmodelled
  end.

(** A value of the remote document stored in an integer column. *)
Definition as_int (v : json) : result Z :=
  match v with
  | JNum n => Ret n
  | _ => Unmodelled
  end.

(** ** class VtexClientOrderItem *)

Module VtexClientOrderItem.

(** The [defaults] of [update_or_create]. *)
Record defaults : Type := mk_defaults {
  d_item_number : Z;
  d_item_qty : Z;
  d_item_price_without_tax : Z
}.

(** A new row: [__init__] fixes [item_type], [qty],
    [destination_address_code] and [tax_code]. *)
Definition init (pk order_id : nat) (ean : string) (d : defaults) : OrderItem.t :=
  OrderItem.mk pk order_id "D" (d_item_number d) ean (d_item_qty d)
    (d_item_price_without_tax d) "" 0 (OrderItem.TaxCode_value OrderItem.IVA).

(** A row read from the table keeps its columns; [defaults] are set on it. *)
Definition set_defaults (r : OrderItem.t) (d : defaults) : OrderItem.t :=
  OrderItem.mk (OrderItem.pk r) (OrderItem.order_id r) (OrderItem.item_type r)
    (d_item_number d) (OrderItem.ean r) (d_item_qty d)
    (d_item_price_without_tax d) (OrderItem.destination_address_code r)
    (OrderItem.qty r) (OrderItem.tax_code r).

Definition same_key (order_id : nat) (ean : string) (r : OrderItem.t) : bool :=
  Nat.eqb (OrderItem.order_id r) order_id && String.eqb (OrderItem.ean r) ean.

(** [objects.update_or_create(order=order, ean=ean, defaults=defaults)[0]]. *)
Definition update_or_create (order : Order.t) (ean : string) (d : defaults)
    : db OrderItem.t :=
  fun st =>
    match find_rows (same_key (Order.pk order) ean) 0 (order_items st) with
    | [] =>
        let r := init (next_item_pk st) (Order.pk order) ean d in
        (mk_store (orders st) (order_items st ++ [r])
           (next_order_pk st) (S (next_item_pk st)), Ret r)
    | [(i, r)] =>
        let r' := set_defaults r d in
        (mk_store (orders st) (<[i := r']> (order_items st))
           (next_order_pk st) (next_item_pk st), Ret r')
    | _ => (st, Raise MultipleObjectsReturned)
    end.

(** The [defaults] dict and the [ean] argument of one item, evaluated in
    the order of the source. *)
Definition item_arguments (index : Z) (item : json) : result (string * defaults) :=
  quantity ← py_getitem item "quantity";
  price ← py_getitem item "price";
  price100 ← py_floordiv100 price;
  ean ← py_getitem item "ean";
  item_qty ← as_int quantity;
  ean ← as_text ean;
  Ret (ean, mk_defaults (index + 1) item_qty price100).

(** The inner loop, [index] counting from 0. *)
Fixpoint factory_items (order : Order.t) (index : Z) (items : list json)
    : db (list OrderItem.t) :=
  match items with
  | [] => db_ret []
  | item :: rest =>
      do args <- db_lift (item_arguments index item);
      do obj <- update_or_create order (fst args) (snd args);
      do objs <- factory_items order (index + 1) rest;
      db_ret (obj :: objs)
  end.

Fixpoint factory (orders_from_db : list Order.t) : db (list OrderItem.t) :=
  match orders_from_db with
  | [] => db_ret []
  | order :: rest =>
      do item_list <- db_lift (py_getitem (Order.from_api order) "items");
      do items <- db_lift (py_iter item_list);
      do objs <- factory_items order 0 items;
      do more <- factory rest;
      db_ret (objs ++ more)
  end.

End VtexClientOrderItem.

(** ** The collaborators of the fetch and of the delivery *)

(** [requests.request("GET", url, headers=headers, params=params).json()]:
    the decoded body, or the exception of the transport or of the decoder.
    The remote platform answers a request the same way during one fetch. *)
Definition transport : Type :=
  string -> gmap string string -> option (gmap string json) -> result json.

(** The remote file store: whether it accepts a connection with the given
    host, port, user and password, whether it lets the file of a path be
    opened for writing, and the text of each of its files. *)
Record sftp_server : Type := mk_sftp {
  accepts : string -> Z -> string -> string -> bool;
  writable : string -> bool;
  remote_files : gmap string string
}.

(** ** class VtexClientOrder *)

Module VtexClientOrder.

Definition default_headers (cfg : settings) : gmap string string :=
  <["accept" := "application/json"]>
  (<["content-type" := "application/json"]>
  (<["x-vtex-api-appkey" := X_VTEX_API_APPKEY cfg]>
  (<["x-vtex-api-apptoken" := X_VTEX_API_APPTOKEN cfg]> ∅))).

Definition default_filter : string :=
  "creationDate:[2016-01-01T02:00:00.000Z TO 2021-01-01T01:59:59.999Z]".

Definition default_querystring : gmap string json :=
  <["f_creationDate" := JStr default_filter]> ∅.

(** The list comprehension of [get_orders]: the detail of each summary. *)
Definition order_details (http : transport) (cfg : settings)
    (headers : gmap string string) (summaries : list json) : result (list json) :=
  mapM (fun order_summary =>
          order_id ← py_getitem order_summary "orderId";
          url ← py_concat (VTEX_ORDER_API_ENDPOINT cfg) order_id;
          http url headers None) summaries.

(** [limit] is the number of nested calls the interpreter still allows:
    Python ends a deeper recursion with [RecursionError]. *)
Fixpoint get_orders (http : transport) (cfg : settings) (limit : nat)
    (headers : option (gmap string string))
    (querystring : option (gmap string json)) (page : Z) : result (list json) :=
  match limit with
  | O => Raise RecursionError
  | S limit' =>
      let headers := default (default_headers cfg) headers in
      let querystring := default default_querystring querystring in
      let querystring := <["page" := JNum page]> querystring in
      order_list_api_response ←
        http (VTEX_ORDER_LIST_API_ENDPOINT cfg) headers (Some querystring);
      summary_list ← py_getitem order_list_api_response "list";
      summaries ← py_iter summary_list;
      orders_list ← order_details http cfg headers summaries;
      paging ← py_getitem order_list_api_response "paging";
      current_page ← py_getitem paging "currentPage";
      paging ← py_getitem order_list_api_response "paging";
      total_pages ← py_getitem paging "pages";
      more ← py_lt current_page total_pages;
      if (more : bool) then
        next_page ← py_succ current_page;
        rest ← get_orders http cfg limit' (Some headers) (Some querystring) next_page;
        Ret (orders_list ++ rest)
      else Ret orders_list
  end.

(** The dict [format_ws_address_data] returns. *)
Record address : Type := mk_address {
  city : json;
  info : string;
  reference : json;
  postal_code : json
}.

(** [[address_data[info] for info in keys if address_data.get(info)]]. *)
Fixpoint address_parts (address_data : json) (keys : list string)
    : result (list json) :=
  match keys with
  | [] => Ret []
  | key :: rest =>
      present ← py_get address_data key;
      if py_truthy present then
        part ← py_getitem address_data key;
        parts ← address_parts address_data rest;
        Ret (part :: parts)
      else address_parts address_data rest
  end.

Definition format_ws_address_data (order : json) : result address :=
  shipping_data ← py_getitem order "shippingData";
  selected_addresses ← py_getitem shipping_data "selectedAddresses";
  address_data ← py_first selected_addresses;
  parts ← address_parts address_data ["street"; "number"; "complement"; "neighborhood"];
  address_info ← py_join " " parts;
  city ← py_get address_data "city";
  reference ← py_get address_data "reference";
  postal_code ← py_get address_data "postalCode";
  Ret (mk_address city address_info
         (if py_truthy reference then reference else JStr "") postal_code).

(** The [defaults] of [update_or_create], as texts and timestamps. *)
Record defaults : Type := mk_defaults {
  d_order_created_at : datetime;
  d_shipping_stimate_date : datetime;
  d_buyer_fullname : string;
  d_buyer_document : string;
  d_buyer_phone : string;
  d_buyer_email : string;
  d_shipping_address : string;
  d_shipping_address_city : string;
  d_shipping_address_reference : string;
  d_shipping_address_zip : string;
  d_order_number : string;
  d_route_text_code : string;
  d_from_api : json
}.

(** The [defaults] dict of one remote order: the lookups and the parsing
    in the order of the source, then the values as the columns hold them. *)
Definition factory_defaults (order : json) : result defaults :=
  address ← format_ws_address_data order;
  creation_date ← py_getitem order "creationDate";
  order_created_at ← ws_strptime_value creation_date;
  shipping_data ← py_getitem order "shippingData";
  logistics_info ← py_getitem shipping_data "logisticsInfo";
  logistics ← py_first logistics_info;
  estimate ← py_getitem logistics "shippingEstimateDate";
  shipping_stimate_date ← ws_strptime_value estimate;
  profile ← py_getitem order "clientProfileData";
  first_name ← py_getitem profile "firstName";
  profile ← py_getitem order "clientProfileData";
  last_name ← py_getitem profile "lastName";
  profile ← py_getitem order "clientProfileData";
  document ← py_getitem profile "document";
  profile ← py_getitem order "clientProfileData";
  phone ← py_getitem profile "phone";
  profile ← py_getitem order "clientProfileData";
  email ← py_getitem profile "email";
  order_id ← py_getitem order "orderId";
  first_name ← py_str first_name;
  last_name ← py_str last_name;
  document ← as_text document;
  phone ← as_text phone;
  email ← as_text email;
  city ← as_text (city address);
  reference ← as_text (reference address);
  postal_code ← as_text (postal_code address);
  order_number ← as_text order_id;
  Ret (mk_defaults order_created_at shipping_stimate_date
         (first_name +:+ " " +:+ last_name) document phone email
         (info address) city reference postal_code order_number "" order).

(** A new row: [__init__] fixes the columns of the integration profile. *)
Definition init (pk : nat) (d : defaults) : Order.t :=
  Order.mk pk "H" "CT0000344" "E-COMM" "120"
    (Some (d_order_created_at d)) (Some (d_shipping_stimate_date d)) "COP"
    (d_buyer_fullname d) (d_buyer_document d) (d_buyer_phone d) (d_buyer_email d)
    (d_shipping_address d) (d_shipping_address_city d)
    (d_shipping_address_reference d) (d_shipping_address_zip d)
    "CM0000001" (d_order_number d) "V010" "222" "" "V02011"
    (Some "") (d_from_api d).

(** A row read from the table keeps its columns; [defaults] are set on it. *)
Definition set_defaults (r : Order.t) (d : defaults) : Order.t :=
  Order.mk (Order.pk r) (Order.order_type r) (Order.client_code r)
    (Order.file_type r) (Order.company_code r)
    (Some (d_order_created_at d)) (Some (d_shipping_stimate_date d))
    (Order.currency r)
    (d_buyer_fullname d) (d_buyer_document d) (d_buyer_phone d) (d_buyer_email d)
    (d_shipping_address d) (d_shipping_address_city d)
    (d_shipping_address_reference d) (d_shipping_address_zip d)
    (Order.warehouse_code r) (d_order_number d) (Order.sell_type r)
    (Order.sell_type_code r) (Order.payment_proof r) (Order.seller_code r)
    (Some (d_route_text_code d)) (d_from_api d).

Definition same_key (order_number : string) (r : Order.t) : bool :=
  String.eqb (Order.order_number r) order_number.

(** [objects.update_or_create(order_number=order_number, defaults=defaults)[0]]. *)
Definition update_or_create (order_number : string) (d : defaults) : db Order.t :=
  fun st =>
    match find_rows (same_key order_number) 0 (orders st) with
    | [] =>
        let r := init (next_order_pk st) d in
        (mk_store (orders st ++ [r]) (order_items st)
           (S (next_order_pk st)) (next_item_pk st), Ret r)
    | [(i, r)] =>
        let r' := set_defaults r d in
        (mk_store (<[i := r']> (orders st)) (order_items st)
           (next_order_pk st) (next_item_pk st), Ret r')
    | _ => (st, Raise MultipleObjectsReturned)
    end.

Fixpoint factory (orders_from_api : list json) : db (list Order.t) :=
  match orders_from_api with
  | [] => db_ret []
  | order :: rest =>
      do d <- db_lift (factory_defaults order);
      do obj <- update_or_create (d_order_number d) d;
      do objs <- factory rest;
      db_ret (obj :: objs)
  end.

(** [f"{value}"] of a nullable text column. *)
Definition str_nullable (v : option string) : string :=
  match v with
  | Some text => text
  | None => "None"
  end.

Definition get_file_headers (order : Order.t) : list string :=
  [ Order.order_type order;
    "|" +:+ Order.client_code order;
    "|" +:+ Order.file_type order;
    "|" +:+ Order.company_code order;
    "|" +:+ Order.erp_strftime (Order.order_created_at order);
    "|" +:+ Order.erp_strftime (Order.shipping_stimate_date order);
    "|" +:+ Order.currency order;
    "|" +:+ Order.buyer_fullname order +:+ "/" +:+ Order.buyer_document order
        +:+ "/" +:+ Order.shipping_address_city order
        +:+ "/" +:+ Order.shipping_address order
        +:+ "/" +:+ Order.buyer_phone order
        +:+ "/" +:+ Order.shipping_address_reference order;
    "|1";
    "|" +:+ Order.warehouse_code order;
    "|" +:+ Order.order_number order;
    "|?," +:+ Order.buyer_document order +:+ ",?," +:+ Order.buyer_fullname order
        +:+ "," +:+ Order.sell_type order
        +:+ "," +:+ Order.shipping_address_zip order;
    "|" +:+ Order.sell_type_code order +:+ "," +:+ Order.payment_proof order;
    "|" +:+ Order.seller_code order;
    "|" +:+ str_nullable (Order.route_text_code order);
    "|" +:+ Order.buyer_email order ].

(** [f"{value}"] of the float column read from the table, for an integral
    value of magnitude up to 2^53: the digits followed by [.0]. *)
Definition str_float (value : Z) : string := pretty value +:+ ".0".

Definition file_item (item : OrderItem.t) : string :=
  String.concat ""
    [ OrderItem.item_type item;
      "|" +:+ pretty (OrderItem.item_number item);
      "|" +:+ OrderItem.ean item;
      "|" +:+ pretty (OrderItem.item_qty item);
      "|" +:+ str_float (OrderItem.item_price_without_tax item);
      "|" +:+ OrderItem.destination_address_code item +:+ "|";
      "|" +:+ pretty (OrderItem.qty item);
      "|" +:+ OrderItem.tax_code item ].

Definition get_file_items (items : list OrderItem.t) : list string :=
  map file_item items.

(** [order.orderitem_set.all()]: the items of the order. The relation
    declares no ordering, so the order of the result is the engine's; the
    model returns the rows in the order of the table, which is one of the
    orders the engine may return. *)
Definition orderitem_set (st : store) (order : Order.t) : list OrderItem.t :=
  filter (fun item => OrderItem.order_id item = Order.pk order) (order_items st).

Definition file_path (order : Order.t) : string :=
  "ag-pruebas/" +:+ Order.order_number order +:+ ".txt".

(** What is written to the file of one order: the header segments, a
    newline, the item lines joined by newlines. *)
Definition file_text (order : Order.t) (items : list OrderItem.t) : string :=
  String.concat "" (get_file_headers order) +:+ newline
  +:+ String.concat newline (get_file_items items).

(** [sftp.file(file_path, "wt")] raises [IOError] when the server does not
    let the file be opened for writing. Nothing catches it: the loop of
    [create_order_files] ends there, with the files of the orders before it
    written, and the exception leaves [upload_to_sftp]. [orders_written]
    gives the orders whose files the loop writes, and the outcome of the
    loop. A connection lost in the middle of the writing of one file is not
    represented. *)
Fixpoint orders_written (can_write : string -> bool) (orders : list Order.t)
    : list Order.t * result unit :=
  match orders with
  | [] => ([], Ret tt)
  | order :: rest =>
      if can_write (file_path order)
      then let (written, outcome) := orders_written can_write rest in
           (order :: written, outcome)
      else ([], Raise IOError)
  end.

(** The writes of the loop, on the orders whose files are opened. Each file
    is opened in mode ["wt"], which replaces its text. The two [print] calls
    write to the standard output only. *)
Fixpoint create_order_files (st : store) (sftp : gmap string string)
    (orders : list Order.t) : gmap string string :=
  match orders with
  | [] => sftp
  | order :: rest =>
      let items := orderitem_set st order in
      create_order_files st (<[file_path order := file_text order items]> sftp) rest
  end.

Definition upload_to_sftp (cfg : settings) (st : store) (server : sftp_server)
    (orders : list Order.t) : sftp_server * result unit :=
  if accepts server (SFTP_HOSTNAME cfg) (SFTP_PORT cfg)
       (SFTP_USERNAME cfg) (SFTP_PASSWORD cfg)
  then let (written, outcome) := orders_written (writable server) orders in
       (mk_sftp (accepts server) (writable server)
          (create_order_files st (remote_files server) written), outcome)
  else (server, Raise SSHException).

End VtexClientOrder.

(** ** The script [upload_orders_file_to_sftp] *)

(** The store and the remote file store, before and after a run. *)
Record world : Type := mk_world {
  w_store : store;
  w_server : sftp_server
}.

(** The part of [run] that follows the fetch. *)
Definition run_with (cfg : settings) (orders_from_api : list json) (w : world)
    : world * result unit :=
  match VtexClientOrder.factory (take 3 orders_from_api) (w_store w) with
  | (st1, Ret orders_from_db) =>
      match VtexClientOrderItem.factory orders_from_db st1 with
      | (st2, Ret _) =>
          let (server, outcome) :=
            VtexClientOrder.upload_to_sftp cfg st2 (w_server w) orders_from_db in
          (mk_world st2 server, outcome)
      | (st2, Raise e) => (mk_world st2 (w_server w), Raise e)
      | (st2, Unmodelled) => (mk_world st2 (w_server w), Unmodelled)
      end
  | (st1, Raise e) => (mk_world st1 (w_server w), Raise e)
  | (st1, Unmodelled) => (mk_world st1 (w_server w), Unmodelled)
  end.

Definition run (http : transport) (cfg : settings) (limit : nat) (w : world)
    : world * result unit :=
  match VtexClientOrder.get_orders http cfg limit None None 1 with
  | Ret orders_from_api => run_with cfg orders_from_api w
  | Raise e => (w, Raise e)
  | Unmodelled => (w, Unmodelled)
  end.

(** ** Definitions used to state the properties *)

(** The text [YYYY-MM-DDTHH:MM:SS] of a timestamp. *)
Definition iso_seconds (d : datetime) : string :=
  pad4 (year d) +:+ "-" +:+ pad2 (month d) +:+ "-" +:+ pad2 (day d) +:+ "T"
  +:+ pad2 (hour d) +:+ ":" +:+ pad2 (minute d) +:+ ":" +:+ pad2 (second d).

(** A timestamp truncated to whole seconds. *)
Definition whole_seconds (d : datetime) : datetime :=
  mk_datetime (year d) (month d) (day d) (hour d) (minute d) (second d) 0.

(** The four fields of an address that make the shipping address. *)
Definition address_keys : list string :=
  ["street"; "number"; "complement"; "neighborhood"].

(** Stated from the specification: the texts of the fields [keys] that are
    present and not empty, in the order of [keys]. *)
Fixpoint present_texts (fields : list (string * json)) (keys : list string)
    : list string :=
  match keys with
  | [] => []
  | key :: rest =>
      match assoc key fields with
      | Some (JStr text) =>
          if String.eqb text "" then present_texts fields rest
          else text :: present_texts fields rest
      | _ => present_texts fields rest
      end
  end.

(** A field that is absent, or present with a text or with [null]. *)
Definition text_or_absent (v : option json) : Prop :=
  match v with
  | None | Some JNull | Some (JStr _) => True
  | _ => False
  end.

(** A remote order: one buyer, one selected address, two items. *)
Definition sample_address : list (string * json) :=
  [ ("street", JStr "Main"); ("number", JStr "42"); ("complement", JStr "");
    ("neighborhood", JStr "Centro"); ("city", JStr "Bogota");
    ("postalCode", JStr "110111") ].

Definition sample_shipping_data : json :=
  JObj [ ("selectedAddresses", JArr [JObj sample_address]);
         ("logisticsInfo",
          JArr [JObj [("shippingEstimateDate", JStr "2021-03-09T00:00:00.0000000+00:00")]]) ].

Definition sample_items : list json :=
  [ JObj [("ean", JStr "7701234567890"); ("quantity", JNum 2); ("price", JNum 19990)];
    JObj [("ean", JStr "7709876543210"); ("quantity", JNum 1); ("price", JNum 4550)] ].

Definition raw_order (order_id : string) (items : list json) : json :=
  JObj [ ("orderId", JStr order_id);
         ("creationDate", JStr "2021-03-04T10:15:30.1234567+00:00");
         ("clientProfileData",
          JObj [ ("firstName", JStr "Ana"); ("lastName", JStr "Diaz");
                 ("document", JStr "1020304050"); ("phone", JStr "3001234567");
                 ("email", JStr "ana@example.com") ]);
         ("shippingData", sample_shipping_data);
         ("items", JArr items) ].

Definition sample_raw_order : json := raw_order "v1001-01" sample_items.

(** The same remote order, its two items listed the other way round. *)
Definition sample_raw_order_reordered : json := raw_order "v1001-01" (rev sample_items).

(** What the order factory derives from [sample_raw_order], and the row it
    creates in an empty store. *)
Definition sample_defaults : VtexClientOrder.defaults :=
  VtexClientOrder.mk_defaults
    (mk_datetime 2021 3 4 10 15 30 0) (mk_datetime 2021 3 9 0 0 0 0)
    "Ana Diaz" "1020304050" "3001234567" "ana@example.com"
    "Main 42 Centro" "Bogota" "" "110111" "v1001-01" "" sample_raw_order.

Definition sample_order : Order.t := VtexClientOrder.init 1 sample_defaults.

(** One page of the fetch, as [get_orders] handles it: the request of the
    list, the detail of each summary and the pagination test. The result is
    the orders of the page and the number of the next page, if the fetch
    goes on. *)
Definition page_step (http : transport) (cfg : settings)
    (headers : gmap string string) (querystring : gmap string json)
    : result (list json * option Z) :=
  order_list_api_response ←
    http (VTEX_ORDER_LIST_API_ENDPOINT cfg) headers (Some querystring);
  summary_list ← py_getitem order_list_api_response "list";
  summaries ← py_iter summary_list;
  orders_list ← VtexClientOrder.order_details http cfg headers summaries;
  paging ← py_getitem order_list_api_response "paging";
  current_page ← py_getitem paging "currentPage";
  paging ← py_getitem order_list_api_response "paging";
  total_pages ← py_getitem paging "pages";
  more ← py_lt current_page total_pages;
  if (more : bool) then
    next_page ← py_succ current_page;
    Ret (orders_list, Some next_page)
  else Ret (orders_list, None).

(** The answer of the list endpoint for one page: the summaries, the number
    of the page and the number of pages. *)
Definition page_response (summaries : list json) (current total : Z) (r : json) : Prop :=
  py_getitem r "list" = Ret (JArr summaries) /\
  exists paging,
    py_getitem r "paging" = Ret paging /\
    py_getitem paging "currentPage" = Ret (JNum current) /\
    py_getitem paging "pages" = Ret (JNum total).

(** The detail endpoint answers [detail] for the order of [summary]. *)
Definition detail_of (http : transport) (cfg : settings)
    (headers : gmap string string) (summary detail : json) : Prop :=
  exists order_id,
    py_getitem summary "orderId" = Ret (JStr order_id) /\
    http (VTEX_ORDER_API_ENDPOINT cfg +:+ order_id) headers None = Ret detail.

(** A remote platform that serves [total] pages: page [k] lists the
    summaries of the orders [details k] and reports itself as page [k] of
    [total]. *)
Definition serves_pages (http : transport) (cfg : settings)
    (headers : gmap string string) (querystring : gmap string json)
    (total : Z) (details : Z -> list json) : Prop :=
  forall k, 1 <= k <= total ->
    exists r summaries,
      http (VTEX_ORDER_LIST_API_ENDPOINT cfg) headers
        (Some (<["page" := JNum k]> querystring)) = Ret r /\
      page_response summaries k total r /\
      Forall2 (detail_of http cfg headers) summaries (details k).

(** The orders of the pages [first], [first + 1], ..., the last being page
    [first + count - 1]. *)
Definition orders_of_pages (details : Z -> list json) (first : Z) (count : nat)
    : list json :=
  concat (map details (seqZ first (Z.of_nat count))).

(** An exception [e] occurs in the chain of calls that starts at [page]
    with [limit] calls allowed: in the handling of that page, or, that page
    being handled and followed by another, in the rest of the chain. *)
Inductive fetch_fails (http : transport) (cfg : settings)
    (headers : gmap string string) (querystring : gmap string json)
    : nat -> Z -> exn -> Prop :=
  | fails_on_page (limit : nat) (page : Z) (e : exn) :
      page_step http cfg headers (<["page" := JNum page]> querystring) = Raise e ->
      fetch_fails http cfg headers querystring (S limit) page e
  | fails_later (limit : nat) (page next : Z) (fetched : list json) (e : exn) :
      page_step http cfg headers (<["page" := JNum page]> querystring)
        = Ret (fetched, Some next) ->
      fetch_fails http cfg headers querystring limit next e ->
      fetch_fails http cfg headers querystring (S limit) page e.

(** A remote platform with five orders on three pages. *)
Definition sample_cfg : settings := {|
  X_VTEX_API_APPKEY := "key";
  X_VTEX_API_APPTOKEN := "token";
  VTEX_ORDER_LIST_API_ENDPOINT := "https://shop.example/api/oms/pvt/orders";
  VTEX_ORDER_API_ENDPOINT := "https://shop.example/api/oms/pvt/orders/";
  SFTP_HOSTNAME := "erp.example";
  SFTP_PORT := 22;
  SFTP_USERNAME := "chl";
  SFTP_PASSWORD := "secret"
|}.

Definition sample_summary (order_id : string) : json :=
  JObj [("orderId", JStr order_id); ("status", JStr "invoiced")].

Definition sample_detail (order_id : string) : json :=
  JObj [("orderId", JStr order_id); ("items", JArr [])].

Definition sample_page_ids (page : Z) : list string :=
  if page =? 1 then ["A"; "B"]
  else if page =? 2 then ["C"; "D"]
  else if page =? 3 then ["E"]
  else [].

Definition sample_list_response (page : Z) : json :=
  JObj [ ("list", JArr (map sample_summary (sample_page_ids page)));
         ("paging", JObj [ ("total", JNum 5); ("pages", JNum 3);
                           ("currentPage", JNum page); ("perPage", JNum 2) ]) ].

(** The detail of the order [broken] cannot be fetched. *)
Definition sample_http (broken : string) : transport :=
  fun url headers params =>
    if String.eqb url (VTEX_ORDER_LIST_API_ENDPOINT sample_cfg) then
      match params ≫= (fun q => q !! "page") with
      | Some (JNum page) => Ret (sample_list_response page)
      | _ => Raise (RequestException 400)
      end
    else
      match assoc url
              (map (fun order_id =>
                      (VTEX_ORDER_API_ENDPOINT sample_cfg +:+ order_id, order_id))
                 ["A"; "B"; "C"; "D"; "E"]) with
      | Some order_id =>
          if String.eqb order_id broken then Raise (RequestException 500)
          else Ret (sample_detail order_id)
      | None => Raise (RequestException 404)
      end.

Definition sample_details (page : Z) : list json :=
  map sample_detail (sample_page_ids page).

(** Stated from the specification: the filter for the orders created in
    the last hour up to [now]. *)
Definition spec_last_hour_filter (now : datetime) : result string :=
  from_time ← minus_one_hour now;
  Ret ("creationDate:[" +:+ Order.hours_range_format from_time +:+ " TO "
       +:+ Order.hours_range_format now +:+ "]").

Definition sample_now : datetime := mk_datetime 2021 3 4 10 15 30 0.

(** A remote platform that shows the filter it receives: its single page
    lists one order whose identifier is the text of [f_creationDate], and
    the detail of an order is the address requested. *)
Definition probe_http : transport :=
  fun url headers params =>
    match params with
    | Some q =>
        Ret (JObj [ ("list", JArr [JObj [("orderId", default JNull (q !! "f_creationDate"))]]);
                    ("paging", JObj [("currentPage", JNum 1); ("pages", JNum 1)]) ])
    | None => Ret (JStr url)
    end.

(** The invariant of the orders table: an order number is the number of
    one row at most. *)
Definition unique_order_numbers (st : store) : Prop :=
  forall order_number,
    (length (find_rows (VtexClientOrder.same_key order_number) 0 (orders st)) <= 1)%nat.

(** The store after [n] runs of the order factory on the same remote
    orders. *)
Fixpoint factory_runs (n : nat) (orders_from_api : list json) (st : store) : store :=
  match n with
  | O => st
  | S n' => factory_runs n' orders_from_api (fst (VtexClientOrder.factory orders_from_api st))
  end.

(** An entry of the item list of a remote order: its product code, its
    quantity and its price in minor units. *)
Definition item_shape (item : json) (spec : string * Z * Z) : Prop :=
  let '(ean, quantity, price) := spec in
  py_getitem item "quantity" = Ret (JNum quantity) /\
  py_getitem item "price" = Ret (JNum price) /\
  py_getitem item "ean" = Ret (JStr ean).

(** Stated from the specification: the item row for the entry at position
    [index] (from 0) of the item list of [order]. *)
Definition item_holds (order : Order.t) (index : Z) (spec : string * Z * Z)
    (r : OrderItem.t) : Prop :=
  let '(ean, quantity, price) := spec in
  OrderItem.order_id r = Order.pk order /\
  OrderItem.item_number r = index + 1 /\
  OrderItem.ean r = ean /\
  OrderItem.item_qty r = quantity /\
  OrderItem.item_price_without_tax r = price / 100 /\
  OrderItem.tax_code r = "001" /\
  OrderItem.item_type r = "D" /\
  OrderItem.qty r = 0 /\
  OrderItem.destination_address_code r = "".

(** One row per entry, in the order of the entries, positions counted from
    [index]. *)
Fixpoint items_hold (order : Order.t) (index : Z) (specs : list (string * Z * Z))
    (rows : list OrderItem.t) : Prop :=
  match specs, rows with
  | [], [] => True
  | spec :: specs', r :: rows' =>
      item_holds order index spec r /\ items_hold order (index + 1) specs' rows'
  | _, _ => False
  end.

(** The invariants of the items table: an order and a product code are
    those of one row at most, and every row has the four columns that
    [VtexClientOrderItem] fixes. *)
Definition unique_items (st : store) : Prop :=
  forall order_id ean,
    (length (find_rows (VtexClientOrderItem.same_key order_id ean) 0 (order_items st))
     <= 1)%nat.

Definition vtex_item (r : OrderItem.t) : Prop :=
  OrderItem.item_type r = "D" /\ OrderItem.qty r = 0 /\
  OrderItem.destination_address_code r = "" /\ OrderItem.tax_code r = "001".

Definition vtex_items (st : store) : Prop := Forall vtex_item (order_items st).

(** Whether the numbers are in ascending order. *)
Fixpoint ascending (numbers : list Z) : bool :=
  match numbers with
  | a :: (b :: _) as rest => (a <=? b) && ascending rest
  | _ => true
  end.

(** A remote file store that accepts every connection, lets every file be
    written and has no file, and the world of a first run. *)
Definition sample_server : sftp_server :=
  mk_sftp (fun _ _ _ _ => true) (fun _ => true) ∅.

Definition sample_world : world := mk_world empty_store sample_server.

(** A remote platform with four orders on one page. *)
Definition shop_order_ids : list string := ["v1001-01"; "v1002-01"; "v1003-01"; "v1004-01"].

Definition shop_http : transport :=
  fun url headers params =>
    match params with
    | Some _ =>
        Ret (JObj [ ("list", JArr (map sample_summary shop_order_ids));
                    ("paging", JObj [("currentPage", JNum 1); ("pages", JNum 1)]) ])
    | None =>
        match assoc url
                (map (fun order_id =>
                        (VTEX_ORDER_API_ENDPOINT sample_cfg +:+ order_id,
                         raw_order order_id sample_items))
                   shop_order_ids) with
        | Some order => Ret order
        | None => Raise (RequestException 404)
        end
    end.

(** A remote platform that answers every list request with the same page,
    reported as page 1 of 2. *)
Definition stuck_http : transport :=
  fun url headers params =>
    match params with
    | Some _ =>
        Ret (JObj [ ("list", JArr [sample_summary "A"]);
                    ("paging", JObj [("currentPage", JNum 1); ("pages", JNum 2)]) ])
    | None => Ret (sample_detail "A")
    end.

(** A remote platform that reports page 2 of 3 when page 1 is requested,
    and page 3 of 3 otherwise. *)
Definition skipping_http : transport :=
  fun url headers params =>
    match params with
    | Some q =>
        match q !! "page" with
        | Some (JNum 1) =>
            Ret (JObj [ ("list", JArr [sample_summary "A"]);
                        ("paging", JObj [("currentPage", JNum 2); ("pages", JNum 3)]) ])
        | _ =>
            Ret (JObj [ ("list", JArr [sample_summary "E"]);
                        ("paging", JObj [("currentPage", JNum 3); ("pages", JNum 3)]) ])
        end
    | None =>
        if String.eqb url (VTEX_ORDER_API_ENDPOINT sample_cfg +:+ "A")
        then Ret (sample_detail "A") else Ret (sample_detail "E")
    end.



(** Whether a value of the remote document is a text. *)
Definition is_text (v : json) : bool :=
  match v with
  | JStr _ => true
  | _ => false
  end.

(** The product code of an entry of the item list. *)
Definition ean_of (spec : string * Z * Z) : string := fst (fst spec).

(** The row of the entry [spec] is the only row of the table for the order
    and the product code of the entry. *)
Definition row_of_entry (order : Order.t) (table : list OrderItem.t)
    (spec : string * Z * Z) (r : OrderItem.t) : Prop :=
  exists i,
    find_rows (VtexClientOrderItem.same_key (Order.pk order) (ean_of spec)) 0 table
    = [(i, r)].

(** The row of a remote order [v1001-01] with the given item list, as the
    order factory creates it in an empty store. *)
Definition sample_order_with (items : list json) : Order.t :=
  VtexClientOrder.init 1
    (VtexClientOrder.mk_defaults
       (mk_datetime 2021 3 4 10 15 30 0) (mk_datetime 2021 3 9 0 0 0 0)
       "Ana Diaz" "1020304050" "3001234567" "ana@example.com"
       "Main 42 Centro" "Bogota" "" "110111" "v1001-01" ""
       (raw_order "v1001-01" items)).

(** The invariant of the primary keys of the orders table: the keys are
    distinct and below the next key. *)
Definition order_pks_fresh (st : store) : Prop :=
  NoDup (map Order.pk (orders st)) /\
  Forall (fun r => (Order.pk r < next_order_pk st)%nat) (orders st).

(** A remote file store that refuses every connection. *)
Definition refusing_server : sftp_server :=
  mk_sftp (fun _ _ _ _ => false) (fun _ => true) ∅.

(** Stated from the specification: the row [o] has, in each column that
    the mapping of a remote order derives, the value [d] of that column. *)
Definition holds_defaults (o : Order.t) (d : VtexClientOrder.defaults) : Prop :=
  Order.order_created_at o = Some (VtexClientOrder.d_order_created_at d) /\
  Order.shipping_stimate_date o = Some (VtexClientOrder.d_shipping_stimate_date d) /\
  Order.buyer_fullname o = VtexClientOrder.d_buyer_fullname d /\
  Order.buyer_document o = VtexClientOrder.d_buyer_document d /\
  Order.buyer_phone o = VtexClientOrder.d_buyer_phone d /\
  Order.buyer_email o = VtexClientOrder.d_buyer_email d /\
  Order.shipping_address o = VtexClientOrder.d_shipping_address d /\
  Order.shipping_address_city o = VtexClientOrder.d_shipping_address_city d /\
  Order.shipping_address_reference o = VtexClientOrder.d_shipping_address_reference d /\
  Order.shipping_address_zip o = VtexClientOrder.d_shipping_address_zip d /\
  Order.order_number o = VtexClientOrder.d_order_number d /\
  Order.route_text_code o = Some "" /\
  Order.from_api o = VtexClientOrder.d_from_api d.

(** A store that already has a row for the order number [v1001-01], with
    another buyer, other dates and another document, after a row of another
    order. *)
Definition stale_store : store :=
  mk_store
    [ VtexClientOrder.init 3
        (VtexClientOrder.mk_defaults
           (mk_datetime 2021 2 1 8 0 0 0) (mk_datetime 2021 2 5 0 0 0 0)
           "Luis Rey" "900" "311" "luis@example.com"
           "Calle 9" "Cali" "" "760001" "v0999-01" "" JNull);
      VtexClientOrder.init 7
        (VtexClientOrder.mk_defaults
           (mk_datetime 2021 3 1 9 0 0 0) (mk_datetime 2021 3 2 0 0 0 0)
           "Old Name" "1" "2" "old@example.com"
           "Old street" "Old city" "old reference" "000000" "v1001-01" "" JNull) ]
    [] 8 1.

(** The path of the file of an order number. *)
Definition order_path (order_number : string) : string :=
  "ag-pruebas/" +:+ order_number +:+ ".txt".

(** Stated from the specification: [row] has the values that the mapping
    derives from the remote order [raw]. *)
Definition order_mapped (raw : json) (row : Order.t) : Prop :=
  exists d, VtexClientOrder.factory_defaults raw = Ret d /\ holds_defaults row d.

(** [o] is the last row of [rows] with its order number: when two of the
    rows that the order factory returns have the same order number, they are
    two states of one row of the table, and the table has the later one. *)
Definition last_upsert (rows : list Order.t) (o : Order.t) : Prop :=
  exists before after,
    rows = before ++ o :: after /\
    Forall (fun r => Order.order_number r <> Order.order_number o) after.

(** The items table has exactly one row for the order and the product
    code. *)
Definition one_item_row (st : store) (order_id : nat) (ean : string) : Prop :=
  length (find_rows (VtexClientOrderItem.same_key order_id ean) 0 (order_items st))
  = 1%nat.

(** Stated from the specification: the items of [row] are derived. The
    remote document of the row has an item list, and the items table has
    exactly one row of the order for the product code of each entry. *)
Definition items_derived (st : store) (row : Order.t) : Prop :=
  exists item_list items,
    py_getitem (Order.from_api row) "items" = Ret item_list /\
    py_iter item_list = Ret items /\
    Forall (fun item =>
              exists ean,
                py_getitem item "ean" = Ret (JStr ean) /\
                one_item_row st (Order.pk row) ean) items.

(** Stated from the specification: in the world [w'] the order of [row],
    one of the [rows] that the order factory returned, is persisted, has its
    items derived and is uploaded. The orders table has exactly one row [o]
    with the order number, a state of the same row (the last of [rows] with
    this number); the items are derived; and the file of the order number
    holds the text of [o] with its items. *)
Definition order_processed (w' : world) (rows : list Order.t) (row : Order.t) : Prop :=
  exists j o,
    find_rows (VtexClientOrder.same_key (Order.order_number row)) 0 (orders (w_store w'))
    = [(j, o)] /\
    last_upsert rows o /\
    Order.pk o = Order.pk row /\
    items_derived (w_store w') row /\
    remote_files (w_server w') !! order_path (Order.order_number row)
    = Some (VtexClientOrder.file_text o
              (VtexClientOrder.orderitem_set (w_store w') o)).

(** The same when no two of the rows have the same order number: the only
    row of the table with the order number is [row] itself. *)
Definition order_delivered (w' : world) (row : Order.t) : Prop :=
  (exists j,
     find_rows (VtexClientOrder.same_key (Order.order_number row)) 0
       (orders (w_store w')) = [(j, row)]) /\
  items_derived (w_store w') row /\
  remote_files (w_server w') !! order_path (Order.order_number row)
  = Some (VtexClientOrder.file_text row
            (VtexClientOrder.orderitem_set (w_store w') row)).

(** A world after earlier runs: the orders of [stale_store], an item of
    each of them, and a remote file store that has the file of the order
    [v0999-01] and an earlier file of the order [v1004-01]. *)
Definition busy_world : world :=
  mk_world
    (mk_store (orders stale_store)
       [ OrderItem.mk 1 3 "D" 1 "7700000000001" 1 10 "" 0 "001";
         OrderItem.mk 2 7 "D" 1 "7709876543210" 5 1 "" 0 "001" ] 8 3)
    (mk_sftp (fun _ _ _ _ => true) (fun _ => true)
       (<["ag-pruebas/v0999-01.txt" := "H|earlier"]>
          (<["ag-pruebas/v1004-01.txt" := "H|before"]> ∅))).

(** The row of the remote order [order_number] of the shop, with the
    primary key [pk]. *)
Definition shop_row (pk : nat) (order_number : string) : Order.t :=
  VtexClientOrder.init pk
    (VtexClientOrder.mk_defaults
       (mk_datetime 2021 3 4 10 15 30 0) (mk_datetime 2021 3 9 0 0 0 0)
       "Ana Diaz" "1020304050" "3001234567" "ana@example.com"
       "Main 42 Centro" "Bogota" "" "110111" order_number ""
       (raw_order order_number sample_items)).

(** A store with three orders of the shop and the items of the first two. *)
Definition shop_store : store :=
  mk_store
    [ shop_row 1 "v1001-01"; shop_row 2 "v1002-01"; shop_row 3 "v1003-01" ]
    [ OrderItem.mk 1 1 "D" 1 "7701234567890" 2 199 "" 0 "001";
      OrderItem.mk 2 2 "D" 1 "7701234567890" 2 199 "" 0 "001";
      OrderItem.mk 3 1 "D" 2 "7709876543210" 1 45 "" 0 "001" ] 4 4.

(** A remote file store that has an earlier file of the order [v1001-01]
    and a file of another order, and that accepts every connection; the
    first lets every file be written, the second refuses the file of the
    order [v1002-01]. *)
Definition earlier_files : gmap string string :=
  <["ag-pruebas/v1001-01.txt" := "H|earlier"]>
    (<["ag-pruebas/v0999-01.txt" := "H|other"]> ∅).

Definition open_server : sftp_server :=
  mk_sftp (fun _ _ _ _ => true) (fun _ => true) earlier_files.

Definition picky_server : sftp_server :=
  mk_sftp (fun _ _ _ _ => true)
    (fun path => negb (String.eqb path "ag-pruebas/v1002-01.txt")) earlier_files.

(** * Properties *)

Example py_join_example :
  py_join " " [JStr "Main"; JStr "42"; JStr "Centro"] = Ret "Main 42 Centro".
Proof. reflexivity. Qed.

Example pretty_example : py_str (JNum (-120)) = Ret "-120".
Proof. vm_compute. reflexivity. Qed.

Example strptime_example :
  strptime_iso "2021-03-04T10:15:30" = Ret (mk_datetime 2021 3 4 10 15 30 0).
Proof. vm_compute. reflexivity. Qed.

Example strptime_example2 :
  strptime_iso "2021-3- 4t1:5:7" = Ret (mk_datetime 2021 3 4 1 5 7 0).
Proof. vm_compute. reflexivity. Qed.

Example strptime_example3 : strptime_iso "2021-02-29T10:15:30" = Raise ValueError.
Proof. vm_compute. reflexivity. Qed.

(** ** The header of the file *)

Example get_file_headers_sample :
  VtexClientOrder.get_file_headers sample_order =
  [ "H"; "|CT0000344"; "|E-COMM"; "|120"; "|04032021"; "|09032021"; "|COP";
    "|Ana Diaz/1020304050/Bogota/Main 42 Centro/3001234567/"; "|1";
    "|CM0000001"; "|v1001-01"; "|?,1020304050,?,Ana Diaz,V010,110111";
    "|222,"; "|V02011"; "|"; "|ana@example.com" ].
Proof. vm_compute. reflexivity. Qed.

(** C1, as the specification states it, fails: the header of the sample
    order has 16 segments, not 15. *)
Lemma get_file_headers_not_15_segments :
  length (VtexClientOrder.get_file_headers sample_order) <> 15%nat.
Proof. vm_compute. discriminate. Qed.

(** C1, amended: for every order the header has exactly 16 segments: the
    order type without a pipe, then 15 segments each prefixed with a pipe, in
    the order client code, file type, company code, order date, shipping
    date, currency, buyer and address block, the literal 1, warehouse code,
    order number, localization block, sell type and payment block, seller
    code, route code, buyer email. *)
Theorem get_file_headers_shape (order : Order.t) :
  length (VtexClientOrder.get_file_headers order) = 16%nat /\
  VtexClientOrder.get_file_headers order =
    Order.order_type order ::
    map (String "|")
      [ Order.client_code order;
        Order.file_type order;
        Order.company_code order;
        Order.erp_strftime (Order.order_created_at order);
        Order.erp_strftime (Order.shipping_stimate_date order);
        Order.currency order;
        String.concat "/"
          [ Order.buyer_fullname order; Order.buyer_document order;
            Order.shipping_address_city order; Order.shipping_address order;
            Order.buyer_phone order; Order.shipping_address_reference order ];
        "1";
        Order.warehouse_code order;
        Order.order_number order;
        String.concat ","
          [ "?"; Order.buyer_document order; "?"; Order.buyer_fullname order;
            Order.sell_type order; Order.shipping_address_zip order ];
        String.concat "," [ Order.sell_type_code order; Order.payment_proof order ];
        Order.seller_code order;
        VtexClientOrder.str_nullable (Order.route_text_code order);
        Order.buyer_email order ].
Proof.
  split; [reflexivity|].
  unfold VtexClientOrder.get_file_headers. cbn [map String.concat].
  reflexivity.
Qed.

(** ** Parsing the timestamps of the remote platform *)

Section Digits.

Lemma is_digit_plain (c : ascii) :
  is_digit c = true ->
  Ascii.eqb c "." = false /\ is_char "-" c = false /\ is_char ":" c = false
  /\ is_T c = false /\ Ascii.eqb c " " = false.
Proof.
  destruct c as [[] [] [] [] [] [] [] []]; vm_compute; intuition congruence.
Qed.

Lemma digit_char_digit (n : Z) :
  is_digit (digit_char n) = true /\ digit_value (digit_char n) = n mod 10.
Proof.
  unfold digit_char.
  assert (Hk : 0 <= n mod 10 < 10) by (apply Z.mod_pos_bound; lia).
  remember (n mod 10) as k eqn:Ek. clear Ek.
  assert (Hc : k = 0 \/ k = 1 \/ k = 2 \/ k = 3 \/ k = 4 \/ k = 5 \/ k = 6
               \/ k = 7 \/ k = 8 \/ k = 9) by lia.
  repeat (destruct Hc as [-> | Hc]; [vm_compute; split; reflexivity |]).
  subst k. vm_compute. split; reflexivity.
Qed.

Lemma pad2_value (n : Z) :
  0 <= n <= 99 ->
  10 * digit_value (digit_char (n / 10)) + digit_value (digit_char n) = n.
Proof.
  intros Hn.
  destruct (digit_char_digit (n / 10)) as [_ ->].
  destruct (digit_char_digit n) as [_ ->].
  rewrite (Z.mod_small (n / 10) 10) by (split; [apply Z.div_pos; lia | apply Z.div_lt_upper_bound; lia]).
  pose proof (Z.div_mod n 10). lia.
Qed.

Lemma pad4_value (n : Z) :
  0 <= n <= 9999 ->
  1000 * digit_value (digit_char (n / 1000)) + 100 * digit_value (digit_char (n / 100))
  + 10 * digit_value (digit_char (n / 10)) + digit_value (digit_char n) = n.
Proof.
  intros Hn.
  destruct (digit_char_digit (n / 1000)) as [_ ->].
  destruct (digit_char_digit (n / 100)) as [_ ->].
  destruct (digit_char_digit (n / 10)) as [_ ->].
  destruct (digit_char_digit n) as [_ ->].
  pose proof (Z.div_mod n 10). pose proof (Z.div_mod (n / 10) 10).
  pose proof (Z.div_mod (n / 100) 10).
  assert (n / 10 / 10 = n / 100) by (rewrite Z.div_div by lia; reflexivity).
  assert (n / 100 / 10 = n / 1000) by (rewrite Z.div_div by lia; reflexivity).
  assert (0 <= n / 1000 < 10)
    by (split; [apply Z.div_pos; lia | apply Z.div_lt_upper_bound; lia]).
  rewrite (Z.mod_small (n / 1000) 10) by lia.
  lia.
Qed.

End Digits.

(** [append] does not unfold under [simpl]: its two equations, as a tactic. *)
Ltac append_norm :=
  repeat match goal with
    | |- context [append (String ?c ?s) ?t] =>
        change (append (String c s) t) with (String c (append s t))
    | |- context [append EmptyString ?t] =>
        change (append EmptyString t) with t
    end.

Section Strptime.

Lemma field_token_pad2 (lo1 lo2 hi2 n : Z) :
  0 <= n <= 99 -> lo2 <= n <= hi2 ->
  field_token lo1 lo2 hi2 (pad2 n) = Some n.
Proof.
  intros Hn Hr. unfold field_token, pad2.
  destruct (digit_char_digit (n / 10)) as [-> _].
  destruct (digit_char_digit n) as [-> _].
  rewrite (pad2_value n Hn).
  replace (lo2 <=? n) with true by (symmetry; apply Z.leb_le; lia).
  replace (n <=? hi2) with true by (symmetry; apply Z.leb_le; lia).
  reflexivity.
Qed.

Lemma day_token_digit (a b : ascii) :
  is_digit a = true ->
  day_token (String a (String b "")) = field_token 1 1 31 (String a (String b "")).
Proof.
  destruct a as [[] [] [] [] [] [] [] []]; try reflexivity.
  vm_compute. discriminate.
Qed.

Lemma day_token_pad2 (n : Z) : 1 <= n <= 31 -> day_token (pad2 n) = Some n.
Proof.
  intros Hn. unfold pad2. rewrite day_token_digit.
  - apply (field_token_pad2 1 1 31 n); lia.
  - apply digit_char_digit.
Qed.

Lemma split_at_pad2 (sep : ascii -> bool) (n : Z) (c : ascii) (rest : string) :
  (forall x, is_digit x = true -> sep x = false) -> sep c = true ->
  split_at sep (pad2 n +:+ String c rest) = Some (pad2 n, rest).
Proof.
  intros Hd Hc. unfold pad2. append_norm. cbn [split_at].
  rewrite (Hd (digit_char (n / 10))) by apply digit_char_digit.
  rewrite (Hd (digit_char n)) by apply digit_char_digit.
  rewrite Hc. reflexivity.
Qed.

Lemma year_token_pad4 (y : Z) (rest : string) :
  0 <= y <= 9999 -> year_token (pad4 y +:+ rest) = Some (y, rest).
Proof.
  intros Hy. unfold pad4, pad2. append_norm. cbn [year_token].
  destruct (digit_char_digit (y / 1000)) as [-> _].
  destruct (digit_char_digit (y / 100)) as [-> _].
  destruct (digit_char_digit (y / 10)) as [-> _].
  destruct (digit_char_digit y) as [-> _].
  cbn [andb]. rewrite (pad4_value y Hy). reflexivity.
Qed.

Lemma days_in_month_le_31 (y m : Z) : days_in_month y m <= 31.
Proof.
  unfold days_in_month.
  repeat match goal with |- context [if ?b then _ else _] => destruct b end; lia.
Qed.

Lemma valid_datetime_bounds (d : datetime) :
  valid_datetime d = true ->
  1 <= year d <= 9999 /\ 1 <= month d <= 12 /\ 1 <= day d <= 31 /\
  0 <= hour d <= 23 /\ 0 <= minute d <= 59 /\ 0 <= second d <= 59.
Proof.
  unfold valid_datetime. rewrite !andb_true_iff, !Z.leb_le.
  pose proof (days_in_month_le_31 (year d) (month d)). lia.
Qed.

Lemma valid_whole_seconds (d : datetime) :
  valid_datetime d = true -> valid_datetime (whole_seconds d) = true.
Proof.
  unfold valid_datetime, whole_seconds. cbn [year month day hour minute second microsecond].
  rewrite !andb_true_iff, !Z.leb_le. lia.
Qed.

Lemma match_iso_format_iso_seconds (d : datetime) :
  valid_datetime d = true ->
  match_iso_format (iso_seconds d) =
    Some (year d, month d, day d, hour d, minute d, second d).
Proof.
  intros Hv. apply valid_datetime_bounds in Hv.
  destruct Hv as (Hy & Hm & Hd & Hh & Hmi & Hs).
  assert (Hdash : forall x, is_digit x = true -> is_char "-" x = false)
    by (intros x Hx; apply (is_digit_plain x Hx)).
  assert (Hcolon : forall x, is_digit x = true -> is_char ":" x = false)
    by (intros x Hx; apply (is_digit_plain x Hx)).
  assert (HT : forall x, is_digit x = true -> is_T x = false)
    by (intros x Hx; apply (is_digit_plain x Hx)).
  unfold match_iso_format, iso_seconds, month_token, hour_token, minute_token,
    second_token.
  rewrite year_token_pad4 by lia. append_norm.
  cbv beta iota delta [mbind option_bind].
  rewrite (split_at_pad2 (is_char "-") (month d) "-" _ Hdash eq_refl).
  rewrite (field_token_pad2 1 1 12) by lia.
  rewrite (split_at_pad2 is_T (day d) "T" _ HT eq_refl).
  rewrite day_token_pad2 by lia.
  rewrite (split_at_pad2 (is_char ":") (hour d) ":" _ Hcolon eq_refl).
  rewrite (field_token_pad2 0 0 23) by lia.
  rewrite (split_at_pad2 (is_char ":") (minute d) ":" _ Hcolon eq_refl).
  rewrite (field_token_pad2 0 0 59) by lia.
  rewrite (field_token_pad2 0 0 61) by lia.
  reflexivity.
Qed.

Lemma strptime_iso_seconds (d : datetime) :
  valid_datetime d = true -> strptime_iso (iso_seconds d) = Ret (whole_seconds d).
Proof.
  intros Hv. unfold strptime_iso. rewrite match_iso_format_iso_seconds by exact Hv.
  unfold make_datetime. fold (whole_seconds d).
  rewrite valid_whole_seconds by exact Hv. reflexivity.
Qed.

End Strptime.

Lemma append_assoc_text (a b c : string) : (a +:+ b) +:+ c = a +:+ (b +:+ c).
Proof.
  induction a as [|x a IH]; append_norm; [reflexivity|]. rewrite IH. reflexivity.
Qed.

Section WsStrptime.

(** A text without a dot is its own first piece. *)
Lemma before_dot_append (text rest : string) :
  before_dot text = text -> before_dot (text +:+ String "." rest) = text.
Proof.
  induction text as [|c text IH]; intros H; append_norm.
  - reflexivity.
  - cbn [before_dot] in *. destruct (Ascii.eqb c "."); [discriminate|].
    injection H as H. rewrite (IH H). reflexivity.
Qed.

Lemma before_dot_pad2 (n : Z) (rest : string) :
  before_dot (pad2 n +:+ rest) = pad2 n +:+ before_dot rest.
Proof.
  unfold pad2. append_norm. cbn [before_dot].
  destruct (is_digit_plain (digit_char (n / 10))) as [-> _]; [apply digit_char_digit|].
  destruct (is_digit_plain (digit_char n)) as [-> _]; [apply digit_char_digit|].
  reflexivity.
Qed.

Lemma before_dot_pad2_end (n : Z) : before_dot (pad2 n) = pad2 n.
Proof.
  unfold pad2. cbn [before_dot].
  destruct (is_digit_plain (digit_char (n / 10))) as [-> _]; [apply digit_char_digit|].
  destruct (is_digit_plain (digit_char n)) as [-> _]; [apply digit_char_digit|].
  reflexivity.
Qed.

Lemma before_dot_iso_seconds (d : datetime) :
  before_dot (iso_seconds d) = iso_seconds d.
Proof.
  unfold iso_seconds, pad4. append_norm. cbn [before_dot].
  destruct (is_digit_plain (digit_char (year d / 1000))) as [-> _];
    [apply digit_char_digit|].
  destruct (is_digit_plain (digit_char (year d / 100))) as [-> _];
    [apply digit_char_digit|].
  rewrite !before_dot_pad2. cbn [before_dot Ascii.eqb Bool.eqb].
  rewrite !before_dot_pad2. cbn [before_dot Ascii.eqb Bool.eqb].
  rewrite !before_dot_pad2. cbn [before_dot Ascii.eqb Bool.eqb].
  rewrite !before_dot_pad2. cbn [before_dot Ascii.eqb Bool.eqb].
  rewrite !before_dot_pad2. cbn [before_dot Ascii.eqb Bool.eqb].
  rewrite before_dot_pad2_end. reflexivity.
Qed.

(** What follows the first dot is dropped before the parse. *)
Lemma ws_strptime_drops_after_dot (text rest : string) :
  before_dot text = text ->
  Order.ws_strptime (text +:+ "." +:+ rest) = strptime_iso text.
Proof.
  intros H. unfold Order.ws_strptime. append_norm.
  rewrite before_dot_append by exact H. reflexivity.
Qed.

(** A zone suffix that no dot precedes is part of the parsed text, and the
    format refuses it. *)
Example ws_strptime_zone_without_fraction :
  Order.ws_strptime "2021-03-04T10:15:30Z" = Raise ValueError.
Proof. vm_compute. reflexivity. Qed.

(** What the parser does on a timestamp with a fraction: for a text
  [YYYY-MM-DDTHH:MM:SS] of a valid date and time followed by a dot and any
  text (fractional seconds, zone), it splits at the first dot and reads the
  first piece with the format [%Y-%m-%dT%H:%M:%S]: the result is the
  timestamp in whole seconds. *)
Theorem ws_strptime_truncates (d : datetime) (rest : string) :
  valid_datetime d = true ->
  Order.ws_strptime (iso_seconds d +:+ "." +:+ rest) = strptime_iso (iso_seconds d)
  /\ Order.ws_strptime (iso_seconds d +:+ "." +:+ rest) = Ret (whole_seconds d).
Proof.
  intros Hv.
  rewrite ws_strptime_drops_after_dot by apply before_dot_iso_seconds.
  split; [reflexivity | apply strptime_iso_seconds, Hv].
Qed.

Lemma ws_strptime_truncates_witness :
  Order.ws_strptime "2021-03-04T10:15:30.123Z" = Ret (mk_datetime 2021 3 4 10 15 30 0).
Proof.
  exact (proj2 (ws_strptime_truncates (mk_datetime 2021 3 4 10 15 30 0) "123Z" eq_refl)).
Defined.

Lemma before_dot_append_text (text rest : string) :
  before_dot text = text -> before_dot (text +:+ rest) = text +:+ before_dot rest.
Proof.
  induction text as [|c text IH]; intros H; append_norm; [reflexivity|].
  cbn [before_dot] in *. destruct (Ascii.eqb c "."); [discriminate|].
  injection H as H. rewrite (IH H). reflexivity.
Qed.

Lemma match_iso_format_trailing (d : datetime) (c : ascii) (rest : string) :
  valid_datetime d = true ->
  match_iso_format (iso_seconds d +:+ String c rest) = None.
Proof.
  intros Hv. apply valid_datetime_bounds in Hv.
  destruct Hv as (Hy & Hm & Hd & Hh & Hmi & Hs).
  assert (Hdash : forall x, is_digit x = true -> is_char "-" x = false)
    by (intros x Hx; apply (is_digit_plain x Hx)).
  assert (Hcolon : forall x, is_digit x = true -> is_char ":" x = false)
    by (intros x Hx; apply (is_digit_plain x Hx)).
  assert (HT : forall x, is_digit x = true -> is_T x = false)
    by (intros x Hx; apply (is_digit_plain x Hx)).
  unfold match_iso_format, iso_seconds, month_token, hour_token, minute_token,
    second_token.
  rewrite !append_assoc_text.
  rewrite year_token_pad4 by lia. append_norm.
  cbv beta iota delta [mbind option_bind].
  rewrite (split_at_pad2 (is_char "-") (month d) "-" _ Hdash eq_refl).
  rewrite (field_token_pad2 1 1 12) by lia.
  rewrite (split_at_pad2 is_T (day d) "T" _ HT eq_refl).
  rewrite day_token_pad2 by lia.
  rewrite (split_at_pad2 (is_char ":") (hour d) ":" _ Hcolon eq_refl).
  rewrite (field_token_pad2 0 0 23) by lia.
  rewrite (split_at_pad2 (is_char ":") (minute d) ":" _ Hcolon eq_refl).
  rewrite (field_token_pad2 0 0 59) by lia.
  unfold pad2. append_norm. reflexivity.
Qed.

(** C7 fails on the code for a timestamp without a fraction. The docstring
  of [ws_strptime] announces that microseconds and timezone are removed, but
  the parser removes what follows the first dot only: whatever follows the
  seconds of a valid [YYYY-MM-DDTHH:MM:SS] without a dot in between (a zone
  suffix such as [Z] or [+00:00]) stays in the text that is parsed, and the
  format refuses it with [ValueError]. *)
Theorem ws_strptime_keeps_zone_without_fraction (d : datetime) (zone : string) :
  valid_datetime d = true -> before_dot zone <> "" ->
  Order.ws_strptime (iso_seconds d +:+ zone) = Raise ValueError.
Proof.
  intros Hv Hzone. unfold Order.ws_strptime.
  rewrite before_dot_append_text by apply before_dot_iso_seconds.
  destruct (before_dot zone) as [|c rest]; [contradiction|].
  unfold strptime_iso. rewrite (match_iso_format_trailing d c rest Hv). reflexivity.
Qed.

Lemma ws_strptime_keeps_zone_without_fraction_witness :
  Order.ws_strptime "2021-03-04T10:15:30Z" = Raise ValueError.
Proof.
  apply (ws_strptime_keeps_zone_without_fraction (mk_datetime 2021 3 4 10 15 30 0) "Z").
  - reflexivity.
  - discriminate.
Defined.

Example ws_strptime_offset_without_fraction :
  Order.ws_strptime "2021-03-04T10:15:30+00:00" = Raise ValueError.
Proof. vm_compute. reflexivity. Qed.

End WsStrptime.

(** ** The result monad *)

Lemma bind_Ret_inv {A B : Type} (m : result A) (f : A -> result B) (b : B) :
  m ≫= f = Ret b -> exists a, m = Ret a /\ f a = Ret b.
Proof. destruct m as [a| |]; cbn; intros H; [eauto | discriminate..]. Qed.

(** Inverts the binds of a hypothesis [H : ... = Ret _], from the left. *)
Ltac invert_binds H :=
  repeat match type of H with
    | (_ ≫= _) = Ret _ =>
        let a := fresh "v" in
        let Ha := fresh "Hv" in
        apply bind_Ret_inv in H; destruct H as (a & Ha & H)
    end.

(** ** The shipping address *)

Section Address.

Lemma py_join_texts (sep : string) (texts : list string) :
  py_join sep (map JStr texts) = Ret (String.concat sep texts).
Proof.
  induction texts as [|a [|b rest] IH]; [reflexivity..|].
  change (py_join sep (map JStr (a :: b :: rest)))
    with (py_join sep (map JStr (b :: rest)) ≫= fun t => Ret (a +:+ sep +:+ t)).
  rewrite IH. reflexivity.
Qed.

Lemma address_parts_texts (fields : list (string * json)) (keys : list string) :
  (forall key, In key keys -> text_or_absent (assoc key fields)) ->
  VtexClientOrder.address_parts (JObj fields) keys
  = Ret (map JStr (present_texts fields keys)).
Proof.
  induction keys as [|key rest IH]; intros Hk; [reflexivity|].
  specialize (IH (fun k Hin => Hk k (or_intror Hin))).
  pose proof (Hk key (or_introl eq_refl)) as Hkey.
  cbn [VtexClientOrder.address_parts present_texts py_get py_getitem].
  destruct (assoc key fields) as [[| | |text| |]|]; cbn in Hkey |- *;
    try contradiction; try exact IH.
  destruct (String.eqb text ""); cbn; [exact IH|].
  rewrite IH. reflexivity.
Qed.

(** C8: the shipping address comes from the first selected address. When
    each of street, number, complement and neighborhood is absent or a text,
    [shipping_address] joins with single spaces those that are present and
    not empty, in that order; when [reference] is absent,
    [shipping_address_reference] is the empty text. The order factory stores
    both as they are. *)
Theorem shipping_address_fields
    (order shipping_data : json) (fields : list (string * json)) (others : list json) :
  py_getitem order "shippingData" = Ret shipping_data ->
  py_getitem shipping_data "selectedAddresses" = Ret (JArr (JObj fields :: others)) ->
  (forall key, In key address_keys -> text_or_absent (assoc key fields)) ->
  exists a,
    VtexClientOrder.format_ws_address_data order = Ret a /\
    VtexClientOrder.info a = String.concat " " (present_texts fields address_keys) /\
    (assoc "reference" fields = None -> VtexClientOrder.reference a = JStr "") /\
    forall d, VtexClientOrder.factory_defaults order = Ret d ->
      VtexClientOrder.d_shipping_address d = VtexClientOrder.info a /\
      (assoc "reference" fields = None ->
       VtexClientOrder.d_shipping_address_reference d = "").
Proof.
  intros Hsd Hsel Hkeys.
  assert (Hfmt : VtexClientOrder.format_ws_address_data order =
            Ret (VtexClientOrder.mk_address
                   (default JNull (assoc "city" fields))
                   (String.concat " " (present_texts fields address_keys))
                   (if py_truthy (default JNull (assoc "reference" fields))
                    then default JNull (assoc "reference" fields) else JStr "")
                   (default JNull (assoc "postalCode" fields)))).
  { unfold VtexClientOrder.format_ws_address_data.
    rewrite Hsd. cbn [mbind result_bind]. rewrite Hsel. cbn [mbind result_bind py_first].
    fold address_keys. rewrite (address_parts_texts fields address_keys Hkeys).
    cbn [mbind result_bind]. rewrite py_join_texts. reflexivity. }
  eexists. split; [exact Hfmt|]. cbn [VtexClientOrder.info VtexClientOrder.reference].
  split; [reflexivity|]. split.
  - intros ->. reflexivity.
  - intros d Hd. unfold VtexClientOrder.factory_defaults in Hd.
    rewrite Hfmt in Hd. cbn [mbind result_bind] in Hd.
    invert_binds Hd. injection Hd as <-.
    cbn [VtexClientOrder.d_shipping_address VtexClientOrder.d_shipping_address_reference
         VtexClientOrder.info VtexClientOrder.reference] in *.
    split; [reflexivity|]. intros Href.
    match goal with
    | Hr : as_text (if _ then _ else _) = Ret ?r |- ?r = _ =>
        rewrite Href in Hr; cbn in Hr; injection Hr as <-; reflexivity
    end.
Qed.

Lemma shipping_address_fields_witness :
  exists a,
    VtexClientOrder.format_ws_address_data sample_raw_order = Ret a /\
    VtexClientOrder.info a = "Main 42 Centro" /\
    VtexClientOrder.reference a = JStr "".
Proof.
  destruct (shipping_address_fields sample_raw_order sample_shipping_data
              sample_address [] eq_refl eq_refl) as (a & Ha & Hinfo & Href & _).
  - intros key [<-|[<-|[<-|[<-|[]]]]]; exact I.
  - exists a. split; [exact Ha|]. split; [exact Hinfo | exact (Href eq_refl)].
Defined.

End Address.

(** ** The fetch *)

Section Fetch.

Variable http : transport.
Variable cfg : settings.

(** [get_orders] handles one page and, if there is a next page, goes on
    with the same headers and the same (updated) query. *)
Lemma get_orders_step (limit : nat) (headers : option (gmap string string))
    (querystring : option (gmap string json)) (page : Z) :
  VtexClientOrder.get_orders http cfg (S limit) headers querystring page =
    let h := default (VtexClientOrder.default_headers cfg) headers in
    let q := <["page" := JNum page]>
               (default VtexClientOrder.default_querystring querystring) in
    step ← page_step http cfg h q;
    match snd step with
    | Some next =>
        rest ← VtexClientOrder.get_orders http cfg limit (Some h) (Some q) next;
        Ret (fst step ++ rest)
    | None => Ret (fst step)
    end.
Proof.
  cbn [VtexClientOrder.get_orders]. unfold page_step. cbv zeta.
  set (h := default (VtexClientOrder.default_headers cfg) headers).
  set (q := <["page" := JNum page]> _).
  destruct (http _ h (Some q)) as [r| |]; cbn [mbind result_bind]; [|reflexivity..].
  destruct (py_getitem r "list") as [sl| |]; cbn [mbind result_bind]; [|reflexivity..].
  destruct (py_iter sl) as [summaries| |]; cbn [mbind result_bind]; [|reflexivity..].
  destruct (VtexClientOrder.order_details http cfg h summaries) as [fetched| |];
    cbn [mbind result_bind]; [|reflexivity..].
  destruct (py_getitem r "paging") as [pg| |]; cbn [mbind result_bind]; [|reflexivity..].
  destruct (py_getitem pg "currentPage") as [cur| |];
    cbn [mbind result_bind]; [|reflexivity..].
  destruct (py_getitem pg "pages") as [tot| |]; cbn [mbind result_bind]; [|reflexivity..].
  destruct (py_lt cur tot) as [[|]| |]; cbn [mbind result_bind]; try reflexivity.
  destruct (py_succ cur) as [next| |]; cbn [mbind result_bind]; reflexivity.
Qed.

Lemma order_details_served (headers : gmap string string)
    (summaries details : list json) :
  Forall2 (detail_of http cfg headers) summaries details ->
  VtexClientOrder.order_details http cfg headers summaries = Ret details.
Proof.
  unfold VtexClientOrder.order_details.
  induction 1 as [|summary detail summaries details (order_id & Hid & Hget) _ IH].
  - reflexivity.
  - cbn [mapM]. rewrite Hid. cbn [mbind result_bind py_concat].
    rewrite Hget. cbn [mbind result_bind]. rewrite IH. reflexivity.
Qed.

Lemma page_step_served (headers : gmap string string) (q : gmap string json)
    (r : json) (summaries details : list json) (current total : Z) :
  http (VTEX_ORDER_LIST_API_ENDPOINT cfg) headers (Some q) = Ret r ->
  page_response summaries current total r ->
  Forall2 (detail_of http cfg headers) summaries details ->
  page_step http cfg headers q =
    Ret (details, if current <? total then Some (current + 1) else None).
Proof.
  intros Hr (Hlist & paging & Hpaging & Hcur & Htot) Hdetails.
  unfold page_step. rewrite Hr. cbn [mbind result_bind].
  rewrite Hlist. cbn [mbind result_bind py_iter].
  rewrite (order_details_served _ _ _ Hdetails). cbn [mbind result_bind].
  rewrite Hpaging. cbn [mbind result_bind]. rewrite Hcur, Htot.
  cbn [mbind result_bind py_lt]. destruct (current <? total); reflexivity.
Qed.

Lemma orders_of_pages_cons (details : Z -> list json) (first : Z) (count : nat) :
  orders_of_pages details first (S count)
  = details first ++ orders_of_pages details (first + 1) count.
Proof.
  unfold orders_of_pages. rewrite (seqZ_cons first (Z.of_nat (S count))) by lia.
  cbn [map concat].
  replace (Z.pred (Z.of_nat (S count))) with (Z.of_nat count) by lia.
  replace (Z.succ first) with (first + 1) by lia. reflexivity.
Qed.

Lemma get_orders_pages_from (headers : gmap string string)
    (querystring : gmap string json) (total : Z) (details : Z -> list json) :
  serves_pages http cfg headers querystring total details ->
  forall (count : nat) (page : Z) (limit : nat) (q : gmap string json),
    (forall k, <["page" := JNum k]> q = <["page" := JNum k]> querystring) ->
    1 <= page -> page + Z.of_nat count = total -> (count < limit)%nat ->
    VtexClientOrder.get_orders http cfg limit (Some headers) (Some q) page
    = Ret (orders_of_pages details page (S count)).
Proof.
  intros Hserves count.
  induction count as [|count IH]; intros page limit q Hq Hpage Hlast Hlimit;
    (destruct limit as [|limit]; [lia|]);
    rewrite get_orders_step; cbv zeta; cbn [from_option id];
    destruct (Hserves page ltac:(lia)) as (r & summaries & Hr & Hresp & Hdet);
    rewrite <- Hq in Hr;
    rewrite (page_step_served _ _ _ _ _ _ _ Hr Hresp Hdet);
    cbn [mbind result_bind fst snd].
  - replace (page <? total) with false by (symmetry; apply Z.ltb_ge; lia).
    rewrite orders_of_pages_cons. unfold orders_of_pages at 1. cbn.
    rewrite app_nil_r. reflexivity.
  - replace (page <? total) with true by (symmetry; apply Z.ltb_lt; lia).
    rewrite (IH (page + 1) limit); [| |lia..].
    + cbn [mbind result_bind]. rewrite <- orders_of_pages_cons. reflexivity.
    + intros k. rewrite insert_insert_eq. apply Hq.
Qed.

(** C3: against a platform that serves [total] pages, page [k] reporting
    itself as page [k] of [total], the fetch started at page 1 fetches the
    detail of every summary of every page, goes on to the next page exactly
    while the current page is below [total], and returns the orders of the
    pages 1 to [total], page after page and in the order of each page,
    whenever the interpreter allows [total] nested calls. *)
Theorem get_orders_all_pages (headers : option (gmap string string))
    (querystring : option (gmap string json)) (total : Z)
    (details : Z -> list json) (limit : nat) :
  serves_pages http cfg
    (default (VtexClientOrder.default_headers cfg) headers)
    (default VtexClientOrder.default_querystring querystring) total details ->
  1 <= total -> (Z.to_nat total <= limit)%nat ->
  VtexClientOrder.get_orders http cfg limit headers querystring 1
  = Ret (orders_of_pages details 1 (Z.to_nat total)).
Proof.
  intros Hserves Htotal Hlimit.
  destruct limit as [|limit]; [lia|].
  rewrite get_orders_step. cbv zeta.
  set (h := default _ headers) in *. set (q := default _ querystring) in *.
  destruct (Hserves 1 ltac:(lia)) as (r & summaries & Hr & Hresp & Hdet).
  rewrite (page_step_served _ _ _ _ _ _ _ Hr Hresp Hdet).
  cbn [mbind result_bind fst snd].
  destruct (Z.to_nat total) as [|count] eqn:Hcount; [lia|].
  rewrite orders_of_pages_cons.
  destruct (Z.ltb_spec 1 total) as [Hlt|Hge].
  - destruct count as [|count]; [lia|].
    rewrite (get_orders_pages_from h q total details Hserves count (1 + 1) limit);
      [reflexivity| |lia..].
    intros k. apply insert_insert_eq.
  - assert (count = 0%nat) as -> by lia.
    unfold orders_of_pages. cbn. rewrite app_nil_r. reflexivity.
Qed.

(** An exception of the list request is the outcome of the page. *)
Lemma page_step_list_error (headers : gmap string string) (q : gmap string json)
    (e : exn) :
  http (VTEX_ORDER_LIST_API_ENDPOINT cfg) headers (Some q) = Raise e ->
  page_step http cfg headers q = Raise e.
Proof. intros H. unfold page_step. rewrite H. reflexivity. Qed.

Lemma order_details_error (headers : gmap string string)
    (fetched_summaries : list json) (fetched : list json)
    (summary : json) (pending : list json) (order_id : string) (e : exn) :
  Forall2 (detail_of http cfg headers) fetched_summaries fetched ->
  py_getitem summary "orderId" = Ret (JStr order_id) ->
  http (VTEX_ORDER_API_ENDPOINT cfg +:+ order_id) headers None = Raise e ->
  VtexClientOrder.order_details http cfg headers
    (fetched_summaries ++ summary :: pending) = Raise e.
Proof.
  unfold VtexClientOrder.order_details.
  induction 1 as [|s d ss ds (id & Hid & Hget) _ IH]; intros Hsum Hfail.
  - cbn [app mapM]. rewrite Hsum. cbn [mbind result_bind py_concat].
    rewrite Hfail. reflexivity.
  - cbn [app mapM]. rewrite Hid. cbn [mbind result_bind py_concat].
    rewrite Hget. cbn [mbind result_bind]. rewrite (IH Hsum Hfail). reflexivity.
Qed.

(** An exception of a detail request is the outcome of the page, whatever
    was fetched before it. *)
Lemma page_step_detail_error (headers : gmap string string) (q : gmap string json)
    (r : json) (fetched_summaries fetched : list json)
    (summary : json) (pending : list json) (order_id : string) (e : exn) :
  http (VTEX_ORDER_LIST_API_ENDPOINT cfg) headers (Some q) = Ret r ->
  py_getitem r "list" = Ret (JArr (fetched_summaries ++ summary :: pending)) ->
  Forall2 (detail_of http cfg headers) fetched_summaries fetched ->
  py_getitem summary "orderId" = Ret (JStr order_id) ->
  http (VTEX_ORDER_API_ENDPOINT cfg +:+ order_id) headers None = Raise e ->
  page_step http cfg headers q = Raise e.
Proof.
  intros Hr Hlist Hdone Hsum Hfail. unfold page_step.
  rewrite Hr. cbn [mbind result_bind]. rewrite Hlist. cbn [mbind result_bind py_iter].
  rewrite (order_details_error _ _ _ _ _ _ _ Hdone Hsum Hfail). reflexivity.
Qed.

Lemma get_orders_fails (h : gmap string string) (q : gmap string json)
    (limit : nat) (page : Z) (e : exn) :
  fetch_fails http cfg h q limit page e ->
  forall headers querystring,
    default (VtexClientOrder.default_headers cfg) headers = h ->
    (forall k, <["page" := JNum k]>
                 (default VtexClientOrder.default_querystring querystring)
               = <["page" := JNum k]> q) ->
    VtexClientOrder.get_orders http cfg limit headers querystring page = Raise e.
Proof.
  induction 1 as [limit page e Hstep | limit page next fetched e Hstep _ IH];
    intros headers querystring Hh Hq;
    rewrite get_orders_step; cbv zeta; rewrite Hh, Hq, Hstep;
    cbn [mbind result_bind fst snd].
  - reflexivity.
  - rewrite (IH (Some h) (Some (<["page" := JNum page]> q))).
    + reflexivity.
    + reflexivity.
    + intros k. cbn [from_option id]. apply insert_insert_eq.
Qed.

(** C4: if an exception occurs anywhere in the chain of calls of one fetch
    (the list request or a detail request of any page, or the decoding of
    an answer), the fetch ends with that exception and returns no order:
    the orders of the pages fetched before are not returned. *)
Theorem get_orders_all_or_nothing (headers : option (gmap string string))
    (querystring : option (gmap string json)) (limit : nat) (page : Z) (e : exn) :
  fetch_fails http cfg
    (default (VtexClientOrder.default_headers cfg) headers)
    (default VtexClientOrder.default_querystring querystring) limit page e ->
  VtexClientOrder.get_orders http cfg limit headers querystring page = Raise e /\
  forall fetched,
    VtexClientOrder.get_orders http cfg limit headers querystring page <> Ret fetched.
Proof.
  intros Hfails.
  assert (H : VtexClientOrder.get_orders http cfg limit headers querystring page
              = Raise e)
    by (apply (get_orders_fails _ _ _ _ _ Hfails); reflexivity).
  split; [exact H|]. intros fetched. rewrite H. discriminate.
Qed.

End Fetch.

Lemma sample_http_serves :
  serves_pages (sample_http "") sample_cfg
    (VtexClientOrder.default_headers sample_cfg)
    VtexClientOrder.default_querystring 3 sample_details.
Proof.
  intros k Hk.
  assert (Hc : k = 1 \/ k = 2 \/ k = 3) by lia.
  exists (sample_list_response k), (map sample_summary (sample_page_ids k)).
  destruct Hc as [-> | [-> | ->]];
    (split; [vm_compute; reflexivity|]);
    (split; [split; [reflexivity|]; eexists; repeat split; reflexivity|]);
    repeat constructor; eexists; split; vm_compute; reflexivity.
Qed.

Lemma get_orders_all_pages_witness :
  VtexClientOrder.get_orders (sample_http "") sample_cfg 1000 None None 1
  = Ret (map sample_detail ["A"; "B"; "C"; "D"; "E"]).
Proof.
  apply (get_orders_all_pages (sample_http "") sample_cfg None None 3
           sample_details 1000 sample_http_serves); [lia | vm_compute; lia].
Defined.

Lemma get_orders_all_or_nothing_witness :
  VtexClientOrder.get_orders (sample_http "D") sample_cfg 1000 None None 1
  = Raise (RequestException 500).
Proof.
  apply (get_orders_all_or_nothing (sample_http "D") sample_cfg None None 1000 1).
  apply (fails_later _ _ _ _ _ 1 2 (map sample_detail ["A"; "B"])).
  - vm_compute. reflexivity.
  - apply fails_on_page. vm_compute. reflexivity.
Defined.

(** ** The time window of the fetch *)

(** C2, as the specification states it, fails. The fetch without a query
    sends the fixed filter of the source, which is not the filter of the last
    hour before [sample_now]; and the helper that renders a window, with both
    bounds left out, puts the current time first and the time one hour
    earlier second. *)
Lemma get_orders_default_window_not_last_hour :
  VtexClientOrder.get_orders probe_http sample_cfg 1000 None None 1
    = Ret [JStr (VTEX_ORDER_API_ENDPOINT sample_cfg +:+ VtexClientOrder.default_filter)]
  /\ spec_last_hour_filter sample_now
     = Ret "creationDate:[2021-03-04T09:15:30.000000Z TO 2021-03-04T10:15:30.000000Z]"
  /\ Ret VtexClientOrder.default_filter <> spec_last_hour_filter sample_now
  /\ Order.get_orders_filter_hours_range sample_now sample_now None None
     = Ret "creationDate:[2021-03-04T10:15:30.000000Z TO 2021-03-04T09:15:30.000000Z]"
  /\ Order.get_orders_filter_hours_range sample_now sample_now None None
     <> spec_last_hour_filter sample_now.
Proof.
  repeat split; try (vm_compute; reflexivity); vm_compute; discriminate.
Qed.

(** C2, amended: when no query is supplied, the fetch uses the fixed filter
    [creationDate:[2016-01-01T02:00:00.000Z TO 2021-01-01T01:59:59.999Z]],
    whatever the current time; and [get_orders_filter_hours_range], given
    both bounds, renders [creationDate:[<from> TO <to>]] with each bound in
    the format [%Y-%m-%dT%H:%M:%S.%fZ]. *)
Theorem get_orders_default_window :
  (forall http cfg limit headers page,
     VtexClientOrder.get_orders http cfg limit headers None page
     = VtexClientOrder.get_orders http cfg limit headers
         (Some VtexClientOrder.default_querystring) page)
  /\ VtexClientOrder.default_querystring
     = {[ "f_creationDate" :=
            JStr "creationDate:[2016-01-01T02:00:00.000Z TO 2021-01-01T01:59:59.999Z]" ]}
  /\ (forall now_from now_to from_time to_time,
        Order.get_orders_filter_hours_range now_from now_to
          (Some from_time) (Some to_time)
        = Ret ("creationDate:[" +:+ Order.hours_range_format from_time +:+ " TO "
               +:+ Order.hours_range_format to_time +:+ "]")).
Proof.
  split; [|split].
  - intros http cfg [|limit] headers page; reflexivity.
  - unfold VtexClientOrder.default_querystring, VtexClientOrder.default_filter.
    apply insert_empty.
  - reflexivity.
Qed.

(** ** Rows of a table *)

Section FindRows.

Context {A : Type} (P : A -> bool).

Lemma find_rows_app (j : nat) (rows : list A) (r : A) :
  find_rows P j (rows ++ [r])
  = find_rows P j rows ++ (if P r then [((j + length rows)%nat, r)] else []).
Proof.
  revert j. induction rows as [|a rows IH]; intros j; cbn [app find_rows length].
  - rewrite Nat.add_0_r. destruct (P r); reflexivity.
  - rewrite IH. replace (S j + length rows)%nat with (j + S (length rows))%nat by lia.
    destruct (P a); reflexivity.
Qed.

Lemma find_rows_position (j : nat) (rows : list A) (i : nat) (r : A) :
  In (i, r) (find_rows P j rows) ->
  (j <= i)%nat /\ rows !! (i - j)%nat = Some r /\ P r = true.
Proof.
  revert j. induction rows as [|a rows IH]; intros j; cbn [find_rows]; [intros []|].
  destruct (P a) eqn:Ha.
  - intros [Heq | Hin].
    + injection Heq as <- <-. rewrite Nat.sub_diag. auto.
    + destruct (IH _ Hin) as (Hle & Hlook & HP).
      replace (i - j)%nat with (S (i - S j)) by lia. auto with lia.
  - intros Hin. destruct (IH _ Hin) as (Hle & Hlook & HP).
    replace (i - j)%nat with (S (i - S j)) by lia. auto with lia.
Qed.

Lemma find_rows_insert_single (j : nat) (rows : list A) (i : nat) (r r' : A) :
  find_rows P j rows = [(i, r)] -> P r' = true ->
  find_rows P j (<[(i - j)%nat := r']> rows) = [(i, r')].
Proof.
  revert j. induction rows as [|a rows IH]; intros j; cbn [find_rows]; [discriminate|].
  destruct (P a) eqn:Ha; intros Hfind Hr'.
  - injection Hfind as <- <- Hrest. rewrite Nat.sub_diag.
    cbn [insert list_insert find_rows]. rewrite Hr', Hrest. reflexivity.
  - assert (Hpos : In (i, r) (find_rows P (S j) rows)) by (rewrite Hfind; left; reflexivity).
    apply find_rows_position in Hpos. destruct Hpos as (Hle & _ & _).
    replace (i - j)%nat with (S (i - S j)) by lia.
    cbn [insert list_insert find_rows]. rewrite Ha. apply IH; assumption.
Qed.

Lemma find_rows_insert_length (j : nat) (rows : list A) (n : nat) (r r' : A) :
  rows !! n = Some r -> P r' = P r ->
  length (find_rows P j (<[n := r']> rows)) = length (find_rows P j rows).
Proof.
  revert j n. induction rows as [|a rows IH]; intros j n; [discriminate|].
  destruct n as [|n]; cbn [lookup list_lookup insert list_insert find_rows].
  - intros [= ->] ->. destruct (P r); reflexivity.
  - intros Hlook HP. destruct (P a); cbn [length]; rewrite (IH _ _ Hlook HP); reflexivity.
Qed.

Lemma find_rows_insert_other (j : nat) (rows : list A)
    (n : nat) (r r' : A) :
  rows !! n = Some r -> P r = false -> P r' = false ->
  find_rows P j (<[n := r']> rows) = find_rows P j rows.
Proof.
  revert j n. induction rows as [|a rows IH]; intros j n; [discriminate|].
  destruct n as [|n]; cbn [lookup list_lookup insert list_insert find_rows].
  - intros [= ->] -> ->. reflexivity.
  - intros Hlook Hr Hr'. rewrite (IH _ _ Hlook Hr Hr'). reflexivity.
Qed.

Lemma find_rows_app_list (j : nat) (l1 l2 : list A) :
  find_rows P j (l1 ++ l2) = find_rows P j l1 ++ find_rows P (j + length l1) l2.
Proof.
  revert j. induction l1 as [|a l1 IH]; intros j; cbn [app find_rows length].
  - rewrite Nat.add_0_r. reflexivity.
  - rewrite IH. replace (S j + length l1)%nat with (j + S (length l1))%nat by lia.
    destruct (P a); reflexivity.
Qed.

Lemma find_rows_none (j : nat) (rows : list A) :
  (forall r, In r rows -> P r = false) -> find_rows P j rows = [].
Proof.
  revert j. induction rows as [|a rows IH]; intros j H; [reflexivity|].
  cbn [find_rows]. rewrite (H a (or_introl eq_refl)).
  apply IH. intros r Hr. apply H. right. exact Hr.
Qed.

End FindRows.

(** ** The order factory *)

Section OrderFactory.

Lemma same_key_refl (order_number : string) (r : Order.t) :
  Order.order_number r = order_number ->
  VtexClientOrder.same_key order_number r = true.
Proof. intros <-. apply String.eqb_refl. Qed.

Lemma same_key_number (order_number : string) (r : Order.t) :
  VtexClientOrder.same_key order_number r = true ->
  Order.order_number r = order_number.
Proof. apply String.eqb_eq. Qed.

Lemma factory_defaults_constants (order : json) (d : VtexClientOrder.defaults) :
  VtexClientOrder.factory_defaults order = Ret d ->
  VtexClientOrder.d_route_text_code d = "" /\ VtexClientOrder.d_from_api d = order.
Proof.
  intros H. unfold VtexClientOrder.factory_defaults in H.
  invert_binds H. injection H as <-. split; reflexivity.
Qed.

(** The upsert of an order, from a store that satisfies the invariant: the
    row of the order number is the only one, it holds [defaults], and the
    invariant is kept. *)
Lemma order_update_or_create (st : store) (d : VtexClientOrder.defaults) :
  unique_order_numbers st -> VtexClientOrder.d_route_text_code d = "" ->
  exists st1 o i,
    VtexClientOrder.update_or_create (VtexClientOrder.d_order_number d) d st
      = (st1, Ret o) /\
    find_rows (VtexClientOrder.same_key (VtexClientOrder.d_order_number d)) 0 (orders st1)
      = [(i, o)] /\
    VtexClientOrder.set_defaults o d = o /\
    unique_order_numbers st1.
Proof.
  intros Huniq Hroute. unfold VtexClientOrder.update_or_create.
  pose proof (Huniq (VtexClientOrder.d_order_number d)) as Hkey.
  destruct (find_rows _ 0 (orders st)) as [|[i r] [|? ?]] eqn:Hfind;
    [| |cbn [length] in Hkey; lia].
  - eexists _, _, (0 + length (orders st))%nat. split; [reflexivity|].
    cbn [orders]. split; [|split].
    + rewrite find_rows_app, Hfind. rewrite same_key_refl by reflexivity. reflexivity.
    + unfold VtexClientOrder.init, VtexClientOrder.set_defaults.
      cbn. rewrite Hroute. reflexivity.
    + intros k. cbn [orders]. rewrite find_rows_app, length_app.
      destruct (VtexClientOrder.same_key k _) eqn:Hk; cbn [length].
      * apply same_key_number in Hk. cbn in Hk. subst k. rewrite Hfind. cbn. lia.
      * pose proof (Huniq k). lia.
  - assert (Hpos : In (i, r) (find_rows
              (VtexClientOrder.same_key (VtexClientOrder.d_order_number d)) 0 (orders st)))
      by (rewrite Hfind; left; reflexivity).
    apply find_rows_position in Hpos. destruct Hpos as (_ & Hlook & Hr).
    rewrite Nat.sub_0_r in Hlook.
    eexists _, _, i. split; [reflexivity|]. cbn [orders]. split; [|split].
    + rewrite <- (Nat.sub_0_r i) at 1.
      apply (find_rows_insert_single _ 0 (orders st) i r); [exact Hfind|].
      apply same_key_refl. reflexivity.
    + reflexivity.
    + intros k. cbn [orders].
      rewrite (find_rows_insert_length _ 0 (orders st) i r); [apply Huniq|exact Hlook|].
      unfold VtexClientOrder.same_key. cbn [Order.order_number VtexClientOrder.set_defaults].
      apply same_key_number in Hr. rewrite Hr. reflexivity.
Qed.

(** The upsert of an order whose row already holds [defaults] leaves the
    store as it is. *)
Lemma order_update_or_create_again (st : store) (d : VtexClientOrder.defaults)
    (i : nat) (o : Order.t) :
  find_rows (VtexClientOrder.same_key (VtexClientOrder.d_order_number d)) 0 (orders st)
    = [(i, o)] ->
  VtexClientOrder.set_defaults o d = o ->
  VtexClientOrder.update_or_create (VtexClientOrder.d_order_number d) d st = (st, Ret o).
Proof.
  intros Hfind Hsame. unfold VtexClientOrder.update_or_create. rewrite Hfind, Hsame.
  assert (Hpos : In (i, o) (find_rows
            (VtexClientOrder.same_key (VtexClientOrder.d_order_number d)) 0 (orders st)))
    by (rewrite Hfind; left; reflexivity).
  apply find_rows_position in Hpos. destruct Hpos as (_ & Hlook & _).
  rewrite Nat.sub_0_r in Hlook. rewrite (list_insert_id _ _ _ Hlook).
  destruct st; reflexivity.
Qed.

Lemma factory_single (raw : json) (d : VtexClientOrder.defaults) (st : store) :
  VtexClientOrder.factory_defaults raw = Ret d ->
  VtexClientOrder.factory [raw] st =
    match VtexClientOrder.update_or_create (VtexClientOrder.d_order_number d) d st with
    | (st1, Ret o) => (st1, Ret [o])
    | (st1, Raise e) => (st1, Raise e)
    | (st1, Unmodelled) => (st1, Unmodelled)
    end.
Proof.
  intros Hd. cbn [VtexClientOrder.factory]. unfold db_bind, db_lift, db_ret.
  rewrite Hd. destruct (VtexClientOrder.update_or_create _ d st) as [st1 [o| |]];
    reflexivity.
Qed.

Lemma holds_defaults_set (o : Order.t) (d : VtexClientOrder.defaults) :
  holds_defaults o d -> VtexClientOrder.d_route_text_code d = "" ->
  VtexClientOrder.set_defaults o d = o.
Proof.
  intros (H1 & H2 & H3 & H4 & H5 & H6 & H7 & H8 & H9 & H10 & H11 & H12 & H13) Hroute.
  destruct o. cbn in *. subst. unfold VtexClientOrder.set_defaults.
  cbn. rewrite Hroute. reflexivity.
Qed.

Lemma factory_defaults_order_id (raw : json) (d : VtexClientOrder.defaults) :
  VtexClientOrder.factory_defaults raw = Ret d ->
  py_getitem raw "orderId" = Ret (JStr (VtexClientOrder.d_order_number d)).
Proof.
  intros H. unfold VtexClientOrder.factory_defaults in H.
  invert_binds H. injection H as <-. cbn [VtexClientOrder.d_order_number].
  match goal with
  | Hid : py_getitem raw "orderId" = Ret ?v, Ht : as_text ?v = Ret ?t
    |- _ = Ret (JStr ?t) =>
      destruct v; try discriminate; injection Ht as ->; exact Hid
  end.
Qed.

(** The upsert of an order, column by column: the row returned is the only
    row of the order number and has the mapped value in every mapped
    column; a row that was there is updated where it is and keeps its key,
    and a row is added only when there was none. *)
Lemma order_update_or_create_row (st : store) (d : VtexClientOrder.defaults) :
  unique_order_numbers st ->
  exists st1 o i,
    VtexClientOrder.update_or_create (VtexClientOrder.d_order_number d) d st
      = (st1, Ret o) /\
    find_rows (VtexClientOrder.same_key (VtexClientOrder.d_order_number d)) 0 (orders st1)
      = [(i, o)] /\
    (Order.order_created_at o = Some (VtexClientOrder.d_order_created_at d) /\
     Order.shipping_stimate_date o = Some (VtexClientOrder.d_shipping_stimate_date d) /\
     Order.buyer_fullname o = VtexClientOrder.d_buyer_fullname d /\
     Order.buyer_document o = VtexClientOrder.d_buyer_document d /\
     Order.buyer_phone o = VtexClientOrder.d_buyer_phone d /\
     Order.buyer_email o = VtexClientOrder.d_buyer_email d /\
     Order.shipping_address o = VtexClientOrder.d_shipping_address d /\
     Order.shipping_address_city o = VtexClientOrder.d_shipping_address_city d /\
     Order.shipping_address_reference o = VtexClientOrder.d_shipping_address_reference d /\
     Order.shipping_address_zip o = VtexClientOrder.d_shipping_address_zip d /\
     Order.order_number o = VtexClientOrder.d_order_number d /\
     (VtexClientOrder.d_route_text_code d = "" -> Order.route_text_code o = Some "") /\
     Order.from_api o = VtexClientOrder.d_from_api d) /\
    (forall j old,
       find_rows (VtexClientOrder.same_key (VtexClientOrder.d_order_number d)) 0 (orders st)
         = [(j, old)] ->
       i = j /\ Order.pk o = Order.pk old /\ length (orders st1) = length (orders st)) /\
    (find_rows (VtexClientOrder.same_key (VtexClientOrder.d_order_number d)) 0 (orders st)
       = [] ->
     length (orders st1) = S (length (orders st))).
Proof.
  intros Huniq. unfold VtexClientOrder.update_or_create.
  pose proof (Huniq (VtexClientOrder.d_order_number d)) as Hkey.
  destruct (find_rows _ 0 (orders st)) as [|[i r] [|? ?]] eqn:Hfind;
    [| |cbn [length] in Hkey; lia].
  - eexists _, _, (0 + length (orders st))%nat. split; [reflexivity|].
    cbn [orders]. split; [|split; [|split]].
    + rewrite find_rows_app, Hfind. rewrite same_key_refl by reflexivity. reflexivity.
    + cbn. repeat split.
    + intros j old Hold. discriminate.
    + intros _. rewrite length_app. cbn [length]. lia.
  - eexists _, _, i. split; [reflexivity|]. cbn [orders]. split; [|split; [|split]].
    + rewrite <- (Nat.sub_0_r i) at 1.
      apply (find_rows_insert_single _ 0 (orders st) i r); [exact Hfind|].
      apply same_key_refl. reflexivity.
    + cbn. repeat split. intros ->. reflexivity.
    + intros j old [= <- <-]. rewrite length_insert. repeat split.
    + discriminate.
Qed.

(** C5: the order factory is an idempotent upsert keyed by the order
    number. From a store in which an order number is the number of one row
    at most, one run on a remote order whose mapping gives the values [d]
    (the order number of [d] being the [orderId] of the remote order) leaves
    exactly one row with that order number, and this row has the value of
    [d] in every mapped column; a row that was there is updated where it is
    and keeps its key, a row is added only if there was none; the store
    keeps the invariant; and any number of further runs on the same remote
    order leave that store unchanged. *)
Theorem factory_idempotent_upsert (st : store) (raw : json)
    (d : VtexClientOrder.defaults) :
  unique_order_numbers st ->
  VtexClientOrder.factory_defaults raw = Ret d ->
  py_getitem raw "orderId" = Ret (JStr (VtexClientOrder.d_order_number d)) /\
  exists st1 o i,
    VtexClientOrder.factory [raw] st = (st1, Ret [o]) /\
    find_rows (VtexClientOrder.same_key (VtexClientOrder.d_order_number d)) 0 (orders st1)
      = [(i, o)] /\
    holds_defaults o d /\
    (forall j old,
       find_rows (VtexClientOrder.same_key (VtexClientOrder.d_order_number d)) 0 (orders st)
         = [(j, old)] ->
       i = j /\ Order.pk o = Order.pk old /\ length (orders st1) = length (orders st)) /\
    (find_rows (VtexClientOrder.same_key (VtexClientOrder.d_order_number d)) 0 (orders st)
       = [] ->
     length (orders st1) = S (length (orders st))) /\
    unique_order_numbers st1 /\
    VtexClientOrder.factory [raw] st1 = (st1, Ret [o]) /\
    forall n, factory_runs (S n) [raw] st = st1.
Proof.
  intros Huniq Hd. split; [exact (factory_defaults_order_id raw d Hd)|].
  destruct (factory_defaults_constants raw d Hd) as [Hroute _].
  destruct (order_update_or_create_row st d Huniq)
    as (st1 & o & i & Hup & Hfind & Hcols & Hplace & Hnew).
  assert (Hholds : holds_defaults o d).
  { destruct Hcols as (H1 & H2 & H3 & H4 & H5 & H6 & H7 & H8 & H9 & H10 & H11 & H12 & H13).
    specialize (H12 Hroute). unfold holds_defaults. repeat split; assumption. }
  pose proof (holds_defaults_set o d Hholds Hroute) as Hsame.
  assert (Huniq1 : unique_order_numbers st1).
  { destruct (order_update_or_create st d Huniq Hroute)
      as (st1' & o' & i' & Hup' & _ & _ & Huniq1).
    rewrite Hup in Hup'. injection Hup' as <- _. exact Huniq1. }
  assert (Hrun : VtexClientOrder.factory [raw] st = (st1, Ret [o]))
    by (rewrite (factory_single raw d st Hd), Hup; reflexivity).
  assert (Hagain : VtexClientOrder.factory [raw] st1 = (st1, Ret [o]))
    by (rewrite (factory_single raw d st1 Hd),
          (order_update_or_create_again st1 d i o Hfind Hsame); reflexivity).
  exists st1, o, i. repeat (split; [assumption|]).
  intros n. cbn [factory_runs]. rewrite Hrun. cbn [fst].
  induction n as [|n IH]; [reflexivity|].
  cbn [factory_runs]. rewrite Hagain. exact IH.
Qed.

End OrderFactory.

Example factory_sample :
  VtexClientOrder.factory [sample_raw_order] empty_store
  = (mk_store [sample_order] [] 2 1, Ret [sample_order]).
Proof. vm_compute. reflexivity. Qed.

Lemma empty_store_unique : unique_order_numbers empty_store.
Proof. intros k. cbn. lia. Qed.

Example factory_stale_store :
  VtexClientOrder.factory [sample_raw_order] stale_store
  = (mk_store
       [ VtexClientOrder.init 3
           (VtexClientOrder.mk_defaults
              (mk_datetime 2021 2 1 8 0 0 0) (mk_datetime 2021 2 5 0 0 0 0)
              "Luis Rey" "900" "311" "luis@example.com"
              "Calle 9" "Cali" "" "760001" "v0999-01" "" JNull);
         VtexClientOrder.init 7 sample_defaults ] [] 8 1,
     Ret [VtexClientOrder.init 7 sample_defaults]).
Proof. vm_compute. reflexivity. Qed.

Lemma factory_idempotent_upsert_witness :
  py_getitem sample_raw_order "orderId" = Ret (JStr "v1001-01") /\
  exists st1 o i,
    VtexClientOrder.factory [sample_raw_order] stale_store = (st1, Ret [o]) /\
    find_rows (VtexClientOrder.same_key "v1001-01") 0 (orders st1) = [(i, o)] /\
    holds_defaults o sample_defaults /\
    (forall j old,
       find_rows (VtexClientOrder.same_key "v1001-01") 0 (orders stale_store)
         = [(j, old)] ->
       i = j /\ Order.pk o = Order.pk old /\
       length (orders st1) = length (orders stale_store)) /\
    (find_rows (VtexClientOrder.same_key "v1001-01") 0 (orders stale_store) = [] ->
     length (orders st1) = S (length (orders stale_store))) /\
    unique_order_numbers st1 /\
    VtexClientOrder.factory [sample_raw_order] st1 = (st1, Ret [o]) /\
    forall n, factory_runs (S n) [sample_raw_order] stale_store = st1.
Proof.
  apply (factory_idempotent_upsert stale_store sample_raw_order sample_defaults).
  - intros k. unfold stale_store. cbn [orders find_rows].
    unfold VtexClientOrder.same_key.
    cbn [VtexClientOrder.init Order.order_number VtexClientOrder.d_order_number].
    destruct (String.eqb "v0999-01" k) eqn:E1; destruct (String.eqb "v1001-01" k) eqn:E2;
      cbn [length]; try lia.
    apply String.eqb_eq in E1, E2. congruence.
  - vm_compute. reflexivity.
Defined.

(** ** The item factory *)

Section ItemFactory.

Lemma item_same_key_refl (order_id : nat) (ean : string) (r : OrderItem.t) :
  OrderItem.order_id r = order_id -> OrderItem.ean r = ean ->
  VtexClientOrderItem.same_key order_id ean r = true.
Proof.
  intros <- <-. unfold VtexClientOrderItem.same_key.
  rewrite Nat.eqb_refl, String.eqb_refl. reflexivity.
Qed.

Lemma item_same_key_inv (order_id : nat) (ean : string) (r : OrderItem.t) :
  VtexClientOrderItem.same_key order_id ean r = true ->
  OrderItem.order_id r = order_id /\ OrderItem.ean r = ean.
Proof.
  unfold VtexClientOrderItem.same_key. rewrite andb_true_iff.
  intros [H1 H2]. split; [apply Nat.eqb_eq, H1 | apply String.eqb_eq, H2].
Qed.

(** The upsert of one item keeps the invariants and returns the row of
    the entry. *)
Lemma item_update_or_create (st : store) (order : Order.t) (index : Z)
    (ean : string) (quantity price100 : Z) :
  unique_items st -> vtex_items st ->
  exists st1 r,
    VtexClientOrderItem.update_or_create order ean
      (VtexClientOrderItem.mk_defaults (index + 1) quantity price100) st
      = (st1, Ret r) /\
    OrderItem.order_id r = Order.pk order /\
    OrderItem.item_number r = index + 1 /\
    OrderItem.ean r = ean /\
    OrderItem.item_qty r = quantity /\
    OrderItem.item_price_without_tax r = price100 /\
    vtex_item r /\
    unique_items st1 /\ vtex_items st1 /\ orders st1 = orders st.
Proof.
  intros Huniq Hvtex. unfold VtexClientOrderItem.update_or_create.
  pose proof (Huniq (Order.pk order) ean) as Hkey.
  destruct (find_rows _ 0 (order_items st)) as [|[i r] [|? ?]] eqn:Hfind;
    [| |cbn [length] in Hkey; lia].
  - eexists _, _. split; [reflexivity|].
    cbn [VtexClientOrderItem.init OrderItem.order_id OrderItem.item_number OrderItem.ean
         OrderItem.item_qty OrderItem.item_price_without_tax
         VtexClientOrderItem.d_item_number VtexClientOrderItem.d_item_qty
         VtexClientOrderItem.d_item_price_without_tax orders order_items].
    repeat (split; [reflexivity|]). split; [repeat split|]. split; [|split].
    + intros oid e. cbn [order_items]. rewrite find_rows_app, length_app.
      destruct (VtexClientOrderItem.same_key oid e _) eqn:Hk; cbn [length].
      * apply item_same_key_inv in Hk. cbn in Hk. destruct Hk as [<- <-].
        rewrite Hfind. cbn. lia.
      * pose proof (Huniq oid e). lia.
    + apply Forall_app. split; [exact Hvtex|]. constructor; [repeat split|constructor].
    + reflexivity.
  - assert (Hpos : In (i, r) (find_rows
              (VtexClientOrderItem.same_key (Order.pk order) ean) 0 (order_items st)))
      by (rewrite Hfind; left; reflexivity).
    apply find_rows_position in Hpos. destruct Hpos as (_ & Hlook & Hr).
    rewrite Nat.sub_0_r in Hlook. apply item_same_key_inv in Hr. destruct Hr as [Hoid Hean].
    assert (Hrow : vtex_item r)
      by (exact (Forall_lookup_1 _ _ _ _ Hvtex Hlook)).
    eexists _, _. split; [reflexivity|].
    cbn [VtexClientOrderItem.set_defaults OrderItem.order_id OrderItem.item_number
         OrderItem.ean OrderItem.item_qty OrderItem.item_price_without_tax
         VtexClientOrderItem.d_item_number VtexClientOrderItem.d_item_qty
         VtexClientOrderItem.d_item_price_without_tax orders order_items].
    split; [exact Hoid|]. split; [reflexivity|]. split; [exact Hean|].
    split; [reflexivity|]. split; [reflexivity|]. split; [exact Hrow|].
    split; [|split].
    + intros oid e. cbn [order_items].
      rewrite (find_rows_insert_length _ 0 (order_items st) i r);
        [apply Huniq | exact Hlook | reflexivity].
    + apply Forall_insert; [exact Hvtex | exact Hrow].
    + reflexivity.
Qed.

Lemma item_arguments_shape (index : Z) (item : json) (ean : string)
    (quantity price : Z) :
  item_shape item (ean, quantity, price) ->
  VtexClientOrderItem.item_arguments index item
  = Ret (ean, VtexClientOrderItem.mk_defaults (index + 1) quantity (price / 100)).
Proof.
  intros (Hq & Hp & He). unfold VtexClientOrderItem.item_arguments.
  rewrite Hq. cbn [mbind result_bind]. rewrite Hp. cbn [mbind result_bind py_floordiv100].
  rewrite He. reflexivity.
Qed.

Lemma factory_items_shape (order : Order.t) (items : list json)
    (specs : list (string * Z * Z)) :
  Forall2 item_shape items specs ->
  forall (index : Z) (st : store),
    unique_items st -> vtex_items st ->
    exists st1 rows,
      VtexClientOrderItem.factory_items order index items st = (st1, Ret rows) /\
      items_hold order index specs rows /\
      unique_items st1 /\ vtex_items st1 /\ orders st1 = orders st.
Proof.
  induction 1 as [|item [[ean quantity] price] items specs Hshape _ IH];
    intros index st Huniq Hvtex.
  - exists st, []. cbn. auto.
  - cbn [VtexClientOrderItem.factory_items]. unfold db_bind at 1, db_lift.
    rewrite (item_arguments_shape index item ean quantity price Hshape). cbn [fst snd].
    destruct (item_update_or_create st order index ean quantity (price / 100) Huniq Hvtex)
      as (st1 & r & Hup & Hoid & Hnum & Hean & Hqty & Hprice & Hrow & Huniq1 & Hvtex1 & Ho1).
    unfold db_bind at 1. rewrite Hup.
    destruct (IH (index + 1) st1 Huniq1 Hvtex1)
      as (st2 & rows & Hrest & Hhold & Huniq2 & Hvtex2 & Ho2).
    unfold db_bind, db_ret. rewrite Hrest.
    exists st2, (r :: rows). split; [reflexivity|]. split; [|split; [|split]]; try assumption.
    + cbn [items_hold item_holds]. destruct Hrow as (Ht & Hq & Hd & Htax).
      repeat split; assumption.
    + congruence.
Qed.

(** The row the upsert of an item returns is the only row of the table
    for the order and the product code. *)
Lemma item_update_or_create_found (st st1 : store) (order : Order.t) (ean : string)
    (d : VtexClientOrderItem.defaults) (r : OrderItem.t) :
  VtexClientOrderItem.update_or_create order ean d st = (st1, Ret r) ->
  exists i,
    find_rows (VtexClientOrderItem.same_key (Order.pk order) ean) 0 (order_items st1)
    = [(i, r)].
Proof.
  unfold VtexClientOrderItem.update_or_create.
  destruct (find_rows _ 0 (order_items st)) as [|[i r0] [|? ?]] eqn:Hfind;
    intros [= <- <-]; cbn [order_items].
  - exists (0 + length (order_items st))%nat.
    rewrite find_rows_app, Hfind.
    rewrite item_same_key_refl by reflexivity. reflexivity.
  - exists i.
    assert (Hpos : In (i, r0) (find_rows
              (VtexClientOrderItem.same_key (Order.pk order) ean) 0 (order_items st)))
      by (rewrite Hfind; left; reflexivity).
    apply find_rows_position in Hpos. destruct Hpos as (_ & _ & Hr).
    apply item_same_key_inv in Hr. destruct Hr as [Hoid Hean].
    rewrite <- (Nat.sub_0_r i) at 1.
    apply (find_rows_insert_single _ 0 (order_items st) i r0); [exact Hfind|].
    apply item_same_key_refl; assumption.
Qed.






End ItemFactory.

Example item_factory_sample :
  VtexClientOrderItem.factory [sample_order] (mk_store [sample_order] [] 2 1)
  = (mk_store [sample_order]
       [ OrderItem.mk 1 1 "D" 1 "7701234567890" 2 199 "" 0 "001";
         OrderItem.mk 2 1 "D" 2 "7709876543210" 1 45 "" 0 "001" ] 2 3,
     Ret [ OrderItem.mk 1 1 "D" 1 "7701234567890" 2 199 "" 0 "001";
           OrderItem.mk 2 1 "D" 2 "7709876543210" 1 45 "" 0 "001" ]).
Proof. vm_compute. reflexivity. Qed.

Example item_factory_update_and_create :
  VtexClientOrderItem.factory [sample_order]
    (mk_store [sample_order] [OrderItem.mk 4 1 "D" 5 "7709876543210" 9 1 "" 0 "001"] 2 5)
  = (mk_store [sample_order]
       [ OrderItem.mk 4 1 "D" 2 "7709876543210" 1 45 "" 0 "001";
         OrderItem.mk 5 1 "D" 1 "7701234567890" 2 199 "" 0 "001" ] 2 6,
     Ret [ OrderItem.mk 5 1 "D" 1 "7701234567890" 2 199 "" 0 "001";
           OrderItem.mk 4 1 "D" 2 "7709876543210" 1 45 "" 0 "001" ]).
Proof. vm_compute. reflexivity. Qed.


(** ** The file of an order *)

Section OrderFile.

Lemma append_assoc (a b c : string) : (a +:+ b) +:+ c = a +:+ (b +:+ c).
Proof.
  induction a as [|x a IH]; append_norm; [reflexivity|]. rewrite IH. reflexivity.
Qed.

Example file_text_sample :
  VtexClientOrder.file_text sample_order
    [ OrderItem.mk 1 1 "D" 1 "7701234567890" 2 199 "" 0 "001";
      OrderItem.mk 2 1 "D" 2 "7709876543210" 1 45 "" 0 "001" ]
  = "H|CT0000344|E-COMM|120|04032021|09032021|COP|Ana Diaz/1020304050/Bogota/Main 42 Centro/3001234567/|1|CM0000001|v1001-01|?,1020304050,?,Ana Diaz,V010,110111|222,|V02011||ana@example.com"
    +:+ newline +:+ "D|1|7701234567890|2|199.0|||0|001"
    +:+ newline +:+ "D|2|7709876543210|1|45.0|||0|001".
Proof. vm_compute. reflexivity. Qed.

(** C9, as the specification states it, fails on the order of the item
    lines. The sample order is ingested and delivered, then ingested and
    delivered again with its two items listed the other way round: the rows
    of the table keep their places and take the new positions, and the file
    lists item 2 before item 1. *)
Lemma item_lines_not_ascending :
  let w1 := fst (run_with sample_cfg [sample_raw_order] sample_world) in
  let w2 := fst (run_with sample_cfg [sample_raw_order_reordered] w1) in
  VtexClientOrder.get_file_items (VtexClientOrder.orderitem_set (w_store w2) sample_order)
    = ["D|2|7701234567890|2|199.0|||0|001"; "D|1|7709876543210|1|45.0|||0|001"]
  /\ ascending (map OrderItem.item_number
                  (VtexClientOrder.orderitem_set (w_store w2) sample_order)) = false
  /\ remote_files (w_server w2) !! "ag-pruebas/v1001-01.txt"
     = Some ("H|CT0000344|E-COMM|120|04032021|09032021|COP|Ana Diaz/1020304050/Bogota/Main 42 Centro/3001234567/|1|CM0000001|v1001-01|?,1020304050,?,Ana Diaz,V010,110111|222,|V02011||ana@example.com"
             +:+ newline +:+ "D|2|7701234567890|2|199.0|||0|001"
             +:+ newline +:+ "D|1|7709876543210|1|45.0|||0|001").
Proof. vm_compute. repeat split; reflexivity. Qed.

Lemma file_item_fields (item : OrderItem.t) :
  VtexClientOrder.file_item item =
    String.concat "|"
      [ OrderItem.item_type item;
        pretty (OrderItem.item_number item);
        OrderItem.ean item;
        pretty (OrderItem.item_qty item);
        VtexClientOrder.str_float (OrderItem.item_price_without_tax item);
        OrderItem.destination_address_code item;
        "";
        pretty (OrderItem.qty item);
        OrderItem.tax_code item ].
Proof.
  unfold VtexClientOrder.file_item. cbn [String.concat]. append_norm.
  rewrite (append_assoc (OrderItem.destination_address_code item)). append_norm.
  reflexivity.
Qed.

(** C9, amended: the text written to the file of an order is the
    concatenation of the header segments, a newline, and the item lines
    joined by newlines; there is one line per item, in the order in which
    the items are supplied, and [create_order_files] supplies the items of
    the order as the table returns them; each line is the 8 fields type,
    sequence number, EAN, quantity, unit price without tax, destination
    address code, quantity-2 and tax code joined by pipes, with a doubled
    pipe after the destination address code. *)
Theorem order_file_layout (st : store) (sftp : gmap string string) (order : Order.t)
    (items : list OrderItem.t) :
  VtexClientOrder.create_order_files st sftp [order] !! VtexClientOrder.file_path order
    = Some (VtexClientOrder.file_text order (VtexClientOrder.orderitem_set st order))
  /\ VtexClientOrder.file_text order items
     = String.concat "" (VtexClientOrder.get_file_headers order) +:+ newline
       +:+ String.concat newline (VtexClientOrder.get_file_items items)
  /\ length (VtexClientOrder.get_file_items items) = length items
  /\ (forall i item, items !! i = Some item ->
        VtexClientOrder.get_file_items items !! i
        = Some (String.concat "|"
                  [ OrderItem.item_type item;
                    pretty (OrderItem.item_number item);
                    OrderItem.ean item;
                    pretty (OrderItem.item_qty item);
                    VtexClientOrder.str_float (OrderItem.item_price_without_tax item);
                    OrderItem.destination_address_code item +:+ "|";
                    pretty (OrderItem.qty item);
                    OrderItem.tax_code item ])).
Proof.
  split; [|split; [|split]].
  - cbn [VtexClientOrder.create_order_files]. apply lookup_insert_eq.
  - reflexivity.
  - unfold VtexClientOrder.get_file_items. apply length_map.
  - intros i item Hi. unfold VtexClientOrder.get_file_items.
    rewrite list_lookup_fmap, Hi. reflexivity.
Qed.

End OrderFile.

Lemma order_file_layout_witness :
  VtexClientOrder.get_file_items
    [ OrderItem.mk 1 1 "D" 1 "7701234567890" 2 199 "" 0 "001";
      OrderItem.mk 2 1 "D" 2 "7709876543210" 1 45 "" 0 "001" ] !! 1%nat
  = Some "D|2|7709876543210|1|45.0|||0|001".
Proof.
  refine (eq_trans
            (proj2 (proj2 (proj2
               (order_file_layout empty_store ∅ sample_order
                  [ OrderItem.mk 1 1 "D" 1 "7701234567890" 2 199 "" 0 "001";
                    OrderItem.mk 2 1 "D" 2 "7709876543210" 1 45 "" 0 "001" ])))
               1%nat (OrderItem.mk 2 1 "D" 2 "7709876543210" 1 45 "" 0 "001") eq_refl) _).
  vm_compute. reflexivity.
Defined.

(** ** The run *)

Section Run.

Lemma order_update_or_create_length (order_number : string)
    (d : VtexClientOrder.defaults) (st : store) :
  (length (orders (fst (VtexClientOrder.update_or_create order_number d st)))
   <= S (length (orders st)))%nat.
Proof.
  unfold VtexClientOrder.update_or_create.
  destruct (find_rows _ 0 (orders st)) as [|[i r] [|? ?]]; cbn [fst orders].
  - rewrite length_app. cbn [length]. lia.
  - rewrite length_insert. lia.
  - lia.
Qed.

(** The order factory adds one row per remote order at most, and returns
    one row per remote order. *)
Lemma factory_orders_length (orders_from_api : list json) (st : store) :
  (length (orders (fst (VtexClientOrder.factory orders_from_api st)))
   <= length (orders st) + length orders_from_api)%nat
  /\ forall rows, snd (VtexClientOrder.factory orders_from_api st) = Ret rows ->
       length rows = length orders_from_api.
Proof.
  revert st. induction orders_from_api as [|order rest IH]; intros st.
  - cbn. split; [lia|]. intros rows [= <-]. reflexivity.
  - cbn [VtexClientOrder.factory length]. unfold db_bind, db_lift, db_ret.
    destruct (VtexClientOrder.factory_defaults order) as [d| |];
      [|cbn; split; [lia|discriminate]..].
    pose proof (order_update_or_create_length (VtexClientOrder.d_order_number d) d st) as Hup.
    destruct (VtexClientOrder.update_or_create _ d st) as [st1 [o| |]];
      cbn [fst snd] in *; [|split; [lia|discriminate]..].
    destruct (IH st1) as [Hlen Hrows].
    destruct (VtexClientOrder.factory rest st1) as [st2 [rows| |]];
      cbn [fst snd] in *; [|split; [lia|discriminate]..].
    split; [lia|]. intros ? [= <-]. cbn [length]. rewrite (Hrows rows eq_refl). reflexivity.
Qed.

Lemma item_update_or_create_orders (order : Order.t) (ean : string)
    (d : VtexClientOrderItem.defaults) (st : store) :
  orders (fst (VtexClientOrderItem.update_or_create order ean d st)) = orders st.
Proof.
  unfold VtexClientOrderItem.update_or_create.
  destruct (find_rows _ 0 (order_items st)) as [|[i r] [|? ?]]; reflexivity.
Qed.

Lemma factory_items_orders (order : Order.t) (items : list json) (index : Z)
    (st : store) :
  orders (fst (VtexClientOrderItem.factory_items order index items st)) = orders st.
Proof.
  revert index st. induction items as [|item rest IH]; intros index st; [reflexivity|].
  cbn [VtexClientOrderItem.factory_items]. unfold db_bind, db_lift, db_ret.
  destruct (VtexClientOrderItem.item_arguments index item) as [args| |]; [|reflexivity..].
  pose proof (item_update_or_create_orders order (fst args) (snd args) st) as Hup.
  destruct (VtexClientOrderItem.update_or_create order _ _ st) as [st1 [r| |]];
    cbn [fst] in *; [|assumption..].
  pose proof (IH (index + 1) st1) as Hrest.
  destruct (VtexClientOrderItem.factory_items order (index + 1) rest st1)
    as [st2 [rows| |]]; cbn [fst] in *; congruence.
Qed.

(** The item factory leaves the orders table as it is. *)
Lemma item_factory_orders (orders_from_db : list Order.t) (st : store) :
  orders (fst (VtexClientOrderItem.factory orders_from_db st)) = orders st.
Proof.
  revert st. induction orders_from_db as [|order rest IH]; intros st; [reflexivity|].
  cbn [VtexClientOrderItem.factory]. unfold db_bind, db_lift, db_ret.
  destruct (py_getitem (Order.from_api order) "items") as [item_list| |]; [|reflexivity..].
  destruct (py_iter item_list) as [items| |]; [|reflexivity..].
  pose proof (factory_items_orders order items 0 st) as Hitems.
  destruct (VtexClientOrderItem.factory_items order 0 items st) as [st1 [rows| |]];
    cbn [fst] in *; [|assumption..].
  pose proof (IH st1) as Hrest.
  destruct (VtexClientOrderItem.factory rest st1) as [st2 [more| |]];
    cbn [fst] in *; congruence.
Qed.

Lemma order_update_or_create_items (order_number : string)
    (d : VtexClientOrder.defaults) (st : store) :
  order_items (fst (VtexClientOrder.update_or_create order_number d st))
  = order_items st.
Proof.
  unfold VtexClientOrder.update_or_create.
  destruct (find_rows _ 0 (orders st)) as [|[i r] [|? ?]]; reflexivity.
Qed.

Lemma order_factory_items (orders_from_api : list json) (st : store) :
  order_items (fst (VtexClientOrder.factory orders_from_api st)) = order_items st.
Proof.
  revert st. induction orders_from_api as [|order rest IH]; intros st; [reflexivity|].
  cbn [VtexClientOrder.factory]. unfold db_bind, db_lift, db_ret.
  destruct (VtexClientOrder.factory_defaults order) as [d| |]; [|reflexivity..].
  pose proof (order_update_or_create_items (VtexClientOrder.d_order_number d) d st) as Hup.
  destruct (VtexClientOrder.update_or_create _ d st) as [st1 [o| |]];
    cbn [fst] in *; [|assumption..].
  pose proof (IH st1) as Hrest.
  destruct (VtexClientOrder.factory rest st1) as [st2 [rows| |]]; cbn [fst] in *; congruence.
Qed.

(** *** The rows of the order factory *)

Lemma holds_defaults_number (o : Order.t) (d : VtexClientOrder.defaults) :
  holds_defaults o d -> Order.order_number o = VtexClientOrder.d_order_number d.
Proof. intros (_ & _ & _ & _ & _ & _ & _ & _ & _ & _ & H & _). exact H. Qed.

(** The row that the upsert of an order returns has the mapped values and
    is the only row of the table with the order number. *)
Lemma order_update_or_create_found (st st1 : store) (d : VtexClientOrder.defaults)
    (row : Order.t) :
  VtexClientOrder.d_route_text_code d = "" ->
  VtexClientOrder.update_or_create (VtexClientOrder.d_order_number d) d st
    = (st1, Ret row) ->
  holds_defaults row d /\
  exists j,
    find_rows (VtexClientOrder.same_key (VtexClientOrder.d_order_number d)) 0 (orders st1)
    = [(j, row)].
Proof.
  intros Hroute. unfold VtexClientOrder.update_or_create.
  destruct (find_rows (VtexClientOrder.same_key (VtexClientOrder.d_order_number d)) 0
              (orders st)) as [|[i r] [|? ?]] eqn:Hfind;
    intros [= <- <-]; cbn [orders].
  - split; [cbn; repeat split|].
    exists (0 + length (orders st))%nat. rewrite find_rows_app, Hfind.
    rewrite same_key_refl by reflexivity. reflexivity.
  - split; [unfold holds_defaults; cbn; rewrite Hroute; repeat split|].
    exists i. rewrite <- (Nat.sub_0_r i) at 1.
    apply (find_rows_insert_single _ 0 (orders st) i r); [exact Hfind|].
    apply same_key_refl. reflexivity.
Qed.

(** The upsert of an order leaves the rows of every other order number as
    they are, whatever its outcome. *)
Lemma order_update_or_create_other (st : store) (d : VtexClientOrder.defaults)
    (k : string) :
  k <> VtexClientOrder.d_order_number d ->
  find_rows (VtexClientOrder.same_key k) 0
    (orders (fst (VtexClientOrder.update_or_create
                    (VtexClientOrder.d_order_number d) d st)))
  = find_rows (VtexClientOrder.same_key k) 0 (orders st).
Proof.
  intros Hk. unfold VtexClientOrder.update_or_create.
  assert (Hkey : forall r, Order.order_number r = VtexClientOrder.d_order_number d ->
            VtexClientOrder.same_key k r = false).
  { intros r Hr. unfold VtexClientOrder.same_key. rewrite Hr.
    apply String.eqb_neq. intros E. apply Hk. symmetry. exact E. }
  destruct (find_rows (VtexClientOrder.same_key (VtexClientOrder.d_order_number d)) 0
              (orders st)) as [|[i r] [|? ?]] eqn:Hfind;
    cbn [fst orders]; [| |reflexivity].
  - rewrite find_rows_app, Hkey by reflexivity. apply app_nil_r.
  - assert (Hpos : In (i, r) (find_rows
              (VtexClientOrder.same_key (VtexClientOrder.d_order_number d)) 0 (orders st)))
      by (rewrite Hfind; left; reflexivity).
    apply find_rows_position in Hpos. destruct Hpos as (_ & Hlook & Hr).
    rewrite Nat.sub_0_r in Hlook. apply same_key_number in Hr.
    apply (find_rows_insert_other _ 0 (orders st) i r); [exact Hlook|..];
      apply Hkey; [exact Hr | reflexivity].
Qed.

(** The upsert of an order keeps the only row of an order number where it
    is, with its key. *)
Lemma order_update_or_create_kept (st : store) (d : VtexClientOrder.defaults)
    (k : string) (j : nat) (r : Order.t) :
  find_rows (VtexClientOrder.same_key k) 0 (orders st) = [(j, r)] ->
  exists r',
    find_rows (VtexClientOrder.same_key k) 0
      (orders (fst (VtexClientOrder.update_or_create
                      (VtexClientOrder.d_order_number d) d st)))
    = [(j, r')] /\
    Order.pk r' = Order.pk r.
Proof.
  intros Hk. destruct (string_dec k (VtexClientOrder.d_order_number d)) as [-> | Hne].
  - unfold VtexClientOrder.update_or_create. rewrite Hk. cbn [fst orders].
    exists (VtexClientOrder.set_defaults r d). split; [|reflexivity].
    rewrite <- (Nat.sub_0_r j) at 1.
    apply (find_rows_insert_single _ 0 (orders st) j r); [exact Hk|].
    apply same_key_refl. reflexivity.
  - exists r. rewrite order_update_or_create_other by exact Hne. auto.
Qed.

Lemma factory_kept (orders_from_api : list json) :
  forall (st : store) (k : string) (j : nat) (r : Order.t),
    find_rows (VtexClientOrder.same_key k) 0 (orders st) = [(j, r)] ->
    exists r',
      find_rows (VtexClientOrder.same_key k) 0
        (orders (fst (VtexClientOrder.factory orders_from_api st)))
      = [(j, r')] /\
      Order.pk r' = Order.pk r.
Proof.
  induction orders_from_api as [|raw rest IH]; intros st k j r Hk.
  - exists r. auto.
  - cbn [VtexClientOrder.factory]. unfold db_bind, db_lift, db_ret.
    destruct (VtexClientOrder.factory_defaults raw) as [d| |]; [|exists r; auto..].
    destruct (order_update_or_create_kept st d k j r Hk) as (r1 & Hk1 & Hpk1).
    destruct (VtexClientOrder.update_or_create _ d st) as [st1 [o| |]];
      cbn [fst] in *; [|exists r1; auto..].
    destruct (IH st1 k j r1 Hk1) as (r2 & Hk2 & Hpk2).
    destruct (VtexClientOrder.factory rest st1) as [st2 [rows| |]];
      cbn [fst] in *; exists r2; split; congruence.
Qed.

(** The order factory leaves the rows of an order number that is the
    [orderId] of none of the remote orders as they are, whatever its
    outcome. *)
Lemma factory_other (orders_from_api : list json) :
  forall (st : store) (k : string),
    (forall raw, In raw orders_from_api -> py_getitem raw "orderId" <> Ret (JStr k)) ->
    find_rows (VtexClientOrder.same_key k) 0
      (orders (fst (VtexClientOrder.factory orders_from_api st)))
    = find_rows (VtexClientOrder.same_key k) 0 (orders st).
Proof.
  induction orders_from_api as [|raw rest IH]; intros st k Hk; [reflexivity|].
  cbn [VtexClientOrder.factory]. unfold db_bind, db_lift, db_ret.
  destruct (VtexClientOrder.factory_defaults raw) as [d| |] eqn:Hd; [|reflexivity..].
  assert (Hne : k <> VtexClientOrder.d_order_number d).
  { intros ->. apply (Hk raw (or_introl eq_refl)).
    apply factory_defaults_order_id. exact Hd. }
  pose proof (order_update_or_create_other st d k Hne) as Hup.
  destruct (VtexClientOrder.update_or_create _ d st) as [st1 [o| |]];
    cbn [fst] in *; [|exact Hup..].
  pose proof (IH st1 k (fun raw' Hin => Hk raw' (or_intror Hin))) as Hrest.
  destruct (VtexClientOrder.factory rest st1) as [st2 [rows| |]];
    cbn [fst] in *; congruence.
Qed.

Lemma factory_cons_inv (raw : json) (rest : list json) (st st2 : store)
    (rows : list Order.t) :
  VtexClientOrder.factory (raw :: rest) st = (st2, Ret rows) ->
  exists d st1 row rows',
    VtexClientOrder.factory_defaults raw = Ret d /\
    VtexClientOrder.update_or_create (VtexClientOrder.d_order_number d) d st
      = (st1, Ret row) /\
    VtexClientOrder.factory rest st1 = (st2, Ret rows') /\
    rows = row :: rows'.
Proof.
  cbn [VtexClientOrder.factory]. unfold db_bind, db_lift, db_ret.
  destruct (VtexClientOrder.factory_defaults raw) as [d| |]; [|discriminate..].
  destruct (VtexClientOrder.update_or_create _ d st) as [st1 [row| |]] eqn:Hup;
    [|discriminate..].
  destruct (VtexClientOrder.factory rest st1) as [st2' [rows'| |]] eqn:Hrest;
    [|discriminate..].
  intros [= <- <-]. exists d, st1, row, rows'. auto.
Qed.

(** The order factory leaves the rows of an order number that is the number
    of none of the rows it returns as they are. *)
Lemma factory_other_rows (orders_from_api : list json) :
  forall (st st1 : store) (rows : list Order.t) (k : string),
    VtexClientOrder.factory orders_from_api st = (st1, Ret rows) ->
    Forall (fun row => Order.order_number row <> k) rows ->
    find_rows (VtexClientOrder.same_key k) 0 (orders st1)
    = find_rows (VtexClientOrder.same_key k) 0 (orders st).
Proof.
  induction orders_from_api as [|raw rest IH]; intros st st1 rows k Hrun Hrows.
  - cbn in Hrun. injection Hrun as <- _. reflexivity.
  - apply factory_cons_inv in Hrun.
    destruct Hrun as (d & st' & row & rows' & Hd & Hup & Hrest & ->).
    inversion Hrows as [|? ? Hrow Hrows']; subst.
    destruct (factory_defaults_constants raw d Hd) as [Hroute _].
    destruct (order_update_or_create_found st st' d row Hroute Hup) as [Hholds _].
    rewrite (IH st' st1 rows' k Hrest Hrows').
    pose proof (order_update_or_create_other st d k) as Hother.
    rewrite Hup in Hother. apply Hother. intros ->.
    apply Hrow. apply holds_defaults_number. exact Hholds.
Qed.

Lemma last_upsert_cons (r : Order.t) (rows : list Order.t) (o : Order.t) :
  last_upsert rows o -> last_upsert (r :: rows) o.
Proof.
  intros (before & after & -> & Hafter). exists (r :: before), after. auto.
Qed.

(** The rows that the order factory returns: each has the values mapped
    from its remote order; the table has exactly one row with its order
    number, which is the last of the returned rows with this number and has
    the same key. *)
Lemma factory_rows (orders_from_api : list json) :
  forall (st st1 : store) (rows : list Order.t),
    VtexClientOrder.factory orders_from_api st = (st1, Ret rows) ->
    Forall2 order_mapped orders_from_api rows /\
    Forall (fun row =>
              exists j o,
                find_rows (VtexClientOrder.same_key (Order.order_number row)) 0
                  (orders st1) = [(j, o)] /\
                last_upsert rows o /\
                Order.pk o = Order.pk row) rows.
Proof.
  induction orders_from_api as [|raw rest IH]; intros st st1 rows Hrun.
  - cbn in Hrun. injection Hrun as <- <-. split; constructor.
  - apply factory_cons_inv in Hrun.
    destruct Hrun as (d & st' & row & rows' & Hd & Hup & Hrest & ->).
    destruct (factory_defaults_constants raw d Hd) as [Hroute _].
    destruct (order_update_or_create_found st st' d row Hroute Hup) as [Hholds [j Hfound]].
    destruct (IH st' st1 rows' Hrest) as [Hmapped Hstored].
    split; [constructor; [exists d; auto | exact Hmapped]|].
    constructor.
    + rewrite (holds_defaults_number row d Hholds).
      destruct (factory_kept rest st' _ j row Hfound) as (o & Ho & Hpk).
      rewrite Hrest in Ho. cbn [fst] in Ho.
      exists j, o. split; [exact Ho|]. split; [|exact Hpk].
      destruct (List.Exists_dec
                  (fun r => Order.order_number r = VtexClientOrder.d_order_number d) rows'
                  (fun r => string_dec (Order.order_number r)
                              (VtexClientOrder.d_order_number d)))
        as [Hlater | Hnone].
      * apply List.Exists_exists in Hlater. destruct Hlater as (row' & Hin & Hnumber).
        pose proof (proj1 (List.Forall_forall _ _) Hstored row' Hin)
          as (j' & o' & Ho' & Hlast & _).
        rewrite Hnumber, Ho in Ho'. injection Ho' as _ <-.
        apply last_upsert_cons. exact Hlast.
      * apply List.Forall_Exists_neg in Hnone.
        pose proof (factory_other_rows rest st' st1 rows' _ Hrest Hnone) as Hsame.
        rewrite Ho, Hfound in Hsame. injection Hsame as ->.
        exists [], rows'. split; [reflexivity|].
        rewrite (holds_defaults_number row d Hholds). exact Hnone.
    + eapply Forall_impl; [exact Hstored|].
      intros row' (j' & o' & Ho' & Hlast & Hpk').
      exists j', o'. split; [exact Ho'|]. split; [|exact Hpk'].
      apply last_upsert_cons. exact Hlast.
Qed.

Lemma order_mapped_ids (orders_from_api : list json) (rows : list Order.t) :
  Forall2 order_mapped orders_from_api rows ->
  forall row, In row rows ->
    exists raw, In raw orders_from_api /\
      py_getitem raw "orderId" = Ret (JStr (Order.order_number row)).
Proof.
  induction 1 as [|raw row0 raws rows (d & Hd & Hholds) _ IH]; intros row; [intros []|].
  intros [<- | Hin].
  - exists raw. split; [left; reflexivity|].
    rewrite (holds_defaults_number row0 d Hholds).
    apply factory_defaults_order_id. exact Hd.
  - destruct (IH row Hin) as (raw' & Hin' & Hid). exists raw'. split; [right|]; assumption.
Qed.

Lemma last_upsert_unique (rows : list Order.t) (row o : Order.t) :
  NoDup (map Order.order_number rows) ->
  In row rows -> last_upsert rows o ->
  Order.order_number o = Order.order_number row ->
  o = row.
Proof.
  intros Hnodup Hrow (before & after & -> & _) Hnumber.
  assert (Ho : In o (before ++ o :: after)) by (apply in_app_iff; right; left; reflexivity).
  revert Hnodup Hrow Ho. generalize (before ++ o :: after). clear before after.
  intros l. induction l as [|a l IH]; [intros _ []|].
  cbn [map]. intros Hnodup. apply NoDup_cons in Hnodup. destruct Hnodup as [Hnotin Hnodup].
  rewrite list_elem_of_In in Hnotin.
  intros [-> | Hrow] [<- | Ho].
  - reflexivity.
  - exfalso. apply Hnotin. rewrite <- Hnumber. apply in_map. exact Ho.
  - exfalso. apply Hnotin. rewrite Hnumber. apply in_map. exact Hrow.
  - apply IH; assumption.
Qed.

(** *** The rows of the item factory *)

Lemma item_arguments_ean (index : Z) (item : json) (ean : string)
    (d : VtexClientOrderItem.defaults) :
  VtexClientOrderItem.item_arguments index item = Ret (ean, d) ->
  py_getitem item "ean" = Ret (JStr ean).
Proof.
  intros H. unfold VtexClientOrderItem.item_arguments in H.
  invert_binds H. injection H as <- _.
  match goal with
  | Hid : py_getitem item "ean" = Ret ?v, Ht : as_text ?v = Ret ?t
    |- _ = Ret (JStr ?t) =>
      destruct v; try discriminate; injection Ht as ->; exact Hid
  end.
Qed.

(** The upsert of an item keeps the only row of an order and a product
    code the only one, whatever its outcome. *)
Lemma item_update_or_create_keeps_one (st : store) (order : Order.t) (ean : string)
    (d : VtexClientOrderItem.defaults) (order_id : nat) (other : string) :
  one_item_row st order_id other ->
  one_item_row (fst (VtexClientOrderItem.update_or_create order ean d st)) order_id other.
Proof.
  unfold one_item_row. intros Hone. unfold VtexClientOrderItem.update_or_create.
  destruct (find_rows (VtexClientOrderItem.same_key (Order.pk order) ean) 0
              (order_items st)) as [|[i r] [|? ?]] eqn:Hfind;
    cbn [fst order_items]; [| |exact Hone].
  - rewrite find_rows_app, length_app.
    destruct (VtexClientOrderItem.same_key order_id other
                (VtexClientOrderItem.init (next_item_pk st) (Order.pk order) ean d))
      eqn:Hk; cbn [length]; [|lia].
    apply item_same_key_inv in Hk. cbn in Hk. destruct Hk as [<- <-].
    rewrite Hfind in Hone. discriminate.
  - assert (Hpos : In (i, r) (find_rows
              (VtexClientOrderItem.same_key (Order.pk order) ean) 0 (order_items st)))
      by (rewrite Hfind; left; reflexivity).
    apply find_rows_position in Hpos. destruct Hpos as (_ & Hlook & _).
    rewrite Nat.sub_0_r in Hlook.
    rewrite (find_rows_insert_length _ 0 (order_items st) i r);
      [exact Hone | exact Hlook | reflexivity].
Qed.

(** The upsert of an item of an order leaves the rows of every other order
    as they are, whatever its outcome. *)
Lemma item_update_or_create_frame (st : store) (order : Order.t) (ean : string)
    (d : VtexClientOrderItem.defaults) (order_id : nat) (other : string) :
  Order.pk order <> order_id ->
  find_rows (VtexClientOrderItem.same_key order_id other) 0
    (order_items (fst (VtexClientOrderItem.update_or_create order ean d st)))
  = find_rows (VtexClientOrderItem.same_key order_id other) 0 (order_items st).
Proof.
  intros Hother. unfold VtexClientOrderItem.update_or_create.
  assert (Hkey : forall r, OrderItem.order_id r = Order.pk order ->
            VtexClientOrderItem.same_key order_id other r = false).
  { intros r Hr. unfold VtexClientOrderItem.same_key. rewrite Hr.
    replace (Nat.eqb (Order.pk order) order_id) with false
      by (symmetry; apply Nat.eqb_neq, Hother).
    reflexivity. }
  destruct (find_rows (VtexClientOrderItem.same_key (Order.pk order) ean) 0
              (order_items st)) as [|[i r] [|? ?]] eqn:Hfind;
    cbn [fst order_items]; [| |reflexivity].
  - rewrite find_rows_app, Hkey by reflexivity. apply app_nil_r.
  - assert (Hpos : In (i, r) (find_rows
              (VtexClientOrderItem.same_key (Order.pk order) ean) 0 (order_items st)))
      by (rewrite Hfind; left; reflexivity).
    apply find_rows_position in Hpos. destruct Hpos as (_ & Hlook & Hr).
    rewrite Nat.sub_0_r in Hlook. apply item_same_key_inv in Hr. destruct Hr as [Hoid _].
    apply (find_rows_insert_other _ 0 (order_items st) i r); [exact Hlook|..];
      apply Hkey; cbn; exact Hoid.
Qed.

(** What every upsert of an item keeps, the two loops keep, whatever their
    outcome. *)
Lemma factory_items_preserves (Q : store -> Prop) (order : Order.t) :
  (forall ean d st, Q st -> Q (fst (VtexClientOrderItem.update_or_create order ean d st))) ->
  forall (items : list json) (index : Z) (st : store),
    Q st -> Q (fst (VtexClientOrderItem.factory_items order index items st)).
Proof.
  intros Hstep. induction items as [|item rest IH]; intros index st HQ; [exact HQ|].
  cbn [VtexClientOrderItem.factory_items]. unfold db_bind, db_lift, db_ret.
  destruct (VtexClientOrderItem.item_arguments index item) as [args| |]; [|exact HQ..].
  pose proof (Hstep (fst args) (snd args) st HQ) as Hup.
  destruct (VtexClientOrderItem.update_or_create order _ _ st) as [st1 [r| |]];
    cbn [fst] in *; [|exact Hup..].
  pose proof (IH (index + 1) st1 Hup) as Hrest.
  destruct (VtexClientOrderItem.factory_items order (index + 1) rest st1)
    as [st2 [rows| |]]; cbn [fst] in *; exact Hrest.
Qed.

Lemma item_factory_preserves (Q : store -> Prop) (orders_from_db : list Order.t) :
  (forall order ean d st, In order orders_from_db ->
     Q st -> Q (fst (VtexClientOrderItem.update_or_create order ean d st))) ->
  forall st : store, Q st -> Q (fst (VtexClientOrderItem.factory orders_from_db st)).
Proof.
  induction orders_from_db as [|order rest IH]; intros Hstep st HQ; [exact HQ|].
  cbn [VtexClientOrderItem.factory]. unfold db_bind, db_lift, db_ret.
  destruct (py_getitem (Order.from_api order) "items") as [item_list| |]; [|exact HQ..].
  destruct (py_iter item_list) as [items| |]; [|exact HQ..].
  pose proof (factory_items_preserves Q order
                (fun ean d st' => Hstep order ean d st' (or_introl eq_refl)) items 0 st HQ)
    as Hitems.
  destruct (VtexClientOrderItem.factory_items order 0 items st) as [st1 [rows| |]];
    cbn [fst] in *; [|exact Hitems..].
  pose proof (IH (fun o ean d st' Hin => Hstep o ean d st' (or_intror Hin)) st1 Hitems)
    as Hrest.
  destruct (VtexClientOrderItem.factory rest st1) as [st2 [more| |]];
    cbn [fst] in *; exact Hrest.
Qed.

Lemma factory_items_derived (order : Order.t) (items : list json) :
  forall (index : Z) (st st1 : store) (rows : list OrderItem.t),
    VtexClientOrderItem.factory_items order index items st = (st1, Ret rows) ->
    Forall (fun item =>
              exists ean,
                py_getitem item "ean" = Ret (JStr ean) /\
                one_item_row st1 (Order.pk order) ean) items.
Proof.
  induction items as [|item rest IH]; intros index st st1 rows H; [constructor|].
  cbn [VtexClientOrderItem.factory_items] in H. unfold db_bind, db_lift, db_ret in H.
  destruct (VtexClientOrderItem.item_arguments index item) as [[ean d]| |] eqn:Hargs;
    [|discriminate..].
  cbn [fst snd] in H.
  destruct (VtexClientOrderItem.update_or_create order ean d st) as [st' [r| |]] eqn:Hup;
    [|discriminate..].
  destruct (VtexClientOrderItem.factory_items order (index + 1) rest st')
    as [st'' [rows'| |]] eqn:Hrest; [|discriminate..].
  injection H as <- _.
  constructor; [|exact (IH _ _ _ _ Hrest)].
  exists ean. split; [exact (item_arguments_ean _ _ _ _ Hargs)|].
  destruct (item_update_or_create_found _ _ _ _ _ _ Hup) as [i Hfound].
  pose proof (factory_items_preserves
                (fun s => one_item_row s (Order.pk order) ean) order
                (fun e dd s => item_update_or_create_keeps_one s order e dd
                                 (Order.pk order) ean)
                rest (index + 1) st') as Hkeep.
  rewrite Hrest in Hkeep. apply Hkeep. unfold one_item_row. rewrite Hfound. reflexivity.
Qed.

(** The item factory derives the items of each order it is given. *)
Lemma item_factory_derived (orders_from_db : list Order.t) :
  forall (st st2 : store) (item_rows : list OrderItem.t),
    VtexClientOrderItem.factory orders_from_db st = (st2, Ret item_rows) ->
    Forall (items_derived st2) orders_from_db.
Proof.
  induction orders_from_db as [|order rest IH]; intros st st2 item_rows H; [constructor|].
  cbn [VtexClientOrderItem.factory] in H. unfold db_bind, db_lift, db_ret in H.
  destruct (py_getitem (Order.from_api order) "items") as [item_list| |] eqn:Hlist;
    [|discriminate..].
  destruct (py_iter item_list) as [items| |] eqn:Hiter; [|discriminate..].
  destruct (VtexClientOrderItem.factory_items order 0 items st) as [st1 [objs| |]]
    eqn:Hitems; [|discriminate..].
  destruct (VtexClientOrderItem.factory rest st1) as [st2' [more| |]] eqn:Hrest;
    [|discriminate..].
  injection H as <- _.
  constructor; [|exact (IH _ _ _ Hrest)].
  exists item_list, items. split; [exact Hlist|]. split; [exact Hiter|].
  eapply Forall_impl; [exact (factory_items_derived _ _ _ _ _ _ Hitems)|].
  intros item (ean & Hean & Hone). exists ean. split; [exact Hean|].
  pose proof (item_factory_preserves
                (fun s => one_item_row s (Order.pk order) ean) rest
                (fun o e dd s _ => item_update_or_create_keeps_one s o e dd
                                     (Order.pk order) ean)
                st1 Hone) as Hkeep.
  rewrite Hrest in Hkeep. exact Hkeep.
Qed.

(** The item factory leaves the rows of the orders it is not given as they
    are, whatever its outcome. *)
Lemma item_factory_frame (orders_from_db : list Order.t) (st : store)
    (order_id : nat) (ean : string) :
  (forall row, In row orders_from_db -> Order.pk row <> order_id) ->
  find_rows (VtexClientOrderItem.same_key order_id ean) 0
    (order_items (fst (VtexClientOrderItem.factory orders_from_db st)))
  = find_rows (VtexClientOrderItem.same_key order_id ean) 0 (order_items st).
Proof.
  intros Hother.
  apply (item_factory_preserves
           (fun s => find_rows (VtexClientOrderItem.same_key order_id ean) 0 (order_items s)
                     = find_rows (VtexClientOrderItem.same_key order_id ean) 0
                         (order_items st)) orders_from_db); [|reflexivity].
  intros order e d s Hin Hs. rewrite <- Hs.
  apply item_update_or_create_frame. apply Hother. exact Hin.
Qed.

(** *** The files of the delivery *)

Lemma append_length (a b : string) :
  String.length (a +:+ b) = (String.length a + String.length b)%nat.
Proof.
  induction a as [|c a IH]; append_norm; [reflexivity|].
  cbn [String.length]. rewrite IH. reflexivity.
Qed.

Lemma append_cancel_r (a b s : string) : a +:+ s = b +:+ s -> a = b.
Proof.
  revert b. induction a as [|c a IH]; intros [|c' b]; append_norm; intros H.
  - reflexivity.
  - apply (f_equal String.length) in H. cbn [String.length] in H.
    rewrite append_length in H. lia.
  - apply (f_equal String.length) in H. cbn [String.length] in H.
    rewrite append_length in H. lia.
  - injection H as -> H. rewrite (IH b H). reflexivity.
Qed.

Lemma file_path_number (o1 o2 : Order.t) :
  VtexClientOrder.file_path o1 = VtexClientOrder.file_path o2 ->
  Order.order_number o1 = Order.order_number o2.
Proof.
  unfold VtexClientOrder.file_path. append_norm. intros H.
  injection H as H. exact (append_cancel_r _ _ _ H).
Qed.

Lemma create_order_files_other (st : store) (orders_from_db : list Order.t)
    (sftp : gmap string string) (path : string) :
  (forall order, In order orders_from_db -> VtexClientOrder.file_path order <> path) ->
  VtexClientOrder.create_order_files st sftp orders_from_db !! path = sftp !! path.
Proof.
  revert sftp. induction orders_from_db as [|order rest IH]; intros sftp Hpath;
    cbn [VtexClientOrder.create_order_files]; [reflexivity|].
  rewrite IH by (intros o Ho; apply Hpath; right; exact Ho).
  apply lookup_insert_ne. apply Hpath. left. reflexivity.
Qed.

Lemma order_path_number (k1 k2 : string) : order_path k1 = order_path k2 -> k1 = k2.
Proof.
  unfold order_path. append_norm. intros H.
  injection H as H. exact (append_cancel_r _ _ _ H).
Qed.

(** The delivery writes one file per order at most. *)
Lemma create_order_files_size (st : store) (orders_from_db : list Order.t)
    (sftp : gmap string string) :
  (size (VtexClientOrder.create_order_files st sftp orders_from_db)
   <= size sftp + length orders_from_db)%nat.
Proof.
  revert sftp. induction orders_from_db as [|order rest IH]; intros sftp;
    cbn [VtexClientOrder.create_order_files length]; [lia|].
  etransitivity; [apply IH|]. rewrite map_size_insert.
  destruct (sftp !! VtexClientOrder.file_path order); cbn [id]; lia.
Qed.

Lemma create_order_files_app (st : store) (l1 l2 : list Order.t)
    (sftp : gmap string string) :
  VtexClientOrder.create_order_files st sftp (l1 ++ l2)
  = VtexClientOrder.create_order_files st
      (VtexClientOrder.create_order_files st sftp l1) l2.
Proof.
  revert sftp. induction l1 as [|o l1 IH]; intros sftp;
    cbn [app VtexClientOrder.create_order_files]; [reflexivity | apply IH].
Qed.

(** After the loop, the file of an order number has the text of the last
    of the orders with this number. *)
Lemma create_order_files_last (st : store) (rows : list Order.t)
    (sftp : gmap string string) (o : Order.t) :
  last_upsert rows o ->
  VtexClientOrder.create_order_files st sftp rows !! VtexClientOrder.file_path o
  = Some (VtexClientOrder.file_text o (VtexClientOrder.orderitem_set st o)).
Proof.
  intros (before & after & -> & Hafter). rewrite create_order_files_app.
  cbn [VtexClientOrder.create_order_files].
  rewrite create_order_files_other; [apply lookup_insert_eq|].
  intros r Hr Hpath. apply file_path_number in Hpath.
  exact (proj1 (List.Forall_forall _ _) Hafter r Hr Hpath).
Qed.

(** The loop writes the files of the orders up to the first refusal: all of
    them when it ends normally. *)
Lemma orders_written_prefix (can_write : string -> bool) (rows : list Order.t) :
  exists pending,
    rows = fst (VtexClientOrder.orders_written can_write rows) ++ pending.
Proof.
  induction rows as [|o rest [pending IH]]; cbn [VtexClientOrder.orders_written].
  - exists []. reflexivity.
  - destruct (can_write (VtexClientOrder.file_path o)).
    + destruct (VtexClientOrder.orders_written can_write rest) as [written outcome].
      cbn [fst] in *. exists pending. cbn [app]. f_equal. exact IH.
    + exists (o :: rest). reflexivity.
Qed.

Lemma orders_written_all (can_write : string -> bool) (rows : list Order.t) :
  snd (VtexClientOrder.orders_written can_write rows) = Ret tt ->
  fst (VtexClientOrder.orders_written can_write rows) = rows.
Proof.
  induction rows as [|o rest IH]; cbn [VtexClientOrder.orders_written]; [reflexivity|].
  destruct (can_write (VtexClientOrder.file_path o)); [|discriminate].
  destruct (VtexClientOrder.orders_written can_write rest) as [written outcome].
  cbn [fst snd] in *. intros H. rewrite (IH H). reflexivity.
Qed.

(** *** The script *)

Lemma run_with_bounds (cfg : settings) (orders_from_api : list json) (w : world) :
  (length (orders (w_store (fst (run_with cfg orders_from_api w))))
   <= length (orders (w_store w)) + 3)%nat
  /\ (size (remote_files (w_server (fst (run_with cfg orders_from_api w))))
      <= size (remote_files (w_server w)) + 3)%nat.
Proof.
  unfold run_with.
  assert (Htake : (length (take 3 orders_from_api) <= 3)%nat)
    by (rewrite length_take; lia).
  destruct (factory_orders_length (take 3 orders_from_api) (w_store w)) as [Hlen Hrows].
  destruct (VtexClientOrder.factory (take 3 orders_from_api) (w_store w))
    as [st1 [orders_from_db| |]]; cbn [fst snd] in *;
    [|cbn [fst w_store w_server]; split; lia..].
  specialize (Hrows orders_from_db eq_refl).
  pose proof (item_factory_orders orders_from_db st1) as Hitems.
  destruct (VtexClientOrderItem.factory orders_from_db st1) as [st2 [rows| |]];
    cbn [fst] in *; [|cbn [fst w_store w_server]; rewrite Hitems; split; lia..].
  unfold VtexClientOrder.upload_to_sftp.
  destruct (accepts (w_server w) _ _ _ _);
    [|cbn [fst w_store w_server remote_files]; rewrite Hitems; split; lia].
  destruct (orders_written_prefix (writable (w_server w)) orders_from_db)
    as [pending Hprefix].
  destruct (VtexClientOrder.orders_written (writable (w_server w)) orders_from_db)
    as [written outcome].
  cbn [fst w_store w_server remote_files] in *. rewrite Hitems. split; [lia|].
  pose proof (create_order_files_size st2 written (remote_files (w_server w))).
  apply (f_equal (@length Order.t)) in Hprefix. rewrite length_app in Hprefix. lia.
Qed.

(** The orders table after the script is the table after the order
    factory, whatever the outcome. *)
Lemma run_with_orders (cfg : settings) (orders_from_api : list json) (w : world) :
  orders (w_store (fst (run_with cfg orders_from_api w)))
  = orders (fst (VtexClientOrder.factory (take 3 orders_from_api) (w_store w))).
Proof.
  unfold run_with.
  destruct (VtexClientOrder.factory (take 3 orders_from_api) (w_store w))
    as [st1 [orders_from_db| |]]; [|reflexivity..].
  pose proof (item_factory_orders orders_from_db st1) as Hitems.
  destruct (VtexClientOrderItem.factory orders_from_db st1) as [st2 [rows| |]];
    cbn [fst] in *; [|exact Hitems..].
  destruct (VtexClientOrder.upload_to_sftp cfg st2 (w_server w) orders_from_db)
    as [server outcome].
  exact Hitems.
Qed.

(** The remote files after the script are written for rows of the first
    three fetched orders only, whatever the outcome. *)
Lemma run_with_files (cfg : settings) (orders_from_api : list json) (w : world) :
  exists st written,
    remote_files (w_server (fst (run_with cfg orders_from_api w)))
    = VtexClientOrder.create_order_files st (remote_files (w_server w)) written /\
    forall row, In row written ->
      exists raw, In raw (take 3 orders_from_api) /\
        py_getitem raw "orderId" = Ret (JStr (Order.order_number row)).
Proof.
  unfold run_with.
  destruct (VtexClientOrder.factory (take 3 orders_from_api) (w_store w))
    as [st1 [orders_from_db| |]] eqn:Hfactory;
    [|exists (w_store w), []; split; [reflexivity | intros ? []]..].
  destruct (VtexClientOrderItem.factory orders_from_db st1) as [st2 [rows| |]];
    [|exists (w_store w), []; split; [reflexivity | intros ? []]..].
  unfold VtexClientOrder.upload_to_sftp.
  destruct (accepts (w_server w) _ _ _ _);
    [|exists (w_store w), []; split; [reflexivity | intros ? []]].
  destruct (orders_written_prefix (writable (w_server w)) orders_from_db)
    as [pending Hprefix].
  destruct (VtexClientOrder.orders_written (writable (w_server w)) orders_from_db)
    as [written outcome].
  cbn [fst] in Hprefix. exists st2, written. split; [reflexivity|].
  intros row Hin.
  apply (order_mapped_ids (take 3 orders_from_api) orders_from_db).
  - exact (proj1 (factory_rows _ _ _ _ Hfactory)).
  - rewrite Hprefix. apply in_app_iff. left. exact Hin.
Qed.

(** When the script ends normally, the rows that the order factory returned
    for the first three fetched orders are persisted, have their items
    derived and are uploaded. *)
Lemma run_with_done (cfg : settings) (orders_from_api : list json) (w : world) :
  snd (run_with cfg orders_from_api w) = Ret tt ->
  exists rows,
    Forall2 order_mapped (take 3 orders_from_api) rows /\
    Forall (order_processed (fst (run_with cfg orders_from_api w)) rows) rows /\
    (NoDup (map Order.order_number rows) ->
     Forall (order_delivered (fst (run_with cfg orders_from_api w))) rows) /\
    (forall order_id ean,
       (forall row, In row rows -> Order.pk row <> order_id) ->
       find_rows (VtexClientOrderItem.same_key order_id ean) 0
         (order_items (w_store (fst (run_with cfg orders_from_api w))))
       = find_rows (VtexClientOrderItem.same_key order_id ean) 0
           (order_items (w_store w))).
Proof.
  unfold run_with.
  destruct (VtexClientOrder.factory (take 3 orders_from_api) (w_store w))
    as [st1 [rows| |]] eqn:Hfactory; [|discriminate..].
  destruct (VtexClientOrderItem.factory rows st1) as [st2 [item_rows| |]] eqn:Hitems;
    [|discriminate..].
  unfold VtexClientOrder.upload_to_sftp.
  destruct (accepts (w_server w) _ _ _ _); [|discriminate].
  pose proof (orders_written_all (writable (w_server w)) rows) as Hall.
  destruct (VtexClientOrder.orders_written (writable (w_server w)) rows)
    as [written outcome].
  cbn [fst snd w_store w_server remote_files] in *. intros Hend.
  rewrite (Hall Hend). clear Hall Hend written outcome.
  destruct (factory_rows _ _ _ _ Hfactory) as [Hmapped Hstored].
  pose proof (item_factory_derived _ _ _ _ Hitems) as Hderived.
  pose proof (item_factory_orders rows st1) as Horders.
  rewrite Hitems in Horders. cbn [fst] in Horders.
  assert (Hprocessed :
            Forall (order_processed
                      (mk_world st2
                         (mk_sftp (accepts (w_server w)) (writable (w_server w))
                            (VtexClientOrder.create_order_files st2
                               (remote_files (w_server w)) rows))) rows) rows).
  { apply List.Forall_forall. intros row Hin.
    pose proof (proj1 (List.Forall_forall _ _) Hstored row Hin)
      as (j & o & Ho & Hlast & Hpk).
    exists j, o. cbn [w_store w_server remote_files]. rewrite Horders.
    split; [exact Ho|]. split; [exact Hlast|]. split; [exact Hpk|].
    split; [exact (proj1 (List.Forall_forall _ _) Hderived row Hin)|].
    assert (Hnumber : Order.order_number o = Order.order_number row).
    { apply same_key_number.
      assert (Hpos : In (j, o) (find_rows
                (VtexClientOrder.same_key (Order.order_number row)) 0 (orders st1)))
        by (rewrite Ho; left; reflexivity).
      apply find_rows_position in Hpos. tauto. }
    rewrite <- Hnumber. apply (create_order_files_last st2 rows _ o Hlast). }
  exists rows. split; [exact Hmapped|]. split; [exact Hprocessed|]. split.
  - intros Hnodup. apply List.Forall_forall. intros row Hin.
    pose proof (proj1 (List.Forall_forall _ _) Hprocessed row Hin)
      as (j & o & Ho & Hlast & Hpk & Hitems' & Hfile).
    assert (Hnumber : Order.order_number o = Order.order_number row).
    { apply same_key_number.
      assert (Hpos : In (j, o) (find_rows
                (VtexClientOrder.same_key (Order.order_number row)) 0
                (orders (w_store
                   (mk_world st2
                      (mk_sftp (accepts (w_server w)) (writable (w_server w))
                         (VtexClientOrder.create_order_files st2
                            (remote_files (w_server w)) rows)))))))
        by (rewrite Ho; left; reflexivity).
      apply find_rows_position in Hpos. tauto. }
    rewrite (last_upsert_unique rows row o Hnodup Hin Hlast Hnumber) in *.
    split; [exists j; exact Ho|]. split; assumption.
  - intros order_id ean Hother.
    pose proof (item_factory_frame rows st1 order_id ean Hother) as Hframe.
    rewrite Hitems in Hframe. cbn [fst] in Hframe. rewrite Hframe.
    pose proof (order_factory_items (take 3 orders_from_api) (w_store w)) as Hsame.
    rewrite Hfactory in Hsame. cbn [fst] in Hsame. rewrite Hsame. reflexivity.
Qed.

(** C10: the run persists, derives the items of and uploads only the first
    three orders of the fetched list. The run is the run on these three,
    whatever follows them in the list. When it ends normally, the order
    factory has returned one row per order of the first three, with the
    values mapped from it; for each of these rows the orders table has
    exactly one row with the order number, the items table has exactly one
    row of the order for each entry of its item list, and the file of the
    order number in the remote store holds the text of the row of the table
    with its items (when the order numbers are distinct, the row of the
    table is the returned row itself); and the item rows of every other
    order are as they were. Whatever the outcome, for an order number that
    is the [orderId] of none of the first three, the rows of the orders
    table and the file are as they were before the run, and so is every
    other file of the remote store; the run adds three rows to the orders
    table at most and three files at most. *)
Theorem run_first_three (http : transport) (cfg : settings) (limit : nat)
    (w : world) (orders_from_api : list json) :
  VtexClientOrder.get_orders http cfg limit None None 1 = Ret orders_from_api ->
  run http cfg limit w = run_with cfg (take 3 orders_from_api) w
  /\ (forall fetched, take 3 fetched = take 3 orders_from_api ->
        run_with cfg fetched w = run http cfg limit w)
  /\ (snd (run http cfg limit w) = Ret tt ->
      exists rows,
        Forall2 order_mapped (take 3 orders_from_api) rows /\
        Forall (order_processed (fst (run http cfg limit w)) rows) rows /\
        (NoDup (map Order.order_number rows) ->
         Forall (order_delivered (fst (run http cfg limit w))) rows) /\
        (forall order_id ean,
           (forall row, In row rows -> Order.pk row <> order_id) ->
           find_rows (VtexClientOrderItem.same_key order_id ean) 0
             (order_items (w_store (fst (run http cfg limit w))))
           = find_rows (VtexClientOrderItem.same_key order_id ean) 0
               (order_items (w_store w))))
  /\ (forall k,
        (forall raw, In raw (take 3 orders_from_api) ->
           py_getitem raw "orderId" <> Ret (JStr k)) ->
        find_rows (VtexClientOrder.same_key k) 0
          (orders (w_store (fst (run http cfg limit w))))
        = find_rows (VtexClientOrder.same_key k) 0 (orders (w_store w))
        /\ remote_files (w_server (fst (run http cfg limit w))) !! order_path k
           = remote_files (w_server w) !! order_path k)
  /\ (forall path,
        (forall raw k, In raw (take 3 orders_from_api) ->
           py_getitem raw "orderId" = Ret (JStr k) -> path <> order_path k) ->
        remote_files (w_server (fst (run http cfg limit w))) !! path
        = remote_files (w_server w) !! path)
  /\ (length (orders (w_store (fst (run http cfg limit w))))
      <= length (orders (w_store w)) + 3)%nat
  /\ (size (remote_files (w_server (fst (run http cfg limit w))))
      <= size (remote_files (w_server w)) + 3)%nat.
Proof.
  intros Hfetch. unfold run. rewrite Hfetch.
  assert (Hsame : forall fetched, take 3 fetched = take 3 orders_from_api ->
            run_with cfg fetched w = run_with cfg orders_from_api w)
    by (intros fetched Heq; unfold run_with; rewrite Heq; reflexivity).
  assert (Hfiles : forall path,
            (forall raw k, In raw (take 3 orders_from_api) ->
               py_getitem raw "orderId" = Ret (JStr k) -> path <> order_path k) ->
            remote_files (w_server (fst (run_with cfg orders_from_api w))) !! path
            = remote_files (w_server w) !! path).
  { intros path Hpath.
    destruct (run_with_files cfg orders_from_api w) as (st & written & -> & Hwritten).
    apply create_order_files_other. intros row Hin Hrow.
    destruct (Hwritten row Hin) as (raw & Hraw & Hid).
    apply (Hpath raw (Order.order_number row) Hraw Hid). symmetry. exact Hrow. }
  split; [symmetry; apply Hsame, take_take|].
  split; [exact Hsame|].
  split; [apply run_with_done|].
  split; [|split; [exact Hfiles | apply run_with_bounds]].
  intros k Hk. split.
  - rewrite run_with_orders. apply factory_other. exact Hk.
  - apply Hfiles. intros raw k' Hraw Hid Hpath.
    apply order_path_number in Hpath. subst k'. exact (Hk raw Hraw Hid).
Qed.

End Run.

Example run_shop :
  let w := fst (run shop_http sample_cfg 1000 sample_world) in
  map Order.order_number (orders (w_store w)) = ["v1001-01"; "v1002-01"; "v1003-01"]
  /\ size (remote_files (w_server w)) = 3%nat
  /\ remote_files (w_server w) !! "ag-pruebas/v1003-01.txt"
     = Some (VtexClientOrder.file_text
               (VtexClientOrder.init 3 (VtexClientOrder.mk_defaults
                  (mk_datetime 2021 3 4 10 15 30 0) (mk_datetime 2021 3 9 0 0 0 0)
                  "Ana Diaz" "1020304050" "3001234567" "ana@example.com"
                  "Main 42 Centro" "Bogota" "" "110111" "v1003-01" ""
                  (raw_order "v1003-01" sample_items)))
               [ OrderItem.mk 5 3 "D" 1 "7701234567890" 2 199 "" 0 "001";
                 OrderItem.mk 6 3 "D" 2 "7709876543210" 1 45 "" 0 "001" ])
  /\ remote_files (w_server w) !! "ag-pruebas/v1004-01.txt" = None
  /\ snd (run shop_http sample_cfg 1000 sample_world) = Ret tt.
Proof.
  vm_compute. repeat split; try reflexivity.
Qed.

(** The run on a world that has rows and files of earlier runs: the row of
    [v1001-01] is updated where it is, the rows of [v1002-01] and [v1003-01]
    are added, the fourth fetched order gets no row and its earlier file is
    kept, and the row, the item and the file of [v0999-01] are kept. *)
Example run_busy_shop :
  let w := fst (run shop_http sample_cfg 1000 busy_world) in
  map (fun o => (Order.pk o, Order.order_number o, Order.buyer_fullname o))
    (orders (w_store w))
  = [ (3%nat, "v0999-01", "Luis Rey"); (7%nat, "v1001-01", "Ana Diaz");
      (8%nat, "v1002-01", "Ana Diaz"); (9%nat, "v1003-01", "Ana Diaz") ]
  /\ map (fun r => (OrderItem.pk r, OrderItem.order_id r, OrderItem.ean r,
                    OrderItem.item_number r))
       (order_items (w_store w))
     = [ (1%nat, 3%nat, "7700000000001", 1); (2%nat, 7%nat, "7709876543210", 2);
         (3%nat, 7%nat, "7701234567890", 1); (4%nat, 8%nat, "7701234567890", 1);
         (5%nat, 8%nat, "7709876543210", 2); (6%nat, 9%nat, "7701234567890", 1);
         (7%nat, 9%nat, "7709876543210", 2) ]
  /\ remote_files (w_server w) !! "ag-pruebas/v0999-01.txt" = Some "H|earlier"
  /\ remote_files (w_server w) !! "ag-pruebas/v1004-01.txt" = Some "H|before"
  /\ size (remote_files (w_server w)) = 5%nat
  /\ snd (run shop_http sample_cfg 1000 busy_world) = Ret tt.
Proof.
  vm_compute. repeat split; try reflexivity.
Qed.

Lemma run_first_three_witness :
  let fetched := map (fun order_id => raw_order order_id sample_items) shop_order_ids in
  let w' := fst (run shop_http sample_cfg 1000 busy_world) in
  VtexClientOrder.get_orders shop_http sample_cfg 1000 None None 1 = Ret fetched
  /\ snd (run shop_http sample_cfg 1000 busy_world) = Ret tt
  /\ (exists rows,
        Forall2 order_mapped (take 3 fetched) rows /\
        Forall (order_processed w' rows) rows /\
        (NoDup (map Order.order_number rows) -> Forall (order_delivered w') rows) /\
        (forall order_id ean,
           (forall row, In row rows -> Order.pk row <> order_id) ->
           find_rows (VtexClientOrderItem.same_key order_id ean) 0
             (order_items (w_store w'))
           = find_rows (VtexClientOrderItem.same_key order_id ean) 0
               (order_items (w_store busy_world))))
  /\ find_rows (VtexClientOrder.same_key "v1004-01") 0 (orders (w_store w'))
     = find_rows (VtexClientOrder.same_key "v1004-01") 0 (orders (w_store busy_world))
  /\ remote_files (w_server w') !! order_path "v1004-01"
     = remote_files (w_server busy_world) !! order_path "v1004-01".
Proof.
  intros fetched w'.
  assert (Hfetch : VtexClientOrder.get_orders shop_http sample_cfg 1000 None None 1
                   = Ret fetched) by (vm_compute; reflexivity).
  destruct (run_first_three shop_http sample_cfg 1000 busy_world fetched Hfetch)
    as (_ & _ & Hdone & Hother & _).
  split; [exact Hfetch|].
  split; [vm_compute; reflexivity|].
  split; [apply Hdone; vm_compute; reflexivity|].
  apply Hother. intros raw Hin.
  destruct Hin as [<- | [<- | [<- | []]]]; vm_compute; discriminate.
Defined.

(** * Further properties of the pipeline *)

(** ** The order factory and the orders table *)

Section OrderTable.

(** X1: each factory writes its own table only: the order factory leaves
    the items table as it is, and the item factory leaves the orders table
    as it is, whatever their outcome. *)
Theorem factories_own_tables (orders_from_api : list json)
    (orders_from_db : list Order.t) (st : store) :
  order_items (fst (VtexClientOrder.factory orders_from_api st)) = order_items st
  /\ orders (fst (VtexClientOrderItem.factory orders_from_db st)) = orders st.
Proof. split; [apply order_factory_items | apply item_factory_orders]. Qed.




(** X3: the invariant of the orders table is kept by the order factory, on
    any list of remote orders and whatever the outcome: the factory never
    makes a second row for an order number. *)
Theorem factory_keeps_unique_order_numbers (orders_from_api : list json) (st : store) :
  unique_order_numbers st ->
  unique_order_numbers (fst (VtexClientOrder.factory orders_from_api st)).
Proof.
  revert st. induction orders_from_api as [|order rest IH]; intros st Huniq; [exact Huniq|].
  cbn [VtexClientOrder.factory]. unfold db_bind, db_lift, db_ret.
  destruct (VtexClientOrder.factory_defaults order) as [d| |] eqn:Hd; [|exact Huniq..].
  destruct (factory_defaults_constants order d Hd) as [Hroute _].
  destruct (order_update_or_create st d Huniq Hroute)
    as (st1 & o & i & Hup & _ & _ & Huniq1).
  rewrite Hup. specialize (IH st1 Huniq1).
  destruct (VtexClientOrder.factory rest st1) as [st2 [rows| |]]; exact IH.
Qed.

(** X4: the upsert of one remote order leaves the rows of every other
    order number, and their places in the table, as they are. *)
Theorem factory_leaves_other_orders (raw : json) (d : VtexClientOrder.defaults)
    (st : store) (other : string) :
  VtexClientOrder.factory_defaults raw = Ret d ->
  other <> VtexClientOrder.d_order_number d ->
  find_rows (VtexClientOrder.same_key other) 0
    (orders (fst (VtexClientOrder.factory [raw] st)))
  = find_rows (VtexClientOrder.same_key other) 0 (orders st).
Proof.
  intros Hd Hother. rewrite (factory_single raw d st Hd).
  unfold VtexClientOrder.update_or_create.
  destruct (find_rows _ 0 (orders st)) as [|[i r] [|? ?]] eqn:Hfind; cbn [fst orders].
  - rewrite find_rows_app.
    replace (VtexClientOrder.same_key other _) with false; [apply app_nil_r|].
    symmetry. apply String.eqb_neq. cbn. congruence.
  - assert (Hpos : In (i, r) (find_rows
              (VtexClientOrder.same_key (VtexClientOrder.d_order_number d)) 0 (orders st)))
      by (rewrite Hfind; left; reflexivity).
    apply find_rows_position in Hpos. destruct Hpos as (_ & Hlook & Hr).
    rewrite Nat.sub_0_r in Hlook. apply same_key_number in Hr.
    apply (find_rows_insert_other _ 0 (orders st) i r); [exact Hlook|..];
      apply String.eqb_neq; cbn; congruence.
  - reflexivity.
Qed.

(** X5: the order factory has no rollback. When the mapping of a remote
    order raises, the factory ends with that exception, the rows of the
    orders before it stay written, and the orders after it are not
    processed. *)
Theorem factory_stops_at_failure (done : list json) (bad : json) (pending : list json)
    (st st1 : store) (rows : list Order.t) (e : exn) :
  VtexClientOrder.factory done st = (st1, Ret rows) ->
  VtexClientOrder.factory_defaults bad = Raise e ->
  VtexClientOrder.factory (done ++ bad :: pending) st = (st1, Raise e).
Proof.
  revert st rows. induction done as [|order rest IH]; intros st rows Hdone Hbad.
  - cbn in Hdone. injection Hdone as <- _.
    cbn [app VtexClientOrder.factory]. unfold db_bind, db_lift. rewrite Hbad. reflexivity.
  - cbn [app VtexClientOrder.factory] in *. unfold db_bind, db_lift, db_ret in *.
    destruct (VtexClientOrder.factory_defaults order) as [d| |]; [|discriminate..].
    destruct (VtexClientOrder.update_or_create _ d st) as [st' [o| |]]; [|discriminate..].
    destruct (VtexClientOrder.factory rest st') as [st'' [rows'| |]] eqn:Hrest;
      [|discriminate..].
    injection Hdone as <- _. rewrite (IH st' rows' Hrest Hbad). reflexivity.
Qed.

End OrderTable.

Lemma factory_keeps_unique_order_numbers_witness :
  unique_order_numbers
    (fst (VtexClientOrder.factory [sample_raw_order; sample_raw_order_reordered]
            empty_store)).
Proof.
  apply (factory_keeps_unique_order_numbers
           [sample_raw_order; sample_raw_order_reordered] empty_store).
  intros k. cbn. lia.
Defined.

Lemma factory_leaves_other_orders_witness :
  find_rows (VtexClientOrder.same_key "v1002-01") 0
    (orders (fst (VtexClientOrder.factory [sample_raw_order]
                    (mk_store [VtexClientOrder.init 1
                                 (VtexClientOrder.mk_defaults
                                    (mk_datetime 2021 3 4 10 15 30 0)
                                    (mk_datetime 2021 3 9 0 0 0 0)
                                    "Ana Diaz" "1020304050" "3001234567" "ana@example.com"
                                    "Main 42 Centro" "Bogota" "" "110111" "v1002-01" ""
                                    (raw_order "v1002-01" sample_items))] [] 2 1))))
  = [(0%nat, VtexClientOrder.init 1
        (VtexClientOrder.mk_defaults
           (mk_datetime 2021 3 4 10 15 30 0) (mk_datetime 2021 3 9 0 0 0 0)
           "Ana Diaz" "1020304050" "3001234567" "ana@example.com"
           "Main 42 Centro" "Bogota" "" "110111" "v1002-01" ""
           (raw_order "v1002-01" sample_items)))].
Proof.
  refine (eq_trans
            (factory_leaves_other_orders sample_raw_order sample_defaults _ "v1002-01" _ _) _).
  - vm_compute. reflexivity.
  - vm_compute. discriminate.
  - vm_compute. reflexivity.
Defined.

Lemma factory_stops_at_failure_witness :
  VtexClientOrder.factory
    [sample_raw_order; JObj [("orderId", JStr "v1002-01")]; raw_order "v1003-01" sample_items]
    empty_store
  = (mk_store [sample_order] [] 2 1, Raise (KeyError "shippingData")).
Proof.
  apply (factory_stops_at_failure [sample_raw_order]
           (JObj [("orderId", JStr "v1002-01")]) [raw_order "v1003-01" sample_items]
           empty_store (mk_store [sample_order] [] 2 1) [sample_order]).
  - vm_compute. reflexivity.
  - vm_compute. reflexivity.
Defined.

(** ** The fetch and the pagination the remote platform reports *)

Section FetchEdges.

Variable http : transport.
Variable cfg : settings.

(** X6: the next page is the one after the page the answer reports, not
    the one after the page requested: when the list request of [page] is
    answered as page [current] of [total], the fetch returns the orders of
    that answer if [current] is not below [total], and otherwise goes on
    with page [current + 1], keeping the headers and the query. *)
Theorem get_orders_follows_reported_page (headers : option (gmap string string))
    (querystring : option (gmap string json)) (limit : nat) (page : Z)
    (r : json) (summaries details : list json) (current total : Z) :
  http (VTEX_ORDER_LIST_API_ENDPOINT cfg)
    (default (VtexClientOrder.default_headers cfg) headers)
    (Some (<["page" := JNum page]>
             (default VtexClientOrder.default_querystring querystring))) = Ret r ->
  page_response summaries current total r ->
  Forall2 (detail_of http cfg (default (VtexClientOrder.default_headers cfg) headers))
    summaries details ->
  VtexClientOrder.get_orders http cfg (S limit) headers querystring page =
    if current <? total then
      rest ← VtexClientOrder.get_orders http cfg limit
               (Some (default (VtexClientOrder.default_headers cfg) headers))
               (Some (<["page" := JNum page]>
                        (default VtexClientOrder.default_querystring querystring)))
               (current + 1);
      Ret (details ++ rest)
    else Ret details.
Proof.
  intros Hr Hresp Hdet. rewrite get_orders_step. cbv zeta.
  rewrite (page_step_served http cfg _ _ _ _ _ _ _ Hr Hresp Hdet).
  cbn [mbind result_bind]. destruct (current <? total); reflexivity.
Qed.

(** X7: the fetch ends only when an answer reports a current page that is
    not below the number of pages. Against a platform that answers every
    list request with the same page, below the number of pages, the
    recursion uses up any limit of nested calls and the fetch raises
    [RecursionError]. *)
Theorem get_orders_remote_stuck (h : gmap string string) (r : json)
    (summaries details : list json) (current total : Z) :
  (forall q, http (VTEX_ORDER_LIST_API_ENDPOINT cfg) h (Some q) = Ret r) ->
  page_response summaries current total r ->
  Forall2 (detail_of http cfg h) summaries details ->
  current < total ->
  forall (limit : nat) (headers : option (gmap string string))
         (querystring : option (gmap string json)) (page : Z),
    default (VtexClientOrder.default_headers cfg) headers = h ->
    VtexClientOrder.get_orders http cfg limit headers querystring page
    = Raise RecursionError.
Proof.
  intros Hr Hresp Hdet Hlt limit.
  induction limit as [|limit IH]; intros headers querystring page Hh; [reflexivity|].
  rewrite get_orders_step. cbv zeta. rewrite Hh.
  rewrite (page_step_served http cfg _ _ _ _ _ _ _ (Hr _) Hresp Hdet).
  replace (current <? total) with true by (symmetry; apply Z.ltb_lt; exact Hlt).
  cbn [mbind result_bind fst snd]. rewrite IH by reflexivity. reflexivity.
Qed.

(** X8: an answer of the list endpoint without its [paging] part makes the
    fetch raise, after the detail of every order of the page was fetched:
    these details are not returned. *)
Theorem get_orders_missing_paging (headers : option (gmap string string))
    (querystring : option (gmap string json)) (limit : nat) (page : Z)
    (r : json) (summaries details : list json) (e : exn) :
  http (VTEX_ORDER_LIST_API_ENDPOINT cfg)
    (default (VtexClientOrder.default_headers cfg) headers)
    (Some (<["page" := JNum page]>
             (default VtexClientOrder.default_querystring querystring))) = Ret r ->
  py_getitem r "list" = Ret (JArr summaries) ->
  Forall2 (detail_of http cfg (default (VtexClientOrder.default_headers cfg) headers))
    summaries details ->
  py_getitem r "paging" = Raise e ->
  VtexClientOrder.get_orders http cfg (S limit) headers querystring page = Raise e.
Proof.
  intros Hr Hlist Hdet Hpaging. rewrite get_orders_step. cbv zeta.
  unfold page_step. rewrite Hr. cbn [mbind result_bind].
  rewrite Hlist. cbn [mbind result_bind py_iter].
  rewrite (order_details_served http cfg _ _ _ Hdet). cbn [mbind result_bind].
  rewrite Hpaging. reflexivity.
Qed.

End FetchEdges.

Lemma get_orders_follows_reported_page_witness :
  VtexClientOrder.get_orders skipping_http sample_cfg 2 None None 1
  = Ret [sample_detail "A"; sample_detail "E"].
Proof.
  refine (eq_trans
            (get_orders_follows_reported_page skipping_http sample_cfg None None 1 1
               (JObj [ ("list", JArr [sample_summary "A"]);
                       ("paging", JObj [("currentPage", JNum 2); ("pages", JNum 3)]) ])
               [sample_summary "A"] [sample_detail "A"] 2 3 _ _ _) _).
  - vm_compute. reflexivity.
  - split; [reflexivity|]. eexists. repeat split; reflexivity.
  - repeat constructor. eexists. split; vm_compute; reflexivity.
  - vm_compute. reflexivity.
Defined.

Lemma get_orders_remote_stuck_witness :
  VtexClientOrder.get_orders stuck_http sample_cfg 1000 None None 1
  = Raise RecursionError.
Proof.
  apply (get_orders_remote_stuck stuck_http sample_cfg
           (VtexClientOrder.default_headers sample_cfg)
           (JObj [ ("list", JArr [sample_summary "A"]);
                   ("paging", JObj [("currentPage", JNum 1); ("pages", JNum 2)]) ])
           [sample_summary "A"] [sample_detail "A"] 1 2).
  - intros q. reflexivity.
  - split; [reflexivity|]. eexists. repeat split; reflexivity.
  - repeat constructor. eexists. split; reflexivity.
  - lia.
  - reflexivity.
Defined.

Lemma get_orders_missing_paging_witness :
  VtexClientOrder.get_orders
    (fun url headers params =>
       match params with
       | Some _ => Ret (JObj [("list", JArr [sample_summary "A"])])
       | None => Ret (sample_detail "A")
       end) sample_cfg 1000 None None 1
  = Raise (KeyError "paging").
Proof.
  apply (get_orders_missing_paging _ sample_cfg None None 999 1
           (JObj [("list", JArr [sample_summary "A"])])
           [sample_summary "A"] [sample_detail "A"]).
  - reflexivity.
  - reflexivity.
  - repeat constructor. eexists. split; reflexivity.
  - reflexivity.
Defined.

(** ** Dates: the filter of the fetch and the dates of the file *)

Section Dates.

Lemma strftime_year_pad4 (y : Z) : 1000 <= y -> strftime_year y = pad4 y.
Proof.
  intros Hy. unfold strftime_year.
  replace (y <? 10) with false by (symmetry; apply Z.ltb_ge; lia).
  replace (y <? 100) with false by (symmetry; apply Z.ltb_ge; lia).
  replace (y <? 1000) with false by (symmetry; apply Z.ltb_ge; lia).
  reflexivity.
Qed.

Lemma hours_range_format_iso (d : datetime) :
  1000 <= year d ->
  Order.hours_range_format d
  = iso_seconds d +:+ "." +:+ (pad6 (microsecond d) +:+ "Z").
Proof.
  intros Hy. unfold Order.hours_range_format, iso_seconds.
  rewrite (strftime_year_pad4 _ Hy), !append_assoc. reflexivity.
Qed.

(** Below the year 1000 the year is written without padding: the date of
    the file has fewer than 8 characters, and the parser of remote
    timestamps refuses the text of the filter. *)
Example erp_strftime_year_999 :
  Order.erp_strftime (Some (mk_datetime 999 1 2 0 0 0 0)) = "0201999".
Proof. reflexivity. Qed.

Example ws_strptime_hours_range_format_year_999 :
  Order.hours_range_format (mk_datetime 999 1 2 3 4 5 0) = "999-01-02T03:04:05.000000Z"
  /\ Order.ws_strptime (Order.hours_range_format (mk_datetime 999 1 2 3 4 5 0))
     = Raise ValueError.
Proof. vm_compute. split; reflexivity. Qed.

(** X9: the parser of remote timestamps reads back what the filter of the
    fetch writes, from the year 1000 on: a valid timestamp of such a year
    rendered in the format of the filter ([%Y-%m-%dT%H:%M:%S.%fZ]) parses to
    that timestamp in whole seconds. (An earlier year is written with fewer
    than four digits, which the parser refuses.) *)
Theorem ws_strptime_hours_range_format (d : datetime) :
  valid_datetime d = true -> 1000 <= year d ->
  Order.ws_strptime (Order.hours_range_format d) = Ret (whole_seconds d).
Proof.
  intros Hv Hy. rewrite (hours_range_format_iso d Hy).
  rewrite ws_strptime_drops_after_dot by apply before_dot_iso_seconds.
  apply strptime_iso_seconds, Hv.
Qed.



Lemma pad2_inj (a b : Z) : 0 <= a <= 99 -> 0 <= b <= 99 -> pad2 a = pad2 b -> a = b.
Proof.
  intros Ha Hb H. rewrite <- (pad2_value a Ha), <- (pad2_value b Hb).
  unfold pad2 in H. injection H as H1 H2. rewrite H1, H2. reflexivity.
Qed.

Lemma pad4_inj (a b : Z) : 0 <= a <= 9999 -> 0 <= b <= 9999 -> pad4 a = pad4 b -> a = b.
Proof.
  intros Ha Hb H. rewrite <- (pad4_value a Ha), <- (pad4_value b Hb).
  unfold pad4, pad2 in H. injection H as H1 H2 H3 H4. rewrite H1, H2, H3, H4. reflexivity.
Qed.

(** X11: from the year 1000 on, the date of the file is 8 characters, day,
    month, year, and it determines the day: two valid timestamps of such
    years have the same text exactly when they have the same day, month and
    year. *)
Theorem erp_strftime_same_day (d1 d2 : datetime) :
  valid_datetime d1 = true -> valid_datetime d2 = true ->
  1000 <= year d1 -> 1000 <= year d2 ->
  String.length (Order.erp_strftime (Some d1)) = 8%nat /\
  (Order.erp_strftime (Some d1) = Order.erp_strftime (Some d2) <->
   day d1 = day d2 /\ month d1 = month d2 /\ year d1 = year d2).
Proof.
  intros Hv1 Hv2 Hy1 Hy2.
  apply valid_datetime_bounds in Hv1. apply valid_datetime_bounds in Hv2.
  unfold Order.erp_strftime.
  rewrite (strftime_year_pad4 _ Hy1), (strftime_year_pad4 _ Hy2).
  split; [reflexivity|]. split.
  - intros H.
    assert (Hparts : pad2 (day d1) = pad2 (day d2) /\ pad2 (month d1) = pad2 (month d2)
                     /\ pad4 (year d1) = pad4 (year d2)).
    { unfold pad4, pad2 in *. revert H. append_norm. intros H.
      injection H as -> -> -> -> -> -> -> ->. auto. }
    destruct Hparts as (Hday & Hmonth & Hyear).
    split; [|split]; [apply pad2_inj | apply pad2_inj | apply pad4_inj];
      solve [assumption | lia].
  - intros (Hday & Hmonth & Hyear).
    rewrite Hday, Hmonth, Hyear. reflexivity.
Qed.

End Dates.

Lemma ws_strptime_hours_range_format_witness :
  Order.ws_strptime "2021-03-04T10:15:30.000250Z" = Ret (mk_datetime 2021 3 4 10 15 30 0).
Proof.
  apply (ws_strptime_hours_range_format (mk_datetime 2021 3 4 10 15 30 250) eq_refl).
  cbn. lia.
Defined.


Lemma erp_strftime_same_day_witness :
  String.length (Order.erp_strftime (Some (mk_datetime 2021 3 4 10 15 30 0))) = 8%nat /\
  (Order.erp_strftime (Some (mk_datetime 2021 3 4 10 15 30 0))
   = Order.erp_strftime (Some (mk_datetime 2021 3 4 23 59 59 0)) <->
   4 = 4 /\ 3 = 3 /\ 2021 = 2021).
Proof.
  apply (erp_strftime_same_day (mk_datetime 2021 3 4 10 15 30 0)
           (mk_datetime 2021 3 4 23 59 59 0) eq_refl eq_refl); cbn; lia.
Defined.

(** ** The shipping address: values that are not texts *)

Section AddressEdges.

Lemma py_join_non_text (sep : string) (parts : list json) (v : json) :
  In v parts -> is_text v = false -> py_join sep parts = Raise TypeError.
Proof.
  induction parts as [|a parts IH]; intros Hin Hv; [destruct Hin|].
  destruct Hin as [-> | Hin].
  - destruct v; try discriminate; destruct parts; reflexivity.
  - specialize (IH Hin Hv). destruct a; try (destruct parts; reflexivity).
    destruct parts as [|b parts]; [destruct Hin|].
    change (py_join sep (JStr s :: b :: parts))
      with (py_join sep (b :: parts) ≫= fun t => Ret (s +:+ sep +:+ t)).
    rewrite IH. reflexivity.
Qed.

Lemma address_parts_values (fields : list (string * json)) (keys : list string) :
  VtexClientOrder.address_parts (JObj fields) keys
  = Ret (filter (fun v => py_truthy v = true)
           (map (fun key => default JNull (assoc key fields)) keys)).
Proof.
  induction keys as [|key rest IH]; [reflexivity|].
  cbn [VtexClientOrder.address_parts py_get mbind result_bind map].
  rewrite filter_cons. destruct (assoc key fields) as [v|] eqn:Hv; cbn [default from_option id].
  - destruct (py_truthy v) eqn:Ht.
    + rewrite decide_True by reflexivity.
      cbn [py_getitem]. rewrite Hv. cbn [mbind result_bind]. rewrite IH. reflexivity.
    + rewrite decide_False by discriminate. exact IH.
  - cbn [py_truthy]. rewrite decide_False by discriminate. exact IH.
Qed.

(** X12: the address mapper joins texts only. If one of street, number,
    complement and neighborhood holds a value that is true in Python and is
    not a text (a number other than 0, [true], a list or a dict that is not
    empty), the mapper raises [TypeError], and so does the mapping of the
    order. *)
Theorem address_field_not_text (order shipping_data : json)
    (fields : list (string * json)) (others : list json) (key : string) (v : json) :
  py_getitem order "shippingData" = Ret shipping_data ->
  py_getitem shipping_data "selectedAddresses" = Ret (JArr (JObj fields :: others)) ->
  In key address_keys -> assoc key fields = Some v ->
  py_truthy v = true -> is_text v = false ->
  VtexClientOrder.format_ws_address_data order = Raise TypeError /\
  VtexClientOrder.factory_defaults order = Raise TypeError.
Proof.
  intros Hsd Hsel Hkey Hv Htrue Htext.
  assert (Hfmt : VtexClientOrder.format_ws_address_data order = Raise TypeError).
  { unfold VtexClientOrder.format_ws_address_data.
    rewrite Hsd. cbn [mbind result_bind]. rewrite Hsel. cbn [mbind result_bind py_first].
    fold address_keys. rewrite address_parts_values. cbn [mbind result_bind].
    rewrite (py_join_non_text " " _ v); [reflexivity| |exact Htext].
    apply list_elem_of_In, list_elem_of_filter. split; [exact Htrue|].
    apply list_elem_of_In, in_map_iff. exists key. rewrite Hv. auto. }
  split; [exact Hfmt|].
  unfold VtexClientOrder.factory_defaults. rewrite Hfmt. reflexivity.
Qed.

End AddressEdges.

Lemma address_field_not_text_witness :
  VtexClientOrder.format_ws_address_data
    (JObj [("shippingData",
            JObj [("selectedAddresses",
                   JArr [JObj [("street", JStr "Main"); ("number", JNum 42)]])])])
    = Raise TypeError /\
  VtexClientOrder.factory_defaults
    (JObj [("shippingData",
            JObj [("selectedAddresses",
                   JArr [JObj [("street", JStr "Main"); ("number", JNum 42)]])])])
    = Raise TypeError.
Proof.
  apply (address_field_not_text _
           (JObj [("selectedAddresses",
                   JArr [JObj [("street", JStr "Main"); ("number", JNum 42)]])])
           [("street", JStr "Main"); ("number", JNum 42)] [] "number" (JNum 42));
    try reflexivity.
  right. left. reflexivity.
Defined.

(** ** The item factory and the items table *)

Section ItemTable.

Lemma items_hold_rows (order : Order.t) (specs : list (string * Z * Z)) :
  forall (index : Z) (rows : list OrderItem.t),
    items_hold order index specs rows ->
    map OrderItem.ean rows = map ean_of specs /\
    Forall (fun r => OrderItem.order_id r = Order.pk order) rows /\
    map OrderItem.item_number rows = seqZ (index + 1) (Z.of_nat (length specs)).
Proof.
  induction specs as [|[[ean quantity] price] specs IH]; intros index [|r rows];
    cbn [items_hold]; try contradiction.
  - intros _. split; [reflexivity|]. split; [constructor | reflexivity].
  - intros [(Hoid & Hnum & Hean & _) Hrest].
    destruct (IH (index + 1) rows Hrest) as (Heans & Hoids & Hnums).
    cbn [map length]. split; [|split].
    + rewrite Hean, Heans. reflexivity.
    + constructor; assumption.
    + rewrite (seqZ_cons (index + 1)) by lia. rewrite Hnum, Hnums.
      do 2 f_equal; lia.
Qed.

(** The inner loop on a table without a row of the order for the product
    codes listed, the codes being distinct: each entry makes a new row at
    the end of the table. *)
Lemma factory_items_fresh (order : Order.t) (items : list json)
    (specs : list (string * Z * Z)) :
  Forall2 item_shape items specs ->
  NoDup (map ean_of specs) ->
  forall (index : Z) (st : store),
    (forall r, In r (order_items st) -> OrderItem.order_id r = Order.pk order ->
               ~ In (OrderItem.ean r) (map ean_of specs)) ->
    exists st1 rows,
      VtexClientOrderItem.factory_items order index items st = (st1, Ret rows) /\
      order_items st1 = order_items st ++ rows /\
      items_hold order index specs rows /\
      Forall2 (row_of_entry order (order_items st1)) specs rows.
Proof.
  induction 1 as [|item [[ean quantity] price] items specs Hshape _ IH];
    intros Hnodup index st Hfresh.
  - exists st, []. cbn. rewrite app_nil_r. repeat split; constructor.
  - cbn [map ean_of fst] in Hnodup, Hfresh. apply NoDup_cons in Hnodup.
    destruct Hnodup as [Hnotin Hnodup]. rewrite list_elem_of_In in Hnotin.
    cbn [VtexClientOrderItem.factory_items]. unfold db_bind at 1, db_lift.
    rewrite (item_arguments_shape index item ean quantity price Hshape). cbn [fst snd].
    assert (Hnone : find_rows (VtexClientOrderItem.same_key (Order.pk order) ean) 0
                      (order_items st) = []).
    { apply find_rows_none. intros r Hr.
      destruct (VtexClientOrderItem.same_key (Order.pk order) ean r) eqn:Hk; [|reflexivity].
      apply item_same_key_inv in Hk. destruct Hk as [Hoid Hean].
      exfalso. apply (Hfresh r Hr Hoid). left. congruence. }
    unfold db_bind at 1. unfold VtexClientOrderItem.update_or_create. rewrite Hnone.
    set (r0 := VtexClientOrderItem.init (next_item_pk st) (Order.pk order) ean _).
    set (st' := mk_store _ _ _ _).
    destruct (IH Hnodup (index + 1) st') as (st1 & rows & Hrun & Htable & Hhold & Hrows).
    { intros r Hr Hoid Hin. unfold st' in Hr. cbn [order_items] in Hr.
      apply in_app_iff in Hr. destruct Hr as [Hr | [<- | []]].
      - apply (Hfresh r Hr Hoid). right. exact Hin.
      - apply Hnotin. exact Hin. }
    unfold db_bind, db_ret. rewrite Hrun.
    exists st1, (r0 :: rows). split; [reflexivity|].
    assert (Htable' : order_items st1 = order_items st ++ r0 :: rows)
      by (rewrite Htable; unfold st'; cbn [order_items]; rewrite <- app_assoc; reflexivity).
    split; [exact Htable'|]. split; [|constructor; [|exact Hrows]].
    + cbn [items_hold item_holds]. split; [|exact Hhold]. repeat split.
    + exists (0 + length (order_items st))%nat. cbn [ean_of fst].
      rewrite Htable', find_rows_app_list, Hnone. cbn [app find_rows].
      rewrite (item_same_key_refl (Order.pk order) ean r0) by reflexivity.
      rewrite find_rows_none; [reflexivity|].
      intros r Hr.
      destruct (VtexClientOrderItem.same_key (Order.pk order) ean r) eqn:Hk; [|reflexivity].
      apply item_same_key_inv in Hk. destruct Hk as [_ Hean].
      exfalso. apply Hnotin.
      destruct (items_hold_rows order specs (index + 1) rows Hhold) as (Heans & _ & _).
      rewrite <- Heans, <- Hean. apply in_map. exact Hr.
Qed.

(** The upsert of an item whose row already holds [defaults] leaves the
    store as it is. *)
Lemma item_update_or_create_again (st : store) (order : Order.t) (ean : string)
    (d : VtexClientOrderItem.defaults) (i : nat) (r : OrderItem.t) :
  find_rows (VtexClientOrderItem.same_key (Order.pk order) ean) 0 (order_items st)
    = [(i, r)] ->
  VtexClientOrderItem.set_defaults r d = r ->
  VtexClientOrderItem.update_or_create order ean d st = (st, Ret r).
Proof.
  intros Hfind Hsame. unfold VtexClientOrderItem.update_or_create. rewrite Hfind, Hsame.
  assert (Hpos : In (i, r) (find_rows
            (VtexClientOrderItem.same_key (Order.pk order) ean) 0 (order_items st)))
    by (rewrite Hfind; left; reflexivity).
  apply find_rows_position in Hpos. destruct Hpos as (_ & Hlook & _).
  rewrite Nat.sub_0_r in Hlook. rewrite (list_insert_id _ _ _ Hlook).
  destruct st; reflexivity.
Qed.

Lemma factory_items_again (order : Order.t) (items : list json)
    (specs : list (string * Z * Z)) (st : store) :
  Forall2 item_shape items specs ->
  forall (index : Z) (rows : list OrderItem.t),
    items_hold order index specs rows ->
    Forall2 (row_of_entry order (order_items st)) specs rows ->
    VtexClientOrderItem.factory_items order index items st = (st, Ret rows).
Proof.
  induction 1 as [|item [[ean quantity] price] items specs Hshape _ IH];
    intros index [|r rows]; cbn [items_hold]; try contradiction.
  - intros _ _. reflexivity.
  - intros [Hholds Hrest] Hrows. inversion Hrows as [|? ? ? ? [i Hfind] Hrows']; subst.
    cbn [VtexClientOrderItem.factory_items]. unfold db_bind at 1, db_lift.
    rewrite (item_arguments_shape index item ean quantity price Hshape). cbn [fst snd].
    unfold db_bind at 1.
    rewrite (item_update_or_create_again st order ean _ i r Hfind).
    + unfold db_bind, db_ret. rewrite (IH (index + 1) rows Hrest Hrows'). reflexivity.
    + destruct Hholds as (_ & Hnum & _ & Hqty & Hprice & _).
      destruct r. cbn in *. subst. reflexivity.
Qed.

Lemma item_factory_single (order : Order.t) (items : list json) (st : store) :
  py_getitem (Order.from_api order) "items" = Ret (JArr items) ->
  VtexClientOrderItem.factory [order] st =
    match VtexClientOrderItem.factory_items order 0 items st with
    | (st1, Ret rows) => (st1, Ret rows)
    | other => other
    end.
Proof.
  intros Hitems. cbn [VtexClientOrderItem.factory]. unfold db_bind, db_lift, db_ret.
  rewrite Hitems. cbn [py_iter].
  destruct (VtexClientOrderItem.factory_items order 0 items st) as [st1 [rows| |]];
    [rewrite app_nil_r|..]; reflexivity.
Qed.

(** X13: on the first ingestion of an order (no row of the order in the
    items table, distinct product codes in its item list), the item factory
    adds one row per entry to the table and changes no other row: the items
    of the order are then the rows it returns, in whatever order the table
    gives them; the returned rows are those of the entries in the order of
    the list, numbered 1, 2, ...; and a second run of the item factory on
    the order returns the same rows and leaves the table as it is. *)
Theorem first_ingestion_items (st : store) (order : Order.t) (items : list json)
    (specs : list (string * Z * Z)) :
  VtexClientOrder.orderitem_set st order = [] ->
  NoDup (map ean_of specs) ->
  py_getitem (Order.from_api order) "items" = Ret (JArr items) ->
  Forall2 item_shape items specs ->
  exists st1 rows,
    VtexClientOrderItem.factory [order] st = (st1, Ret rows) /\
    order_items st1 ≡ₚ order_items st ++ rows /\
    VtexClientOrder.orderitem_set st1 order ≡ₚ rows /\
    items_hold order 0 specs rows /\
    map OrderItem.item_number rows = seqZ 1 (Z.of_nat (length items)) /\
    VtexClientOrderItem.factory [order] st1 = (st1, Ret rows).
Proof.
  intros Hempty Hnodup Hitems Hshape.
  destruct (factory_items_fresh order items specs Hshape Hnodup 0 st)
    as (st1 & rows & Hrun & Htable & Hhold & Hrows).
  { intros r Hr Hoid _.
    apply (filter_nil_not_elem_of _ _ r Hempty Hoid). apply list_elem_of_In, Hr. }
  destruct (items_hold_rows order specs 0 rows Hhold) as (_ & Hoids & Hnums).
  exists st1, rows. split; [|split; [rewrite Htable; reflexivity|split; [|split; [|split]]]].
  - rewrite (item_factory_single order items st Hitems), Hrun. reflexivity.
  - unfold VtexClientOrder.orderitem_set in *. rewrite Htable, filter_app, Hempty.
    cbn [app]. clear -Hoids. induction Hoids as [|r rows Hr _ IH]; [reflexivity|].
    rewrite filter_cons_True by exact Hr. rewrite IH. reflexivity.
  - exact Hhold.
  - rewrite Hnums. rewrite (Forall2_length _ _ _ Hshape). reflexivity.
  - rewrite (item_factory_single order items st1 Hitems).
    rewrite (factory_items_again order items specs st1 Hshape 0 rows Hhold Hrows).
    reflexivity.
Qed.

(** X14: the item factory has no rollback either. When an entry of the item
    list cannot be read, the factory ends with that exception; the rows of
    the entries before it stay written, and neither the entries after it nor
    the orders after this one are processed. *)
Theorem item_factory_stops_at_failure (order : Order.t) (more : list Order.t)
    (done : list json) (bad : json) (pending : list json)
    (st st1 : store) (rows : list OrderItem.t) (e : exn) :
  py_getitem (Order.from_api order) "items" = Ret (JArr (done ++ bad :: pending)) ->
  VtexClientOrderItem.factory_items order 0 done st = (st1, Ret rows) ->
  VtexClientOrderItem.item_arguments (Z.of_nat (length done)) bad = Raise e ->
  VtexClientOrderItem.factory (order :: more) st = (st1, Raise e).
Proof.
  intros Hitems Hdone Hbad.
  assert (Hloop : forall done index st rows,
            VtexClientOrderItem.factory_items order index done st = (st1, Ret rows) ->
            VtexClientOrderItem.item_arguments (index + Z.of_nat (length done)) bad
              = Raise e ->
            VtexClientOrderItem.factory_items order index (done ++ bad :: pending) st
            = (st1, Raise e)).
  { clear. induction done as [|item done IH]; intros index st rows Hdone Hbad.
    - cbn in Hdone. injection Hdone as <- _. cbn [length Z.of_nat] in Hbad.
      rewrite Z.add_0_r in Hbad.
      cbn [app VtexClientOrderItem.factory_items]. unfold db_bind, db_lift.
      rewrite Hbad. reflexivity.
    - cbn [app VtexClientOrderItem.factory_items] in *.
      unfold db_bind, db_lift, db_ret in *.
      destruct (VtexClientOrderItem.item_arguments index item) as [args| |];
        [|discriminate..].
      destruct (VtexClientOrderItem.update_or_create order _ _ st) as [st' [r| |]];
        [|discriminate..].
      destruct (VtexClientOrderItem.factory_items order (index + 1) done st')
        as [st'' [rows'| |]] eqn:Hrest; [|discriminate..].
      injection Hdone as <- _.
      rewrite (IH (index + 1) st' rows' Hrest); [reflexivity|].
      rewrite <- Hbad. f_equal. cbn [length]. lia. }
  cbn [VtexClientOrderItem.factory]. unfold db_bind, db_lift.
  rewrite Hitems. cbn [py_iter]. rewrite (Hloop done 0 st rows Hdone Hbad). reflexivity.
Qed.

End ItemTable.

Lemma first_ingestion_items_witness :
  exists st1 rows,
    VtexClientOrderItem.factory [shop_row 3 "v1003-01"] shop_store = (st1, Ret rows) /\
    order_items st1 ≡ₚ order_items shop_store ++ rows /\
    VtexClientOrder.orderitem_set st1 (shop_row 3 "v1003-01") ≡ₚ rows /\
    items_hold (shop_row 3 "v1003-01") 0
      [("7701234567890", 2, 19990); ("7709876543210", 1, 4550)] rows /\
    map OrderItem.item_number rows = [1; 2] /\
    VtexClientOrderItem.factory [shop_row 3 "v1003-01"] st1 = (st1, Ret rows).
Proof.
  apply (first_ingestion_items shop_store (shop_row 3 "v1003-01") sample_items
           [("7701234567890", 2, 19990); ("7709876543210", 1, 4550)]).
  - reflexivity.
  - repeat constructor; cbn; rewrite ?list_elem_of_In; cbn; intuition discriminate.
  - reflexivity.
  - repeat constructor.
Defined.

Lemma item_factory_stops_at_failure_witness :
  VtexClientOrderItem.factory
    [ sample_order_with
        [ JObj [("ean", JStr "7701234567890"); ("quantity", JNum 2); ("price", JNum 19990)];
          JObj [("ean", JStr "7709876543210"); ("price", JNum 4550)];
          JObj [("ean", JStr "7700000000001"); ("quantity", JNum 1); ("price", JNum 100)] ];
      sample_order ]
    (mk_store [sample_order] [] 2 1)
  = (mk_store [sample_order]
       [OrderItem.mk 1 1 "D" 1 "7701234567890" 2 199 "" 0 "001"] 2 2,
     Raise (KeyError "quantity")).
Proof.
  apply (item_factory_stops_at_failure _ [sample_order]
           [JObj [("ean", JStr "7701234567890"); ("quantity", JNum 2); ("price", JNum 19990)]]
           (JObj [("ean", JStr "7709876543210"); ("price", JNum 4550)])
           [JObj [("ean", JStr "7700000000001"); ("quantity", JNum 1); ("price", JNum 100)]]
           _ _ [OrderItem.mk 1 1 "D" 1 "7701234567890" 2 199 "" 0 "001"]).
  - reflexivity.
  - vm_compute. reflexivity.
  - reflexivity.
Defined.

(** ** The two factories in sequence *)

Section Pipeline.

(** X15: the two factories compose. From a store that satisfies the
    invariants of both tables, the order factory on a remote order returns
    the row of the order, which keeps the remote document as it is, and the
    item factory on that row returns the rows of the entries of the item
    list of the document; the invariants of both tables hold afterwards. *)
Theorem factories_compose (st : store) (raw : json) (d : VtexClientOrder.defaults)
    (items : list json) (specs : list (string * Z * Z)) :
  unique_order_numbers st -> unique_items st -> vtex_items st ->
  VtexClientOrder.factory_defaults raw = Ret d ->
  py_getitem raw "items" = Ret (JArr items) ->
  Forall2 item_shape items specs ->
  exists st1 o st2 rows,
    VtexClientOrder.factory [raw] st = (st1, Ret [o]) /\
    Order.from_api o = raw /\
    VtexClientOrderItem.factory [o] st1 = (st2, Ret rows) /\
    items_hold o 0 specs rows /\
    unique_order_numbers st2 /\ unique_items st2 /\ vtex_items st2.
Proof.
  intros Huniq Hitemsu Hvtex Hd Hitems Hshape.
  destruct (factory_defaults_constants raw d Hd) as [Hroute Hfrom].
  destruct (order_update_or_create st d Huniq Hroute)
    as (st1 & o & i & Hup & _ & Hsame & Huniq1).
  pose proof (order_update_or_create_items (VtexClientOrder.d_order_number d) d st) as Htable.
  rewrite Hup in Htable. cbn [fst] in Htable.
  assert (Hraw : Order.from_api o = raw).
  { apply (f_equal Order.from_api) in Hsame. cbn in Hsame. congruence. }
  assert (Hitemsu1 : unique_items st1) by (unfold unique_items; rewrite Htable; exact Hitemsu).
  assert (Hvtex1 : vtex_items st1) by (unfold vtex_items; rewrite Htable; exact Hvtex).
  destruct (factory_items_shape o items specs Hshape 0 st1 Hitemsu1 Hvtex1)
    as (st2 & rows & Hrun & Hhold & Hitemsu2 & Hvtex2 & Horders).
  exists st1, o, st2, rows. split; [|split; [exact Hraw|split; [|split; [exact Hhold|]]]].
  - rewrite (factory_single raw d st Hd), Hup. reflexivity.
  - rewrite (item_factory_single o items st1) by (rewrite Hraw; exact Hitems).
    rewrite Hrun. reflexivity.
  - split; [|split; assumption]. unfold unique_order_numbers. rewrite Horders. exact Huniq1.
Qed.

Lemma order_update_or_create_pks (order_number : string)
    (d : VtexClientOrder.defaults) (st : store) :
  order_pks_fresh st ->
  order_pks_fresh (fst (VtexClientOrder.update_or_create order_number d st)).
Proof.
  intros [Hnodup Hbelow]. unfold VtexClientOrder.update_or_create.
  destruct (find_rows _ 0 (orders st)) as [|[i r] [|? ?]] eqn:Hfind;
    cbn [fst]; [| |split; assumption].
  - split; cbn [orders next_order_pk].
    + rewrite map_app. cbn [map VtexClientOrder.init Order.pk].
      apply NoDup_app. split; [exact Hnodup|]. split; [|apply NoDup_singleton].
      intros x Hx Hin. apply list_elem_of_In in Hx. apply in_map_iff in Hx.
      destruct Hx as (r & <- & Hr). apply list_elem_of_In in Hr.
      pose proof (proj1 (Forall_forall _ _) Hbelow r Hr) as Hlt. cbn in Hlt.
      apply list_elem_of_singleton in Hin. lia.
    + apply Forall_app. split.
      * eapply Forall_impl; [exact Hbelow|]. cbn. intros; lia.
      * constructor; [cbn; lia|constructor].
  - assert (Hpos : In (i, r) (find_rows (VtexClientOrder.same_key order_number) 0 (orders st)))
      by (rewrite Hfind; left; reflexivity).
    apply find_rows_position in Hpos. destruct Hpos as (_ & Hlook & _).
    rewrite Nat.sub_0_r in Hlook.
    split; cbn [orders next_order_pk].
    + replace (map Order.pk (<[i := VtexClientOrder.set_defaults r d]> (orders st)))
        with (map Order.pk (orders st)); [exact Hnodup|].
      symmetry. change (map Order.pk) with (fmap (M := list) Order.pk).
      rewrite list_fmap_insert. apply list_insert_id.
      rewrite list_lookup_fmap, Hlook. reflexivity.
    + apply Forall_insert; [exact Hbelow|].
      exact (Forall_lookup_1 _ _ _ _ Hbelow Hlook).
Qed.

(** X16: the order factory keeps the primary keys of the orders table
    distinct and below the next key, on any list of remote orders and
    whatever the outcome: a new row takes the next key, an updated row keeps
    its key. *)
Theorem factory_keeps_pks (orders_from_api : list json) (st : store) :
  order_pks_fresh st ->
  order_pks_fresh (fst (VtexClientOrder.factory orders_from_api st)).
Proof.
  revert st. induction orders_from_api as [|order rest IH]; intros st Hst; [exact Hst|].
  cbn [VtexClientOrder.factory]. unfold db_bind, db_lift, db_ret.
  destruct (VtexClientOrder.factory_defaults order) as [d| |]; [|exact Hst..].
  pose proof (order_update_or_create_pks (VtexClientOrder.d_order_number d) d st Hst) as Hup.
  destruct (VtexClientOrder.update_or_create _ d st) as [st1 [o| |]];
    cbn [fst] in *; [|assumption..].
  specialize (IH st1 Hup).
  destruct (VtexClientOrder.factory rest st1) as [st2 [rows| |]]; exact IH.
Qed.

End Pipeline.

Lemma factories_compose_witness :
  exists st1 o st2 rows,
    VtexClientOrder.factory [sample_raw_order] empty_store = (st1, Ret [o]) /\
    Order.from_api o = sample_raw_order /\
    VtexClientOrderItem.factory [o] st1 = (st2, Ret rows) /\
    items_hold o 0 [("7701234567890", 2, 19990); ("7709876543210", 1, 4550)] rows /\
    unique_order_numbers st2 /\ unique_items st2 /\ vtex_items st2.
Proof.
  apply (factories_compose empty_store sample_raw_order sample_defaults sample_items
           [("7701234567890", 2, 19990); ("7709876543210", 1, 4550)]).
  - intros k. cbn. lia.
  - intros oid e. cbn. lia.
  - constructor.
  - vm_compute. reflexivity.
  - reflexivity.
  - repeat constructor.
Defined.

Lemma factory_keeps_pks_witness :
  order_pks_fresh
    (fst (VtexClientOrder.factory
            [sample_raw_order; raw_order "v1002-01" sample_items; sample_raw_order_reordered]
            empty_store)).
Proof.
  apply (factory_keeps_pks
           [sample_raw_order; raw_order "v1002-01" sample_items; sample_raw_order_reordered]
           empty_store).
  split; constructor.
Defined.

(** ** The delivery *)

Section Delivery.

Lemma orders_written_refused (can_write : string -> bool) (done : list Order.t)
    (refused : Order.t) (pending : list Order.t) :
  Forall (fun order => can_write (VtexClientOrder.file_path order) = true) done ->
  can_write (VtexClientOrder.file_path refused) = false ->
  VtexClientOrder.orders_written can_write (done ++ refused :: pending)
  = (done, Raise IOError).
Proof.
  intros Hdone Hrefused. induction Hdone as [|o done Ho _ IH];
    cbn [app VtexClientOrder.orders_written].
  - rewrite Hrefused. reflexivity.
  - rewrite Ho, IH. reflexivity.
Qed.

Lemma orders_written_writable (can_write : string -> bool) (rows : list Order.t) :
  Forall (fun order => can_write (VtexClientOrder.file_path order) = true) rows ->
  VtexClientOrder.orders_written can_write rows = (rows, Ret tt).
Proof.
  induction 1 as [|o rows Ho _ IH]; cbn [VtexClientOrder.orders_written]; [reflexivity|].
  rewrite Ho, IH. reflexivity.
Qed.

(** X17: the delivery has no rollback. When the connection is accepted and
    the server refuses the file of one order of the batch, [upload_to_sftp]
    ends with the exception of the refusal: the files of the orders before
    it are written and stay written, and every file that is not the file of
    one of these orders, the file of the refused order and those of the
    orders after it among them, is as it was. *)
Theorem upload_stops_at_refused_file (cfg : settings) (st : store)
    (server : sftp_server) (done : list Order.t) (refused : Order.t)
    (pending : list Order.t) :
  accepts server (SFTP_HOSTNAME cfg) (SFTP_PORT cfg)
    (SFTP_USERNAME cfg) (SFTP_PASSWORD cfg) = true ->
  Forall (fun order => writable server (VtexClientOrder.file_path order) = true) done ->
  writable server (VtexClientOrder.file_path refused) = false ->
  VtexClientOrder.upload_to_sftp cfg st server (done ++ refused :: pending)
  = (mk_sftp (accepts server) (writable server)
       (VtexClientOrder.create_order_files st (remote_files server) done),
     Raise IOError)
  /\ (forall order, last_upsert done order ->
        VtexClientOrder.create_order_files st (remote_files server) done
          !! VtexClientOrder.file_path order
        = Some (VtexClientOrder.file_text order (VtexClientOrder.orderitem_set st order)))
  /\ (forall path,
        (forall order, In order done -> VtexClientOrder.file_path order <> path) ->
        VtexClientOrder.create_order_files st (remote_files server) done !! path
        = remote_files server !! path).
Proof.
  intros Haccepts Hdone Hrefused. split; [|split].
  - unfold VtexClientOrder.upload_to_sftp. rewrite Haccepts.
    rewrite (orders_written_refused _ _ _ _ Hdone Hrefused). reflexivity.
  - intros order. apply create_order_files_last.
  - intros path. apply create_order_files_other.
Qed.

(** X18: for a batch of orders with distinct order numbers, on a server
    that accepts the connection and lets the file of each order be written,
    [upload_to_sftp] ends normally; it leaves in the file of each order the
    text of that order, with its items as the table returns them, and it
    leaves every other file of the remote store as it was. *)
Theorem upload_to_sftp_batch (cfg : settings) (st : store) (server : sftp_server)
    (orders_from_db : list Order.t) :
  accepts server (SFTP_HOSTNAME cfg) (SFTP_PORT cfg)
    (SFTP_USERNAME cfg) (SFTP_PASSWORD cfg) = true ->
  Forall (fun order => writable server (VtexClientOrder.file_path order) = true)
    orders_from_db ->
  NoDup (map Order.order_number orders_from_db) ->
  exists files,
    VtexClientOrder.upload_to_sftp cfg st server orders_from_db
    = (mk_sftp (accepts server) (writable server) files, Ret tt) /\
    (forall order, In order orders_from_db ->
       files !! VtexClientOrder.file_path order
       = Some (VtexClientOrder.file_text order (VtexClientOrder.orderitem_set st order))) /\
    (forall path,
       (forall order, In order orders_from_db -> VtexClientOrder.file_path order <> path) ->
       files !! path = remote_files server !! path).
Proof.
  intros Haccepts Hwritable Hnodup.
  exists (VtexClientOrder.create_order_files st (remote_files server) orders_from_db).
  split; [|split; [|intros path; apply create_order_files_other]].
  - unfold VtexClientOrder.upload_to_sftp. rewrite Haccepts.
    rewrite (orders_written_writable _ _ Hwritable). reflexivity.
  - clear Hwritable. generalize (remote_files server).
    induction orders_from_db as [|o rest IH]; intros sftp order Hin; [destruct Hin|].
    cbn [map] in Hnodup. apply NoDup_cons in Hnodup. destruct Hnodup as [Hnotin Hnodup].
    cbn [VtexClientOrder.create_order_files]. destruct Hin as [<- | Hin].
    + rewrite create_order_files_other; [apply lookup_insert_eq|].
      intros o' Ho' Hpath. apply Hnotin. apply list_elem_of_In.
      rewrite <- (file_path_number _ _ Hpath). apply in_map. exact Ho'.
    + apply IH; assumption.
Qed.

End Delivery.

Lemma upload_stops_at_refused_file_witness :
  VtexClientOrder.upload_to_sftp sample_cfg shop_store picky_server
    ([shop_row 1 "v1001-01"] ++ shop_row 2 "v1002-01" :: [shop_row 3 "v1003-01"])
  = (mk_sftp (accepts picky_server) (writable picky_server)
       (VtexClientOrder.create_order_files shop_store (remote_files picky_server)
          [shop_row 1 "v1001-01"]),
     Raise IOError)
  /\ VtexClientOrder.create_order_files shop_store (remote_files picky_server)
       [shop_row 1 "v1001-01"] !! "ag-pruebas/v1001-01.txt"
     = Some (VtexClientOrder.file_text (shop_row 1 "v1001-01")
               [ OrderItem.mk 1 1 "D" 1 "7701234567890" 2 199 "" 0 "001";
                 OrderItem.mk 3 1 "D" 2 "7709876543210" 1 45 "" 0 "001" ])
  /\ VtexClientOrder.create_order_files shop_store (remote_files picky_server)
       [shop_row 1 "v1001-01"] !! "ag-pruebas/v1002-01.txt" = None
  /\ VtexClientOrder.create_order_files shop_store (remote_files picky_server)
       [shop_row 1 "v1001-01"] !! "ag-pruebas/v0999-01.txt" = Some "H|other".
Proof.
  destruct (upload_stops_at_refused_file sample_cfg shop_store picky_server
              [shop_row 1 "v1001-01"] (shop_row 2 "v1002-01") [shop_row 3 "v1003-01"])
    as (Hrun & Hdone & Hother).
  - reflexivity.
  - repeat constructor.
  - reflexivity.
  - split; [exact Hrun|]. split; [|split].
    + apply (Hdone (shop_row 1 "v1001-01")). exists [], []. split; [reflexivity|constructor].
    + rewrite (Hother "ag-pruebas/v1002-01.txt"); [reflexivity|].
      intros order [<- | []]. vm_compute. discriminate.
    + rewrite (Hother "ag-pruebas/v0999-01.txt"); [reflexivity|].
      intros order [<- | []]. vm_compute. discriminate.
Defined.

(** The script on a server that refuses the file of the second order: the
    three orders and their items stay in the store, the file of the first
    order is written, and the script ends with the exception. *)
Example run_refused_file :
  let w := fst (run shop_http sample_cfg 1000 (mk_world empty_store picky_server)) in
  map Order.order_number (orders (w_store w)) = ["v1001-01"; "v1002-01"; "v1003-01"]
  /\ length (order_items (w_store w)) = 6%nat
  /\ is_Some (remote_files (w_server w) !! "ag-pruebas/v1001-01.txt")
  /\ remote_files (w_server w) !! "ag-pruebas/v1001-01.txt" <> Some "H|earlier"
  /\ remote_files (w_server w) !! "ag-pruebas/v1002-01.txt" = None
  /\ remote_files (w_server w) !! "ag-pruebas/v1003-01.txt" = None
  /\ snd (run shop_http sample_cfg 1000 (mk_world empty_store picky_server))
     = Raise IOError.
Proof.
  vm_compute. repeat split; try reflexivity; [eexists; reflexivity | discriminate].
Qed.

Example run_refused_keeps_orders :
  map Order.order_number
    (orders (w_store (fst (run shop_http sample_cfg 1000
                             (mk_world empty_store refusing_server)))))
  = ["v1001-01"; "v1002-01"; "v1003-01"]
  /\ snd (run shop_http sample_cfg 1000 (mk_world empty_store refusing_server))
     = Raise SSHException.
Proof. vm_compute. split; reflexivity. Qed.

Lemma upload_to_sftp_batch_witness :
  exists files,
    VtexClientOrder.upload_to_sftp sample_cfg shop_store open_server
      [shop_row 1 "v1001-01"; shop_row 2 "v1002-01"; shop_row 3 "v1003-01"]
    = (mk_sftp (accepts open_server) (writable open_server) files, Ret tt) /\
    (forall order,
       In order [shop_row 1 "v1001-01"; shop_row 2 "v1002-01"; shop_row 3 "v1003-01"] ->
       files !! VtexClientOrder.file_path order
       = Some (VtexClientOrder.file_text order
                 (VtexClientOrder.orderitem_set shop_store order))) /\
    (forall path,
       (forall order,
          In order [shop_row 1 "v1001-01"; shop_row 2 "v1002-01"; shop_row 3 "v1003-01"] ->
          VtexClientOrder.file_path order <> path) ->
       files !! path = remote_files open_server !! path).
Proof.
  apply (upload_to_sftp_batch sample_cfg shop_store open_server
           [shop_row 1 "v1001-01"; shop_row 2 "v1002-01"; shop_row 3 "v1003-01"]).
  - reflexivity.
  - repeat constructor.
  - repeat constructor; cbn; rewrite ?list_elem_of_In; cbn; intuition discriminate.
Defined.

(** The batch of three orders on a server that has an earlier file of the
    first: that file is replaced, the order without items gets a file that
    ends with the newline of the header, and the file of another order is
    kept. *)
Example upload_shop_batch :
  let files :=
    remote_files (fst (VtexClientOrder.upload_to_sftp sample_cfg shop_store open_server
                         [shop_row 1 "v1001-01"; shop_row 2 "v1002-01";
                          shop_row 3 "v1003-01"])) in
  files !! "ag-pruebas/v1001-01.txt"
  = Some (VtexClientOrder.file_text (shop_row 1 "v1001-01")
            [ OrderItem.mk 1 1 "D" 1 "7701234567890" 2 199 "" 0 "001";
              OrderItem.mk 3 1 "D" 2 "7709876543210" 1 45 "" 0 "001" ])
  /\ files !! "ag-pruebas/v1003-01.txt"
     = Some (String.concat "" (VtexClientOrder.get_file_headers (shop_row 3 "v1003-01"))
             +:+ newline)
  /\ files !! "ag-pruebas/v0999-01.txt" = Some "H|other"
  /\ size files = 4%nat.
Proof. vm_compute. repeat split; reflexivity. Qed.

(** ** From the timestamp of the remote order to the date of the file *)

Section HeaderDates.

Lemma ws_strptime_value_iso (d : datetime) (rest : string) :
  valid_datetime d = true ->
  ws_strptime_value (JStr (iso_seconds d +:+ "." +:+ rest)) = Ret (whole_seconds d).
Proof.
  intros Hv. cbn [ws_strptime_value].
  rewrite ws_strptime_drops_after_dot by apply before_dot_iso_seconds.
  apply strptime_iso_seconds, Hv.
Qed.

(** X19: the order date and the shipping date of the header are the days of
    the two timestamps of the remote order. If the creation date and the
    shipping estimate of the remote order are texts [YYYY-MM-DDTHH:MM:SS]
    of the year 1000 or later, followed by a dot and anything, then in the
    header of every row that holds the mapped values the fifth and the sixth
    segment are a pipe followed by day, month and year of these timestamps,
    written [DDMMYYYY]. *)
Theorem header_dates_of_remote_order (raw : json) (dfl : VtexClientOrder.defaults)
    (shipping_data logistics_info logistics : json)
    (created estimate : datetime) (rest1 rest2 : string) (o : Order.t) :
  VtexClientOrder.factory_defaults raw = Ret dfl ->
  py_getitem raw "creationDate" = Ret (JStr (iso_seconds created +:+ "." +:+ rest1)) ->
  py_getitem raw "shippingData" = Ret shipping_data ->
  py_getitem shipping_data "logisticsInfo" = Ret logistics_info ->
  py_first logistics_info = Ret logistics ->
  py_getitem logistics "shippingEstimateDate"
    = Ret (JStr (iso_seconds estimate +:+ "." +:+ rest2)) ->
  valid_datetime created = true -> valid_datetime estimate = true ->
  1000 <= year created -> 1000 <= year estimate ->
  holds_defaults o dfl ->
  nth 4 (VtexClientOrder.get_file_headers o) ""
    = "|" +:+ pad2 (day created) +:+ pad2 (month created) +:+ pad4 (year created)
  /\ nth 5 (VtexClientOrder.get_file_headers o) ""
     = "|" +:+ pad2 (day estimate) +:+ pad2 (month estimate) +:+ pad4 (year estimate).
Proof.
  intros Hd Hcreated Hsd Hli Hfirst Hest Hv1 Hv2 Hy1 Hy2 Hrow.
  unfold VtexClientOrder.factory_defaults in Hd.
  destruct (VtexClientOrder.format_ws_address_data raw) as [a| |]; [|discriminate..].
  cbn [mbind result_bind] in Hd. rewrite Hcreated in Hd. cbn [mbind result_bind] in Hd.
  rewrite (ws_strptime_value_iso created rest1 Hv1) in Hd. cbn [mbind result_bind] in Hd.
  rewrite Hsd in Hd. cbn [mbind result_bind] in Hd.
  rewrite Hli in Hd. cbn [mbind result_bind] in Hd.
  rewrite Hfirst in Hd. cbn [mbind result_bind] in Hd.
  rewrite Hest in Hd. cbn [mbind result_bind] in Hd.
  rewrite (ws_strptime_value_iso estimate rest2 Hv2) in Hd. cbn [mbind result_bind] in Hd.
  invert_binds Hd. injection Hd as <-.
  destruct Hrow as (Hcreated_at & Hestimate_at & _).
  cbn [VtexClientOrder.d_order_created_at VtexClientOrder.d_shipping_stimate_date]
    in Hcreated_at, Hestimate_at.
  unfold VtexClientOrder.get_file_headers. cbn [nth].
  rewrite Hcreated_at, Hestimate_at.
  cbn [Order.erp_strftime whole_seconds year month day].
  rewrite (strftime_year_pad4 _ Hy1), (strftime_year_pad4 _ Hy2). split; reflexivity.
Qed.

End HeaderDates.

Lemma header_dates_of_remote_order_witness :
  nth 4 (VtexClientOrder.get_file_headers sample_order) "" = "|04032021"
  /\ nth 5 (VtexClientOrder.get_file_headers sample_order) "" = "|09032021".
Proof.
  exact (header_dates_of_remote_order sample_raw_order sample_defaults
           sample_shipping_data
           (JArr [JObj [("shippingEstimateDate", JStr "2021-03-09T00:00:00.0000000+00:00")]])
           (JObj [("shippingEstimateDate", JStr "2021-03-09T00:00:00.0000000+00:00")])
           (mk_datetime 2021 3 4 10 15 30 0) (mk_datetime 2021 3 9 0 0 0 0)
           "1234567+00:00" "0000000+00:00" sample_order
           eq_refl eq_refl eq_refl eq_refl eq_refl eq_refl eq_refl eq_refl
           ltac:(cbn; lia) ltac:(cbn; lia) ltac:(cbn; repeat split)).
Defined.
